(** * Stock and price synchronisation scripts: seller.py (Ozon) and market.py (Yandex.Market)

    A shallow embedding of the two scripts and the properties of their
    reconciliation, batching, pagination and error handling.

    Conventions of the embedding.
    - A Python [str] is a [string]: the bytes of its UTF-8 encoding.  Every
      string operation of the scripts (comparison, membership, splitting on
      ".", deleting what is not in [0-9]) gives the same answer on the bytes
      as on the code points, a non-ASCII code point being encoded with bytes
      above 127 only.
    - A Python [int] is a [Z].
    - Values read from the supplier spreadsheet are [pyval]: [None], an
      integer or a string.  Floating-point cells are outside the model.
    - A raised exception is the [Raise] case of [result]; the effects on the
      outside world (requests sent, lines printed) are threaded through an
      explicit [World]. *)

From Stdlib Require Import ZArith DecimalString DecimalZ Ascii.
From stdpp Require Import base option list strings gmap.

Open Scope Z_scope.

(** ** Python values, exceptions and builtins *)

Module Py.

(** The exception classes the scripts can meet.  [ReadTimeout],
    [ConnectTimeout], [ConnectionError], [HTTPError] are those of
    [requests.exceptions]; in that library [ConnectTimeout] derives from
    [ConnectionError] and [ReadTimeout] does not.  [KeyboardInterrupt] and
    [SystemExit] derive from [BaseException] only. *)
Inductive exn : Type :=
  | ReadTimeout
  | ConnectTimeout
  | ConnectionError
  | HTTPError
  | ValueError
  | TypeError
  | AttributeError
  | EnvError
  | OtherException (name : string)
  | KeyboardInterrupt
  | SystemExit.

(** [isinstance(e, requests.exceptions.ReadTimeout)] *)
Definition is_ReadTimeout (e : exn) : bool :=
  match e with ReadTimeout => true | _ => false end.

(** [isinstance(e, requests.exceptions.ConnectionError)] *)
Definition is_ConnectionError (e : exn) : bool :=
  match e with ConnectionError | ConnectTimeout => true | _ => false end.

(** [isinstance(e, Exception)] *)
Definition is_Exception (e : exn) : bool :=
  match e with KeyboardInterrupt | SystemExit => false | _ => true end.

Inductive result (A : Type) : Type :=
  | Ok (a : A)
  | Raise (e : exn).
Arguments Ok {A} a.
Arguments Raise {A} e.

#[global] Instance result_ret : MRet result := @Ok.
#[global] Instance result_bind : MBind result := λ A B f r,
  match r with Ok a => f a | Raise e => Raise e end.

Inductive pyval : Type :=
  | PyNone
  | PyInt (z : Z)
  | PyStr (s : string).

#[global] Instance pyval_eq_dec : EqDecision pyval.
Proof. solve_decision. Defined.

(** [str(v)] *)
Definition py_str (v : pyval) : string :=
  match v with
  | PyNone => "None"
  | PyInt z => NilZero.string_of_int (Z.to_int z)
  | PyStr s => s
  end.

(** [not v] is [negb (py_truthy v)] *)
Definition py_truthy (v : pyval) : bool :=
  match v with
  | PyNone => false
  | PyInt z => negb (z =? 0)
  | PyStr s => negb (String.eqb s EmptyString)
  end.

Definition is_digit (c : ascii) : bool :=
  let n := nat_of_ascii c in ((48 <=? n) && (n <=? 57))%nat.

Definition digit_value (c : ascii) : Z := Z.of_nat (nat_of_ascii c) - 48.

(** ASCII white space as [int()] and [str.strip] see it. *)
Definition is_space (c : ascii) : bool :=
  let n := nat_of_ascii c in
  (((9 <=? n) && (n <=? 13)) || ((28 <=? n) && (n <=? 32)))%nat.

Fixpoint lstrip (s : string) : string :=
  match s with
  | String c r => if is_space c then lstrip r else s
  | EmptyString => EmptyString
  end.

Fixpoint rstrip (s : string) : string :=
  match s with
  | String c r =>
      match rstrip r with
      | EmptyString => if is_space c then EmptyString else String c EmptyString
      | r' => String c r'
      end
  | EmptyString => EmptyString
  end.

(** [s.strip()] *)
Definition strip (s : string) : string := rstrip (lstrip s).

(** Decimal digits, single underscores allowed between two digits.
    [after_digit] tells whether the previous character was a digit. *)
Fixpoint parse_digits (acc : Z) (after_digit : bool) (s : string) : option Z :=
  match s with
  | EmptyString => if after_digit then Some acc else None
  | String c r =>
      if is_digit c then parse_digits (10 * acc + digit_value c) true r
      else if Ascii.eqb c "_" && after_digit then parse_digits acc false r
      else None
  end.

(** [int(s)] for a string, base 10: surrounding white space, an optional
    sign, then digits.  Restricted to ASCII; the interpreter's configurable
    limit on the number of digits is not modelled. *)
Definition py_int_str (s : string) : result Z :=
  let body := strip s in
  let parsed :=
    match body with
    | String c r =>
        if Ascii.eqb c "-" then Z.opp <$> parse_digits 0 false r
        else if Ascii.eqb c "+" then parse_digits 0 false r
        else parse_digits 0 false body
    | EmptyString => parse_digits 0 false body
    end in
  match parsed with
  | Some z => Ok z
  | None => Raise ValueError
  end.

(** [int(v)] *)
Definition py_int (v : pyval) : result Z :=
  match v with
  | PyNone => Raise TypeError
  | PyInt z => Ok z
  | PyStr s => py_int_str s
  end.

(** [d.get(k)] on a dictionary: [None] when the key is absent. *)
Definition dict_get (d : gmap string pyval) (k : string) : pyval :=
  default PyNone (d !! k).

(** [l.remove(x)]: drops the first occurrence, [ValueError] when there is
    none. *)
Fixpoint py_remove (x : string) (l : list string) : result (list string) :=
  match l with
  | [] => Raise ValueError
  | y :: r =>
      if decide (x = y) then Ok r
      else r' ← py_remove x r; Ok (y :: r')
  end.

(** [list(range(start, stop, step))] *)
Definition py_range (start stop step : Z) : result (list Z) :=
  if step =? 0 then Raise ValueError
  else
    let n := if 0 <? step
             then (stop - start + step - 1) / step
             else (start - stop - step - 1) / (- step) in
    Ok (map (λ k, start + Z.of_nat k * step) (seq 0 (Z.to_nat n))).

(** A slice bound brought into [0, len]: negative bounds count from the
    end. *)
Definition slice_bound (len i : Z) : Z :=
  if i <? 0 then Z.max 0 (i + len) else Z.min i len.

(** [l[i:j]] *)
Definition py_slice {A} (l : list A) (i j : Z) : list A :=
  let len := Z.of_nat (length l) in
  let lo := slice_bound len i in
  let hi := slice_bound len j in
  take (Z.to_nat (hi - lo)) (drop (Z.to_nat lo) l).

(** [s.split(".")]: the pieces between the dots, never an empty list. *)
Fixpoint split_dot (s : string) : list string :=
  match s with
  | EmptyString => [EmptyString]
  | String c r =>
      if Ascii.eqb c "." then EmptyString :: split_dot r
      else match split_dot r with
           | piece :: pieces => String c piece :: pieces
           | [] => [String c EmptyString]
           end
  end.

(** [l[0]] *)
Definition py_head {A} (l : list A) : result A :=
  match l with
  | x :: _ => Ok x
  | [] => Raise (OtherException "IndexError")
  end.

(** [re.sub] with the pattern [[^0-9]] and the empty replacement: every
    character outside 0..9 is deleted. *)
Fixpoint re_sub_non_digits (s : string) : string :=
  match s with
  | EmptyString => EmptyString
  | String c r =>
      if is_digit c then String c (re_sub_non_digits r)
      else re_sub_non_digits r
  end.

(** *** The outside world

    [S] is the state of everything the scripts talk to (the marketplace, the
    supplier's site), [Req] the type of the requests a script sends to its
    marketplace. *)

(** What [print] was called with: the exception it was given, if any, and
    the literal text. *)
Record print_call : Type := Print { print_error : option exn; print_text : string }.

Record World (S Req : Type) : Type := mkWorld {
  remote : S;
  sent : list Req;
  stdout : list print_call;
  environ : gmap string string;
}.
Arguments mkWorld {S Req}.
Arguments remote {S Req}.
Arguments sent {S Req}.
Arguments stdout {S Req}.
Arguments environ {S Req}.

(** A computation on the world [W].  It answers [None] when the fuel given
    to a [while True] loop ran out before the loop was left; otherwise it
    returns or raises, in a new world. *)
Definition M (W A : Type) : Type := W → option (result A * W).

#[global] Instance M_ret {W} : MRet (M W) := λ A a w, Some (Ok a, w).
#[global] Instance M_bind {W} : MBind (M W) := λ A B f m w,
  match m w with
  | Some (Ok a, w') => f a w'
  | Some (Raise e, w') => Some (Raise e, w')
  | None => None
  end.

(** A pure step that may raise. *)
Definition lift {W A} (r : result A) : M W A := λ w, Some (r, w).

(** [for x in l: body(x)] *)
Fixpoint for_each {W A} (l : list A) (body : A → M W unit) : M W unit :=
  match l with
  | [] => mret tt
  | x :: rest => _ ← body x; for_each rest body
  end.

(** [try: body  except ...: handler].  [handler e] is [None] when no
    [except] clause matches [e], which then propagates. *)
Definition try_except {W A} (body : M W A) (handler : exn → option (M W A)) : M W A :=
  λ w, match body w with
       | Some (Raise e, w') =>
           match handler e with
           | Some h => h w'
           | None => Some (Raise e, w')
           end
       | other => other
       end.

(** [print(...)] *)
Definition print {S Req} (p : print_call) : M (World S Req) unit :=
  λ w, Some (Ok tt, mkWorld (remote w) (sent w) (stdout w ++ [p]) (environ w)).

(** [Env().str(name)] *)
Definition env_str {S Req} (name : string) : M (World S Req) string :=
  λ w, Some (match environ w !! name with
             | Some v => Ok v
             | None => Raise EnvError
             end, w).

(** One exchange with the outside: the request is logged, the remote side
    answers (or the call raises) and moves to its next state. *)
Definition exchange {S Req A} (req : Req) (reply : S → result A * S) : M (World S Req) A :=
  λ w, let '(r, s) := reply (remote w) in
       Some (r, mkWorld s (sent w ++ [req]) (stdout w) (environ w)).

(** Calling an [async def] function only builds the coroutine object; its
    body runs when the coroutine is awaited, which a plain call statement
    does not do. *)
Definition call_without_await {W A} (body : M W A) : M W unit := mret tt.

End Py.
Export Py.

(** ** seller.py *)

Module Seller.

(** A row of the supplier spreadsheet, as [to_dict(orient="records")] gives
    it. *)
Abbreviation watch := (gmap string pyval).

(** An entry of ["items"] in the product-list answer. *)
Record product : Type := { offer_id : string }.

(** The ["result"] of the product-list answer. *)
Record page : Type := {
  items : list product;
  total : Z;
  last_id : string;
}.

Record stock_record : Type := mkStock {
  stock_offer_id : string;
  stock : Z;
}.

Record price_record : Type := mkPrice {
  auto_action_enabled : string;
  currency_code : string;
  price_offer_id : string;
  old_price : string;
  price : string;
}.

#[global] Instance stock_record_eq_dec : EqDecision stock_record.
Proof. solve_decision. Defined.

Inductive request : Type :=
  | ProductList (client_id seller_token : string) (last_id : string)
  | ImportPrices (client_id seller_token : string) (prices : list price_record)
  | ImportStocks (client_id seller_token : string) (stocks : list stock_record).

(** How the outside answers: the marketplace to each request, the
    supplier's site to the download. *)
Record Server (S : Type) : Type := {
  on_product_list : request → S → result page * S;
  on_update : request → S → result unit * S;
  on_download : S → result (list watch) * S;
}.
Arguments on_product_list {S}.
Arguments on_update {S}.
Arguments on_download {S}.

(** *** The pure part *)

(** Lines 203-209: the stock made of the supplier's quantity. *)
Definition stock_of_count (quantity : pyval) : result Z :=
  let count := py_str quantity in
  if String.eqb count ">10" then Ok 100
  else if String.eqb count "1" then Ok 0
  else py_int quantity.

Fixpoint create_stocks_loop (watch_remnants : list watch) (offer_ids : list string)
    (stocks : list stock_record) : result (list stock_record * list string) :=
  match watch_remnants with
  | [] => Ok (stocks, offer_ids)
  | watch :: rest =>
      if decide (py_str (dict_get watch "Код") ∈ offer_ids) then
        stock ← stock_of_count (dict_get watch "Количество");
        let stocks := stocks ++ [mkStock (py_str (dict_get watch "Код")) stock] in
        offer_ids ← py_remove (py_str (dict_get watch "Код")) offer_ids;
        create_stocks_loop rest offer_ids stocks
      else create_stocks_loop rest offer_ids stocks
  end.

(** [create_stocks] changes the list it is given: beside the value returned,
    the result carries what the caller's [offer_ids] holds afterwards. *)
Definition create_stocks (watch_remnants : list watch) (offer_ids : list string)
    : result (list stock_record * list string) :=
  '(stocks, offer_ids) ← create_stocks_loop watch_remnants offer_ids [];
  Ok (stocks ++ map (λ offer_id, mkStock offer_id 0) offer_ids, offer_ids).

Definition price_conversion (price : pyval) : result string :=
  match price with
  | PyStr s => piece ← py_head (split_dot s); Ok (re_sub_non_digits piece)
  | _ => Raise AttributeError
  end.

Fixpoint create_prices_loop (watch_remnants : list watch) (offer_ids : list string)
    (prices : list price_record) : result (list price_record) :=
  match watch_remnants with
  | [] => Ok prices
  | watch :: rest =>
      if decide (py_str (dict_get watch "Код") ∈ offer_ids) then
        converted ← price_conversion (dict_get watch "Цена");
        let price := mkPrice "UNKNOWN" "RUB" (py_str (dict_get watch "Код")) "0" converted in
        create_prices_loop rest offer_ids (prices ++ [price])
      else create_prices_loop rest offer_ids prices
  end.

Definition create_prices (watch_remnants : list watch) (offer_ids : list string)
    : result (list price_record) :=
  create_prices_loop watch_remnants offer_ids [].

(** [list(divide(lst, n))]: the chunks the generator yields. *)
Definition divide {A} (lst : list A) (n : Z) : result (list (list A)) :=
  starts ← py_range 0 (Z.of_nat (length lst)) n;
  Ok (map (λ i, py_slice lst i (i + n)) starts).

(** *** The part that talks to the outside *)

(** The supplier's file is fetched, unpacked and read; no marketplace
    request is sent. *)
Definition download_stock {S Req} (reply : S → result (list watch) * S)
    : M (World S Req) (list watch) :=
  λ w, let '(r, s) := reply (remote w) in
       Some (r, mkWorld s (sent w) (stdout w) (environ w)).

Section Effects.
Context {S : Type} (srv : Server S).

Abbreviation M := (M (World S request)).

Definition get_product_list (last_id client_id seller_token : string) : M page :=
  let req := ProductList client_id seller_token last_id in
  exchange req (on_product_list srv req).

(** The [while True] loop of [get_offer_ids], one iteration per unit of
    fuel. *)
Fixpoint get_offer_ids_loop (fuel : nat) (client_id seller_token : string)
    (last_id : string) (product_list : list product) : M (list product) :=
  match fuel with
  | O => λ _, None
  | Datatypes.S fuel =>
      some_prod ← get_product_list last_id client_id seller_token;
      let product_list := product_list ++ items some_prod in
      let last_id := Seller.last_id some_prod in
      if total some_prod =? Z.of_nat (length product_list) then mret product_list
      else get_offer_ids_loop fuel client_id seller_token last_id product_list
  end.

Definition get_offer_ids (fuel : nat) (client_id seller_token : string) : M (list string) :=
  product_list ← get_offer_ids_loop fuel client_id seller_token EmptyString [];
  mret (map offer_id product_list).

(** The answer of the marketplace is returned to callers that all drop
    it; the model returns nothing. *)
Definition update_price (prices : list price_record) (client_id seller_token : string) : M unit :=
  let req := ImportPrices client_id seller_token prices in
  exchange req (on_update srv req).

Definition update_stocks (stocks : list stock_record) (client_id seller_token : string) : M unit :=
  let req := ImportStocks client_id seller_token stocks in
  exchange req (on_update srv req).

(** The body of the coroutine [upload_prices]. *)
Definition upload_prices (fuel : nat) (watch_remnants : list watch)
    (client_id seller_token : string) : M (list price_record) :=
  offer_ids ← get_offer_ids fuel client_id seller_token;
  prices ← lift (create_prices watch_remnants offer_ids);
  chunks ← lift (divide prices 1000);
  _ ← for_each chunks (λ some_price, update_price some_price client_id seller_token);
  mret prices.

(** The body of the coroutine [upload_stocks]. *)
Definition upload_stocks (fuel : nat) (watch_remnants : list watch)
    (client_id seller_token : string) : M (list stock_record * list stock_record) :=
  offer_ids ← get_offer_ids fuel client_id seller_token;
  '(stocks, _) ← lift (create_stocks watch_remnants offer_ids);
  chunks ← lift (divide stocks 100);
  _ ← for_each chunks (λ some_stock, update_stocks some_stock client_id seller_token);
  let not_empty := filter (λ s, stock s ≠ 0) stocks in
  mret (not_empty, stocks).

(** The [try] block of [main].  The list [offer_ids] given to
    [create_stocks] is the one given to [create_prices] afterwards, with
    what [create_stocks] left in it. *)
Definition main_try (fuel : nat) (client_id seller_token : string) : M unit :=
  offer_ids ← get_offer_ids fuel client_id seller_token;
  watch_remnants ← download_stock (on_download srv);
  '(stocks, offer_ids) ← lift (create_stocks watch_remnants offer_ids);
  chunks ← lift (divide stocks 100);
  _ ← for_each chunks (λ some_stock, update_stocks some_stock client_id seller_token);
  prices ← lift (create_prices watch_remnants offer_ids);
  chunks ← lift (divide prices 900);
  for_each chunks (λ some_price, update_price some_price client_id seller_token).

(** The three [except] clauses of [main], tried in order. *)
Definition main_except (e : exn) : option (M unit) :=
  if is_ReadTimeout e then Some (print (Print None "Превышено время ожидания..."))
  else if is_ConnectionError e then Some (print (Print (Some e) "Ошибка соединения"))
  else if is_Exception e then Some (print (Print (Some e) "ERROR_2"))
  else None.

Definition main (fuel : nat) : M unit :=
  seller_token ← env_str "SELLER_TOKEN";
  client_id ← env_str "CLIENT_ID";
  try_except (main_try fuel client_id seller_token) main_except.

End Effects.

End Seller.

(** ** market.py *)

Module Market.

Import Seller (download_stock, divide, price_conversion).

Abbreviation watch := (gmap string pyval).

(** An entry of ["offerMappingEntries"]: [entry.get("offer").get("shopSku")]
    is all the script reads. *)
Record offer_info : Type := { shopSku : string }.
Record mapping_entry : Type := { offer : offer_info }.

Record paging_info : Type := { nextPageToken : pyval }.

(** The ["result"] of the offer-mapping-entries answer. *)
Record page : Type := {
  offerMappingEntries : list mapping_entry;
  paging : paging_info;
}.

Record stock_item : Type := mkItem {
  count : Z;
  type : string;
  updatedAt : string;
}.

Record stock_record : Type := mkStock {
  sku : string;
  warehouseId : string;
  items : list stock_item;
}.

Record price_value : Type := mkValue {
  value : Z;
  currencyId : string;
}.

Record price_record : Type := mkPrice {
  id : string;
  price : price_value;
}.

#[global] Instance stock_item_eq_dec : EqDecision stock_item.
Proof. solve_decision. Defined.
#[global] Instance stock_record_eq_dec : EqDecision stock_record.
Proof. solve_decision. Defined.

Inductive request : Type :=
  | OfferMappingEntries (campaign_id access_token : string) (page_token : pyval)
  | PutStocks (campaign_id access_token : string) (skus : list stock_record)
  | PostPrices (campaign_id access_token : string) (offers : list price_record).

(** How the outside answers; [utcnow] is the clock, read as
    [datetime.utcnow().replace(microsecond=0).isoformat()]. *)
Record Server (S : Type) : Type := {
  on_product_list : request → S → result page * S;
  on_update : request → S → result unit * S;
  on_download : S → result (list watch) * S;
  utcnow : S → string;
}.
Arguments on_product_list {S}.
Arguments on_update {S}.
Arguments on_download {S}.
Arguments utcnow {S}.

(** *** The pure part *)

(** Lines 179-185: the stock made of the supplier's quantity. *)
Definition stock_of_count (quantity : pyval) : result Z :=
  let count := py_str quantity in
  if String.eqb count ">10" then Ok 100
  else if String.eqb count "1" then Ok 0
  else py_int quantity.

Fixpoint create_stocks_loop (date : string) (watch_remnants : list watch)
    (offer_ids : list string) (warehouse_id : string)
    (stocks : list stock_record) : result (list stock_record * list string) :=
  match watch_remnants with
  | [] => Ok (stocks, offer_ids)
  | watch :: rest =>
      if decide (py_str (dict_get watch "Код") ∈ offer_ids) then
        stock ← stock_of_count (dict_get watch "Количество");
        let stocks := stocks ++ [mkStock (py_str (dict_get watch "Код")) warehouse_id
                                         [mkItem stock "FIT" date]] in
        offer_ids ← py_remove (py_str (dict_get watch "Код")) offer_ids;
        create_stocks_loop date rest offer_ids warehouse_id stocks
      else create_stocks_loop date rest offer_ids warehouse_id stocks
  end.

(** [now] is what the clock reads when [create_stocks] is entered.  As in
    seller.py the list given is changed; the result carries what it holds
    afterwards. *)
Definition create_stocks (now : string) (watch_remnants : list watch)
    (offer_ids : list string) (warehouse_id : string)
    : result (list stock_record * list string) :=
  let date := (now +:+ "Z")%string in
  '(stocks, offer_ids) ← create_stocks_loop date watch_remnants offer_ids warehouse_id [];
  Ok (stocks ++ map (λ offer_id, mkStock offer_id warehouse_id [mkItem 0 "FIT" date]) offer_ids,
      offer_ids).

Fixpoint create_prices_loop (watch_remnants : list watch) (offer_ids : list string)
    (prices : list price_record) : result (list price_record) :=
  match watch_remnants with
  | [] => Ok prices
  | watch :: rest =>
      if decide (py_str (dict_get watch "Код") ∈ offer_ids) then
        converted ← price_conversion (dict_get watch "Цена");
        value ← py_int (PyStr converted);
        let price := mkPrice (py_str (dict_get watch "Код")) (mkValue value "RUR") in
        create_prices_loop rest offer_ids (prices ++ [price])
      else create_prices_loop rest offer_ids prices
  end.

Definition create_prices (watch_remnants : list watch) (offer_ids : list string)
    : result (list price_record) :=
  create_prices_loop watch_remnants offer_ids [].

(** *** The part that talks to the outside *)

Section Effects.
Context {S : Type} (srv : Server S).

Abbreviation M := (M (World S request)).

Definition get_product_list (page : pyval) (campaign_id access_token : string) : M Market.page :=
  let req := OfferMappingEntries campaign_id access_token page in
  exchange req (on_product_list srv req).

Definition update_stocks (stocks : list stock_record) (campaign_id access_token : string) : M unit :=
  let req := PutStocks campaign_id access_token stocks in
  exchange req (on_update srv req).

Definition update_price (prices : list price_record) (campaign_id access_token : string) : M unit :=
  let req := PostPrices campaign_id access_token prices in
  exchange req (on_update srv req).

(** The [while True] loop of [get_offer_ids], one iteration per unit of
    fuel. *)
Fixpoint get_offer_ids_loop (fuel : nat) (campaign_id market_token : string)
    (page : pyval) (product_list : list mapping_entry) : M (list mapping_entry) :=
  match fuel with
  | O => λ _, None
  | Datatypes.S fuel =>
      some_prod ← get_product_list page campaign_id market_token;
      let product_list := product_list ++ offerMappingEntries some_prod in
      let page := nextPageToken (paging some_prod) in
      if negb (py_truthy page) then mret product_list
      else get_offer_ids_loop fuel campaign_id market_token page product_list
  end.

Definition get_offer_ids (fuel : nat) (campaign_id market_token : string) : M (list string) :=
  product_list ← get_offer_ids_loop fuel campaign_id market_token (PyStr EmptyString) [];
  mret (map (λ product, shopSku (offer product)) product_list).

(** The clock, read without changing anything. *)
Definition read_clock : M string :=
  λ w, Some (Ok (utcnow srv (remote w)), w).

(** The body of the coroutine [upload_prices]. *)
Definition upload_prices (fuel : nat) (watch_remnants : list watch)
    (campaign_id market_token : string) : M (list price_record) :=
  offer_ids ← get_offer_ids fuel campaign_id market_token;
  prices ← lift (create_prices watch_remnants offer_ids);
  chunks ← lift (divide prices 500);
  _ ← for_each chunks (λ some_prices, update_price some_prices campaign_id market_token);
  mret prices.

(** The body of the coroutine [upload_stocks]. *)
Definition upload_stocks (fuel : nat) (watch_remnants : list watch)
    (campaign_id market_token warehouse_id : string)
    : M (list stock_record * list stock_record) :=
  offer_ids ← get_offer_ids fuel campaign_id market_token;
  now ← read_clock;
  '(stocks, _) ← lift (create_stocks now watch_remnants offer_ids warehouse_id);
  chunks ← lift (divide stocks 2000);
  _ ← for_each chunks (λ some_stock, update_stocks some_stock campaign_id market_token);
  let not_empty :=
    filter (λ s, (count <$> head (items s)) ≠ Some 0) stocks in
  mret (not_empty, stocks).

(** The [try] block of [main]: FBS, then DBS.  For each campaign the stocks
    are sent; [upload_prices] is called but not awaited. *)
Definition main_try (fuel : nat) (watch_remnants : list watch)
    (market_token campaign_fbs_id campaign_dbs_id warehouse_fbs_id warehouse_dbs_id : string)
    : M unit :=
  offer_ids ← get_offer_ids fuel campaign_fbs_id market_token;
  now ← read_clock;
  '(stocks, _) ← lift (create_stocks now watch_remnants offer_ids warehouse_fbs_id);
  chunks ← lift (divide stocks 2000);
  _ ← for_each chunks (λ some_stock, update_stocks some_stock campaign_fbs_id market_token);
  _ ← call_without_await (upload_prices fuel watch_remnants campaign_fbs_id market_token);
  offer_ids ← get_offer_ids fuel campaign_dbs_id market_token;
  now ← read_clock;
  '(stocks, _) ← lift (create_stocks now watch_remnants offer_ids warehouse_dbs_id);
  chunks ← lift (divide stocks 2000);
  _ ← for_each chunks (λ some_stock, update_stocks some_stock campaign_dbs_id market_token);
  call_without_await (upload_prices fuel watch_remnants campaign_dbs_id market_token).

(** The three [except] clauses of [main], tried in order. *)
Definition main_except (e : exn) : option (M unit) :=
  if is_ReadTimeout e then Some (print (Print None "Превышено время ожидания..."))
  else if is_ConnectionError e then Some (print (Print (Some e) "Ошибка соединения"))
  else if is_Exception e then Some (print (Print (Some e) "ERROR_2"))
  else None.

Definition main (fuel : nat) : M unit :=
  market_token ← env_str "MARKET_TOKEN";
  campaign_fbs_id ← env_str "FBS_ID";
  campaign_dbs_id ← env_str "DBS_ID";
  warehouse_fbs_id ← env_str "WAREHOUSE_FBS_ID";
  warehouse_dbs_id ← env_str "WAREHOUSE_DBS_ID";
  watch_remnants ← download_stock (on_download srv);
  try_except
    (main_try fuel watch_remnants market_token campaign_fbs_id campaign_dbs_id
              warehouse_fbs_id warehouse_dbs_id)
    main_except.

End Effects.

End Market.

(** * Properties *)

(** ** Vocabulary of the statements *)

Section DivideSpec.
Context {A : Type}.

(** The chunk of size [m] that starts at position [k * m]. *)
Definition chunk_at (m : nat) (lst : list A) (k : nat) : list A :=
  take m (drop (k * m) lst).

(** The number of chunks for a step [n > 0]: the length over [n], rounded
    up. *)
Definition chunk_count (lst : list A) (n : Z) : nat :=
  Z.to_nat ((Z.of_nat (length lst) + n - 1) / n).
End DivideSpec.

(** The two fields of a supplier row that the reconciliation reads. *)
Definition code (w : gmap string pyval) : string := py_str (dict_get w "Код").
Definition quantity (w : gmap string pyval) : pyval := dict_get w "Количество".

(** [w] is a row of [wr] and no row before it carries its code. *)
Definition first_with_code (wr : list (gmap string pyval)) (w : gmap string pyval) : Prop :=
  ∃ i, wr !! i = Some w ∧
       ∀ j w', (j < i)%nat → wr !! j = Some w' → code w' ≠ code w.

(** The number of entries of [ids] equal to [x]. *)
Definition occurrences (x : string) (ids : list string) : nat :=
  length (filter (λ y, y = x) ids).

Section ReconcileSpec.
Context {R : Type}.

(** The first loop of [create_stocks], whatever the shape [mk] of a stock
    record; both scripts instantiate it. *)
Fixpoint reconcile_loop (mk : string → Z → R) (wr : list (gmap string pyval))
    (ids : list string) (acc : list R) : result (list R * list string) :=
  match wr with
  | [] => Ok (acc, ids)
  | w :: rest =>
      if decide (code w ∈ ids) then
        z ← Seller.stock_of_count (quantity w);
        ids1 ← py_remove (code w) ids;
        reconcile_loop mk rest ids1 (acc ++ [mk (code w) z])
      else reconcile_loop mk rest ids acc
  end.

(** The whole of [create_stocks]: the loop, then the zero records. *)
Definition reconcile (mk : string → Z → R) (zero : string → R)
    (wr : list (gmap string pyval)) (ids : list string) : result (list R * list string) :=
  '(stocks, rest) ← reconcile_loop mk wr ids [];
  Ok (stocks ++ map zero rest, rest).

(** The same loop without the accumulator: the matched codes with their
    stocks, and the ids left. *)
Fixpoint matches (wr : list (gmap string pyval)) (ids : list string)
    : result (list (string * Z) * list string) :=
  match wr with
  | [] => Ok ([], ids)
  | w :: rest =>
      if decide (code w ∈ ids) then
        z ← Seller.stock_of_count (quantity w);
        ids1 ← py_remove (code w) ids;
        '(ps, ids') ← matches rest ids1;
        Ok ((code w, z) :: ps, ids')
      else matches rest ids
  end.

(** What [create_stocks] owes its caller on the rows [wr] and the ids
    [ids].  [rid] reads the id of a record, [has_stock r z] says that [r]
    carries the stock [z], [zero id] is the zero-stock record of [id].
    Either the call returns: the records are the matched ones followed by
    the zero records of the ids that are the code of no row, in the order
    of [ids]; there is one record per id; a matched record carries the
    stock made of the quantity of the first row with its code.  Or it
    raises what the conversion of the quantity of a matched row raised. *)
Definition reconciled (rid : R → string) (has_stock : R → Z → Prop) (zero : string → R)
    (wr : list (gmap string pyval)) (ids : list string)
    (outcome : result (list R * list string)) : Prop :=
  (∃ matched rest,
      outcome = Ok (matched ++ map zero rest, rest)
      ∧ rest = filter (λ id, id ∉ map code wr) ids
      ∧ map rid (matched ++ map zero rest) ≡ₚ ids
      ∧ NoDup (map rid (matched ++ map zero rest))
      ∧ Forall (λ r, rid r ∈ ids ∧ ∃ w z, first_with_code wr w ∧ code w = rid r
                      ∧ Seller.stock_of_count (quantity w) = Ok z ∧ has_stock r z) matched
      ∧ Forall (λ id, rid (zero id) = id ∧ has_stock (zero id) 0) rest)
  ∨ (∃ e w, outcome = Raise e ∧ w ∈ wr ∧ code w ∈ ids
            ∧ Seller.stock_of_count (quantity w) = Raise e).

(** What [create_stocks] owes for the ids that are the code of no row: when
    it returns, the records of such an id are zero records, one per entry
    of [ids] equal to it, hence exactly one when no id is repeated. *)
Definition unmatched_zeroed (rid : R → string) `{!∀ r id, Decision (rid r = id)}
    (zero : string → R)
    (wr : list (gmap string pyval)) (ids : list string)
    (outcome : result (list R * list string)) : Prop :=
  (∃ stocks rest,
      outcome = Ok (stocks, rest)
      ∧ ∀ id, id ∈ ids → id ∉ map code wr →
          filter (λ r, rid r = id) stocks = replicate (occurrences id ids) (zero id)
          ∧ (0 < occurrences id ids)%nat
          ∧ (NoDup ids → filter (λ r, rid r = id) stocks = [zero id]))
  ∨ (∃ e w, outcome = Raise e ∧ w ∈ wr ∧ code w ∈ ids
            ∧ Seller.stock_of_count (quantity w) = Raise e).
End ReconcileSpec.

(** The digits of a string, in order: what is left when everything outside
    0..9 is removed. *)
Definition digits_only (s : string) : string :=
  String.string_of_list_ascii (filter (λ c, is_digit c = true) (String.list_ascii_of_string s)).

(** [s] holds no dot. *)
Definition dot_free (s : string) : Prop :=
  Forall (λ c, c ≠ "."%char) (String.list_ascii_of_string s).

(** The number a string of decimal digits writes. *)
Definition decimal_value (s : string) : Z :=
  fold_left (λ acc c, 10 * acc + digit_value c) (String.list_ascii_of_string s) 0.

(** The price record of market.py for one supplier row. *)
Definition market_price_of (w : gmap string pyval) : result Market.price_record :=
  converted ← Seller.price_conversion (dict_get w "Цена");
  value ← py_int (PyStr converted);
  Ok (Market.mkPrice (code w) (Market.mkValue value "RUR")).

(** The price record of seller.py for one supplier row. *)
Definition seller_price_of (w : gmap string pyval) : result Seller.price_record :=
  converted ← Seller.price_conversion (dict_get w "Цена");
  Ok (Seller.mkPrice "UNKNOWN" "RUB" (code w) "0" converted).

(** The results of [f] on the elements of a list, in order, up to the first
    that raises. *)
Fixpoint map_result {A B} (f : A → result B) (l : list A) : result (list B) :=
  match l with
  | [] => Ok []
  | x :: rest => y ← f x; ys ← map_result f rest; Ok (y :: ys)
  end.

(** *** Paginated catalogs

    A page stream is the list of the pages a marketplace serves to a client
    that follows the protocol: the first request carries the empty token,
    each later one the token found in the page before. *)

Section OzonCatalog.
Context {S : Type} (srv : Seller.Server S) (client_id seller_token : string).

(** From the state [s], asked with [last_id] and then along the protocol,
    the marketplace serves the pages [ps]. *)
Fixpoint ozon_serves (s : S) (last_id : string) (ps : list Seller.page) : Prop :=
  match ps with
  | [] => True
  | p :: rest =>
      ∃ s1, Seller.on_product_list srv
              (Seller.ProductList client_id seller_token last_id) s = (Ok p, s1)
            ∧ ozon_serves s1 (Seller.last_id p) rest
  end.

(** The requests that fetch the pages [ps]. *)
Fixpoint ozon_requests (last_id : string) (ps : list Seller.page) : list Seller.request :=
  match ps with
  | [] => []
  | p :: rest =>
      Seller.ProductList client_id seller_token last_id
      :: ozon_requests (Seller.last_id p) rest
  end.
End OzonCatalog.

(** The index of the first page of [ps] whose reported total is the number
    of items accumulated up to and including it, [count] items having been
    accumulated before [ps]. *)
Fixpoint ozon_first_signal (count : nat) (ps : list Seller.page) : option nat :=
  match ps with
  | [] => None
  | p :: rest =>
      let count := (count + length (Seller.items p))%nat in
      if Seller.total p =? Z.of_nat count then Some 0%nat
      else S <$> ozon_first_signal count rest
  end.

Section MarketCatalog.
Context {S : Type} (srv : Market.Server S) (campaign_id market_token : string).

Fixpoint market_serves (s : S) (page : pyval) (ps : list Market.page) : Prop :=
  match ps with
  | [] => True
  | p :: rest =>
      ∃ s1, Market.on_product_list srv
              (Market.OfferMappingEntries campaign_id market_token page) s = (Ok p, s1)
            ∧ market_serves s1 (Market.nextPageToken (Market.paging p)) rest
  end.

Fixpoint market_requests (page : pyval) (ps : list Market.page) : list Market.request :=
  match ps with
  | [] => []
  | p :: rest =>
      Market.OfferMappingEntries campaign_id market_token page
      :: market_requests (Market.nextPageToken (Market.paging p)) rest
  end.
End MarketCatalog.

(** The index of the first page of [ps] whose [nextPageToken] is empty
    (absent, [None] or the empty string). *)
Fixpoint market_first_signal (ps : list Market.page) : option nat :=
  match ps with
  | [] => None
  | p :: rest =>
      if negb (py_truthy (Market.nextPageToken (Market.paging p))) then Some 0%nat
      else S <$> market_first_signal rest
  end.

(** The offer ids of a list of pages, in page order. *)
Definition ozon_offer_ids (ps : list Seller.page) : list string :=
  map Seller.offer_id (concat (map Seller.items ps)).

Definition market_offer_ids (ps : list Market.page) : list string :=
  map (λ product, Market.shopSku (Market.offer product))
      (concat (map Market.offerMappingEntries ps)).

(** The world after some more requests were sent and the remote side moved
    to [s]. *)
Definition after_requests {S Req} (w : World S Req) (reqs : list Req) (s : S) : World S Req :=
  mkWorld s (sent w ++ reqs) (stdout w) (environ w).

(** *** Runs in the world *)

(** Whatever the run of [m], the requests it adds to the log all satisfy
    [P]. *)
Definition only_sends {S Req A} (P : Req → Prop) (m : M (World S Req) A) : Prop :=
  ∀ w r w', m w = Some (r, w') → ∃ new, sent w' = sent w ++ new ∧ Forall P new.

(** Some run of [m] returns [a]. *)
Definition may_return {W A} (m : M W A) (a : A) : Prop :=
  ∃ w w', m w = Some (Ok a, w').

(** The world after [p] was printed. *)
Definition printed {S Req} (w : World S Req) (p : print_call) : World S Req :=
  mkWorld (remote w) (sent w) (stdout w ++ [p]) (environ w).

(** What the [except] clauses of both [main] print for [e]. *)
Definition except_message (e : exn) : print_call :=
  if is_ReadTimeout e then Print None "Превышено время ожидания..."
  else if is_ConnectionError e then Print (Some e) "Ошибка соединения"
  else Print (Some e) "ERROR_2".

(** The per-request ceilings of Ozon: 100 stock records, 1000 prices. *)
Definition seller_within_ceiling (req : Seller.request) : Prop :=
  match req with
  | Seller.ImportStocks _ _ stocks => (length stocks ≤ 100)%nat
  | Seller.ImportPrices _ _ prices => (length prices ≤ 1000)%nat
  | Seller.ProductList _ _ _ => True
  end.

(** The per-request ceilings of Yandex.Market: 2000 stock records, 500
    prices. *)
Definition market_within_ceiling (req : Market.request) : Prop :=
  match req with
  | Market.PutStocks _ _ skus => (length skus ≤ 2000)%nat
  | Market.PostPrices _ _ offers => (length offers ≤ 500)%nat
  | Market.OfferMappingEntries _ _ _ => True
  end.

(** The batches of stock records, and of prices, carried by a list of
    requests. *)
Definition seller_stock_batches (reqs : list Seller.request) : list (list Seller.stock_record) :=
  omap (λ req, match req with Seller.ImportStocks _ _ b => Some b | _ => None end) reqs.

Definition seller_price_batches (reqs : list Seller.request) : list (list Seller.price_record) :=
  omap (λ req, match req with Seller.ImportPrices _ _ b => Some b | _ => None end) reqs.

Definition market_stock_batches (reqs : list Market.request) : list (list Market.stock_record) :=
  omap (λ req, match req with Market.PutStocks _ _ b => Some b | _ => None end) reqs.

Definition market_price_batches (reqs : list Market.request) : list (list Market.price_record) :=
  omap (λ req, match req with Market.PostPrices _ _ b => Some b | _ => None end) reqs.

(** The requests that fetch a page of the catalog. *)
Definition seller_is_product_list (req : Seller.request) : Prop :=
  match req with Seller.ProductList _ _ _ => True | _ => False end.

Definition market_is_product_list (req : Market.request) : Prop :=
  match req with Market.OfferMappingEntries _ _ _ => True | _ => False end.

(** The requests that are no price update. *)
Definition seller_no_price_update (req : Seller.request) : Prop :=
  match req with Seller.ImportPrices _ _ _ => False | _ => True end.

(** *** Sample data

    A small shop and a small supplier file, on which the statements below
    are run. *)

Definition sample_rows : list (gmap string pyval) :=
  [ {[ "Код" := PyStr "111"; "Количество" := PyStr "5"; "Цена" := PyStr "5'990.00 руб." ]};
    {[ "Код" := PyInt 444; "Количество" := PyStr ">10"; "Цена" := PyStr "12 345.67 руб." ]} ].

Definition sample_ids : list string := ["111"; "222"; "333"]%string.

Definition sample_environ : gmap string string :=
  {[ "SELLER_TOKEN" := "token"; "CLIENT_ID" := "client";
     "MARKET_TOKEN" := "token"; "FBS_ID" := "fbs"; "DBS_ID" := "dbs";
     "WAREHOUSE_FBS_ID" := "wh-fbs"; "WAREHOUSE_DBS_ID" := "wh-dbs" ]}%string.

(** An Ozon shop of three products served in two pages.  The state of the
    marketplace is the list of the pages still to serve; it answers
    [HTTPError] once they are all served, and accepts every update. *)
Definition ozon_sample_pages : list Seller.page :=
  [ {| Seller.items := [ {| Seller.offer_id := "111" |}; {| Seller.offer_id := "222" |} ];
       Seller.total := 3; Seller.last_id := "a" |};
    {| Seller.items := [ {| Seller.offer_id := "333" |} ];
       Seller.total := 3; Seller.last_id := "b" |} ].

Definition ozon_sample_server : Seller.Server (list Seller.page) :=
  {| Seller.on_product_list := λ _ s,
       match s with p :: rest => (Ok p, rest) | [] => (Raise HTTPError, []) end;
     Seller.on_update := λ _ s, (Ok tt, s);
     Seller.on_download := λ s, (Ok sample_rows, s) |}.

Definition ozon_sample_world (pages : list Seller.page) : World (list Seller.page) Seller.request :=
  mkWorld pages [] [] sample_environ.

(** The same shop on Yandex.Market. *)
Definition market_sample_pages : list Market.page :=
  [ {| Market.offerMappingEntries :=
         [ {| Market.offer := {| Market.shopSku := "111" |} |};
           {| Market.offer := {| Market.shopSku := "222" |} |} ];
       Market.paging := {| Market.nextPageToken := PyStr "next" |} |};
    {| Market.offerMappingEntries := [ {| Market.offer := {| Market.shopSku := "333" |} |} ];
       Market.paging := {| Market.nextPageToken := PyNone |} |} ].

Definition market_sample_server : Market.Server (list Market.page) :=
  {| Market.on_product_list := λ _ s,
       match s with p :: rest => (Ok p, rest) | [] => (Raise ReadTimeout, []) end;
     Market.on_update := λ _ s, (Ok tt, s);
     Market.on_download := λ s, (Ok sample_rows, s);
     Market.utcnow := λ _, "2024-01-01T00:00:00"%string |}.

Definition market_sample_world (pages : list Market.page) : World (list Market.page) Market.request :=
  mkWorld pages [] [] sample_environ.

(** ** Vocabulary of the further statements *)

(** What stands before the first dot of a string; the whole string when it
    holds no dot. *)
Fixpoint before_dot (s : string) : string :=
  match s with
  | EmptyString => EmptyString
  | String c r => if Ascii.eqb c "." then EmptyString else String c (before_dot r)
  end.

(** The price cell of a supplier row. *)
Definition price_cell (w : gmap string pyval) : pyval := dict_get w "Цена".

(** The rows whose code is one of the ids, in the order of the file. *)
Definition listed (wr : list (gmap string pyval)) (ids : list string)
    : list (gmap string pyval) :=
  filter (λ w, code w ∈ ids) wr.

(** The stock a Yandex.Market record carries: the count of its first item. *)
Definition market_count (r : Market.stock_record) : option Z :=
  Market.count <$> head (Market.items r).

(** The requests of market.py that are no price update. *)
Definition market_no_price_update (req : Market.request) : Prop :=
  match req with Market.PostPrices _ _ _ => False | _ => True end.

(** Whatever the run of [m], nothing is printed and the environment is left
    as it was. *)
Definition quiet {S Req A} (m : M (World S Req) A) : Prop :=
  ∀ w r w', m w = Some (r, w') → stdout w' = stdout w ∧ environ w' = environ w.

Section OzonStream.
Context {S : Type} (srv : Seller.Server S) (client_id seller_token : string).

(** From the state [s], asked with [last_id] and then along the protocol,
    the marketplace serves the pages [ps] and is left in the state [s'],
    the next request carrying [last_id']. *)
Fixpoint ozon_serves_to (s : S) (last_id : string) (ps : list Seller.page)
    (s' : S) (last_id' : string) : Prop :=
  match ps with
  | [] => s' = s ∧ last_id' = last_id
  | p :: rest =>
      ∃ s1, Seller.on_product_list srv
              (Seller.ProductList client_id seller_token last_id) s = (Ok p, s1)
            ∧ ozon_serves_to s1 (Seller.last_id p) rest s' last_id'
  end.
End OzonStream.

Section MarketStream.
Context {S : Type} (srv : Market.Server S) (campaign_id market_token : string).

Fixpoint market_serves_to (s : S) (page : pyval) (ps : list Market.page)
    (s' : S) (page' : pyval) : Prop :=
  match ps with
  | [] => s' = s ∧ page' = page
  | p :: rest =>
      ∃ s1, Market.on_product_list srv
              (Market.OfferMappingEntries campaign_id market_token page) s = (Ok p, s1)
            ∧ market_serves_to s1 (Market.nextPageToken (Market.paging p)) rest s' page'
  end.
End MarketStream.

(** A marketplace that never serves the last page of its catalog: every
    page reports one item more than it has served so far. *)
Definition ozon_endless_server : Seller.Server nat :=
  {| Seller.on_product_list := λ _ n,
       (Ok {| Seller.items := [ {| Seller.offer_id := "111" |} ];
              Seller.total := Z.of_nat n + 2; Seller.last_id := "next" |}, S n);
     Seller.on_update := λ _ n, (Ok tt, n);
     Seller.on_download := λ n, (Ok sample_rows, n) |}.

Definition ozon_endless_page (n : nat) : Seller.page :=
  {| Seller.items := [ {| Seller.offer_id := "111" |} ];
     Seller.total := Z.of_nat n + 2; Seller.last_id := "next" |}.

(** A Yandex.Market that always announces a next page. *)
Definition market_endless_page : Market.page :=
  {| Market.offerMappingEntries := [ {| Market.offer := {| Market.shopSku := "111" |} |} ];
     Market.paging := {| Market.nextPageToken := PyStr "next" |} |}.

Definition market_endless_server : Market.Server nat :=
  {| Market.on_product_list := λ _ n, (Ok market_endless_page, S n);
     Market.on_update := λ _ n, (Ok tt, n);
     Market.on_download := λ n, (Ok sample_rows, n);
     Market.utcnow := λ _, "2024-01-01T00:00:00"%string |}.

(** A supplier site that is down, before an Ozon and a Yandex.Market that
    work. *)
Definition ozon_no_supplier_server : Seller.Server (list Seller.page) :=
  {| Seller.on_product_list := Seller.on_product_list ozon_sample_server;
     Seller.on_update := Seller.on_update ozon_sample_server;
     Seller.on_download := λ s, (Raise ConnectionError, s) |}.

Definition market_no_supplier_server : Market.Server (list Market.page) :=
  {| Market.on_product_list := Market.on_product_list market_sample_server;
     Market.on_update := Market.on_update market_sample_server;
     Market.on_download := λ s, (Raise ConnectionError, s);
     Market.utcnow := Market.utcnow market_sample_server |}.

(** Supplier rows with a price that is no string, and with one that holds
    no digit. *)
Definition rows_without_price : list (gmap string pyval) :=
  [ {[ "Код" := PyStr "111"; "Количество" := PyStr "5" ]} ].

Definition rows_price_on_request : list (gmap string pyval) :=
  [ {[ "Код" := PyStr "111"; "Количество" := PyStr "5"; "Цена" := PyStr "по запросу" ]} ].

Definition rows_bad_quantity : list (gmap string pyval) :=
  [ {[ "Код" := PyStr "111"; "Количество" := PyStr "5"; "Цена" := PyStr "10.00" ]};
    {[ "Код" := PyStr "222"; "Количество" := PyStr "много"; "Цена" := PyStr "20.00" ]} ].

Section ReconcileFurther.
Context {R : Type}.

(** What [create_stocks] keeps whatever the ids, repeated or not: when it
    returns, the ids of the records are the ids given, each as many times,
    so that there are as many records as ids; the list left to the caller
    is the ids given less some of them, in order; the matched records come
    first, their ids in the order of the supplier's rows. *)
Definition conserved (rid : R → string) (zero : string → R)
    (wr : list (gmap string pyval)) (ids : list string)
    (outcome : result (list R * list string)) : Prop :=
  ∀ stocks rest, outcome = Ok (stocks, rest) →
    map rid stocks ≡ₚ ids
    ∧ length stocks = length ids
    ∧ rest `sublist_of` ids
    ∧ ∃ matched, stocks = matched ++ map zero rest
                 ∧ map rid matched `sublist_of` map code wr
                 ∧ ids ≡ₚ map rid matched ++ rest.

(** [create_stocks] gives all or nothing: for a row that is the first with
    its code, the code being one of the ids, a result holds the record of
    that row, and a quantity that cannot be converted leaves no result. *)
Definition complete_or_raised (mk : string → Z → R)
    (wr : list (gmap string pyval)) (ids : list string)
    (outcome : result (list R * list string)) : Prop :=
  ∀ w, first_with_code wr w → code w ∈ ids →
    (∀ stocks rest, outcome = Ok (stocks, rest) →
       ∃ z, Seller.stock_of_count (quantity w) = Ok z ∧ mk (code w) z ∈ stocks)
    ∧ (∀ e, Seller.stock_of_count (quantity w) = Raise e → ∃ e', outcome = Raise e').
End ReconcileFurther.

(** From the state [s] the update requests made of the batches [l] are all
    accepted, one after the other, and leave the state [s']. *)
Fixpoint accepted {S Req A} (reply : Req → S → result unit * S) (mkreq : A → Req)
    (s : S) (l : list A) (s' : S) : Prop :=
  match l with
  | [] => s' = s
  | x :: rest => ∃ s1, reply (mkreq x) s = (Ok tt, s1) ∧ accepted reply mkreq s1 rest s'
  end.

(** The sample shop with a supplier file that holds a quantity in words. *)
Definition ozon_bad_rows_server : Seller.Server (list Seller.page) :=
  {| Seller.on_product_list := Seller.on_product_list ozon_sample_server;
     Seller.on_update := Seller.on_update ozon_sample_server;
     Seller.on_download := λ s, (Ok rows_bad_quantity, s) |}.

Definition market_bad_rows_server : Market.Server (list Market.page) :=
  {| Market.on_product_list := Market.on_product_list market_sample_server;
     Market.on_update := Market.on_update market_sample_server;
     Market.on_download := λ s, (Ok rows_bad_quantity, s);
     Market.utcnow := Market.utcnow market_sample_server |}.

(** The sample shop on an Ozon that refuses every update. *)
Definition ozon_refusing_server : Seller.Server (list Seller.page) :=
  {| Seller.on_product_list := Seller.on_product_list ozon_sample_server;
     Seller.on_update := λ _ s, (Raise HTTPError, s);
     Seller.on_download := Seller.on_download ozon_sample_server |}.

(** A Yandex.Market that serves the same one-page catalog to every
    campaign, and counts the requests it has answered. *)
Definition market_steady_page : Market.page :=
  {| Market.offerMappingEntries :=
       [ {| Market.offer := {| Market.shopSku := "111" |} |};
         {| Market.offer := {| Market.shopSku := "222" |} |} ];
     Market.paging := {| Market.nextPageToken := PyNone |} |}.

Definition market_steady_server : Market.Server nat :=
  {| Market.on_product_list := λ _ n, (Ok market_steady_page, S n);
     Market.on_update := λ _ n, (Ok tt, S n);
     Market.on_download := λ n, (Ok sample_rows, n);
     Market.utcnow := λ _, "2024-01-01T00:00:00"%string |}.
(** ** Chunking: [divide] *)

Section Divide.
Context {A : Type}.
Implicit Types (lst : list A) (m k c : nat) (n : Z).

Lemma chunk_at_succ m lst k : chunk_at m lst (S k) = chunk_at m (drop m lst) k.
Proof. unfold chunk_at. rewrite drop_drop. do 2 f_equal; lia. Qed.

Lemma chunk_at_length m lst k : (length (chunk_at m lst k) ≤ m)%nat.
Proof. unfold chunk_at. rewrite length_take. lia. Qed.

Lemma concat_chunks m c : ∀ lst,
  (0 < m)%nat → (length lst ≤ c * m)%nat →
  concat (map (chunk_at m lst) (seq 0 c)) = lst.
Proof.
  induction c as [|c IH]; intros lst Hm Hlen.
  - destruct lst; simpl in *; [done | lia].
  - rewrite <- cons_seq, <- fmap_S_seq. cbn [map concat].
    change (S <$> seq 0 c) with (map S (seq 0 c)). rewrite map_map.
    rewrite (map_ext _ (chunk_at m (drop m lst))) by (intros; apply chunk_at_succ).
    rewrite IH; [| done | rewrite length_drop; lia].
    unfold chunk_at. rewrite Nat.mul_0_l, drop_0. apply take_drop.
Qed.

Lemma chunk_count_covers lst n :
  0 < n → (length lst ≤ chunk_count lst n * Z.to_nat n)%nat.
Proof.
  intros Hn. unfold chunk_count.
  set (len := Z.of_nat (length lst)).
  assert (0 ≤ (len + n - 1) / n) by (apply Z.div_pos; lia).
  pose proof (Z.mod_pos_bound (len + n - 1) n Hn).
  pose proof (Z.div_mod (len + n - 1) n ltac:(lia)).
  nia.
Qed.

Lemma chunk_count_start lst n k :
  0 < n → (k < chunk_count lst n)%nat → Z.of_nat k * n < Z.of_nat (length lst).
Proof.
  intros Hn. unfold chunk_count.
  set (len := Z.of_nat (length lst)).
  assert (0 ≤ (len + n - 1) / n) by (apply Z.div_pos; lia).
  pose proof (Z.mod_pos_bound (len + n - 1) n Hn).
  pose proof (Z.div_mod (len + n - 1) n ltac:(lia)).
  intros Hk. nia.
Qed.

Lemma py_slice_chunk lst n k :
  0 < n → Z.of_nat k * n < Z.of_nat (length lst) →
  py_slice lst (0 + Z.of_nat k * n) (0 + Z.of_nat k * n + n)
  = chunk_at (Z.to_nat n) lst k.
Proof.
  intros Hn Hk. unfold py_slice, slice_bound, chunk_at.
  assert (0 ≤ Z.of_nat k * n) by nia.
  rewrite !(proj2 (Z.ltb_ge _ 0)) by lia.
  replace (Z.to_nat (Z.min (0 + Z.of_nat k * n) (Z.of_nat (length lst))))
    with (k * Z.to_nat n)%nat by nia.
  set (d := drop (k * Z.to_nat n) lst).
  assert (length d = (length lst - k * Z.to_nat n)%nat) as Hd
    by (unfold d; apply length_drop).
  destruct (decide (Z.to_nat n ≤ length d)%nat).
  - f_equal. nia.
  - rewrite !take_ge; [done | lia | nia].
Qed.

(** For a positive step [divide] never raises; its chunks are those that
    start at the multiples of the step. *)
Lemma divide_pos lst n :
  0 < n →
  Seller.divide lst n
  = Ok (map (chunk_at (Z.to_nat n) lst) (seq 0 (chunk_count lst n))).
Proof.
  intros Hn. unfold Seller.divide, py_range.
  rewrite (proj2 (Z.eqb_neq n 0)) by lia.
  rewrite (proj2 (Z.ltb_lt 0 n)) by lia.
  cbn [mbind result_bind]. f_equal.
  replace (Z.of_nat (length lst) - 0 + n - 1) with (Z.of_nat (length lst) + n - 1) by lia.
  fold (chunk_count lst n).
  rewrite map_map. apply map_ext_in. intros k Hk.
  apply in_seq in Hk.
  apply py_slice_chunk; [done|]. apply chunk_count_start; [done | lia].
Qed.

End Divide.

(** ** Reconciliation: [create_stocks] *)

Section FilterFacts.
Context {A : Type} (P Q : A → Prop) `{!∀ x, Decision (P x)} `{!∀ x, Decision (Q x)}.

Lemma filter_agree (l : list A) :
  (∀ x, x ∈ l → P x ↔ Q x) → filter P l = filter Q l.
Proof.
  induction l as [|a l IH]; intros Hl; [done|].
  rewrite !filter_cons.
  assert (P a ↔ Q a) as Ha by (apply Hl; left).
  rewrite IH by (intros x Hx; apply Hl; by right).
  destruct (decide (P a)), (decide (Q a)); tauto || done.
Qed.

Lemma filter_all (l : list A) : (∀ x, x ∈ l → P x) → filter P l = l.
Proof.
  induction l as [|a l IH]; intros Hl; [done|].
  rewrite filter_cons_True by (apply Hl; left).
  f_equal. apply IH. intros x Hx. apply Hl. by right.
Qed.

Lemma filter_none (l : list A) : (∀ x, x ∈ l → ¬ P x) → filter P l = [].
Proof.
  induction l as [|a l IH]; intros Hl; [done|].
  rewrite filter_cons_False by (apply Hl; left).
  apply IH. intros x Hx. apply Hl. by right.
Qed.
End FilterFacts.

Lemma filter_ne_notin (x : string) (l : list string) :
  x ∉ l → filter (λ y, y ≠ x) l = l.
Proof. intros Hx. apply filter_all. intros y Hy ->. done. Qed.

Lemma py_remove_elem x l :
  x ∈ l →
  ∃ l', py_remove x l = Ok l' ∧ l ≡ₚ x :: l'
        ∧ (NoDup l → l' = filter (λ y, y ≠ x) l)
        ∧ (∀ y, y ≠ x → filter (λ v, v = y) l' = filter (λ v, v = y) l).
Proof.
  induction l as [|a l IH]; intros Hin; [by apply elem_of_nil in Hin|].
  cbn [py_remove]. destruct (decide (x = a)) as [->|Hne].
  - exists l. split_and!; [done | done | |].
    + intros Hnd. apply NoDup_cons in Hnd as [Ha _].
      rewrite filter_cons_False by (intros ?; done).
      symmetry. by apply filter_ne_notin.
    + intros y Hy. by rewrite filter_cons_False.
  - apply elem_of_cons in Hin as [->|Hin]; [done|].
    destruct (IH Hin) as (l' & -> & Hp & Hnd & Hf).
    exists (a :: l'). cbn [mbind result_bind]. split_and!; [done | | |].
    + rewrite Hp. apply Permutation_swap.
    + intros Hn. apply NoDup_cons in Hn as [_ Hn].
      rewrite filter_cons_True by congruence. f_equal. by apply Hnd.
    + intros y Hy. rewrite !filter_cons. rewrite (Hf y Hy). done.
Qed.

Lemma first_with_code_here w wr : first_with_code (w :: wr) w.
Proof. exists 0%nat. split; [done|]. intros; lia. Qed.

Lemma first_with_code_later w0 w wr :
  code w0 ≠ code w → first_with_code wr w → first_with_code (w0 :: wr) w.
Proof.
  intros Hne (i & Hi & Hfirst). exists (S i). split; [done|].
  intros [|j] w' Hj Hw'; cbn in Hw'.
  - by injection Hw' as <-.
  - apply (Hfirst j); [lia | done].
Qed.

Section Reconcile.
Context {R : Type} (mk : string → Z → R).
Implicit Types (wr : list (gmap string pyval)) (ids : list string).

Lemma reconcile_loop_matches wr : ∀ ids acc,
  reconcile_loop mk wr ids acc
  = '(ps, ids') ← matches wr ids; Ok (acc ++ map (λ p, mk p.1 p.2) ps, ids').
Proof.
  induction wr as [|w wr IH]; intros ids acc; cbn [reconcile_loop matches].
  - cbn. by rewrite app_nil_r.
  - destruct (decide (code w ∈ ids)) as [Hin|Hnin]; [|apply IH].
    destruct (Seller.stock_of_count (quantity w)) as [z|e]; [|done].
    cbn [mbind result_bind].
    destruct (py_remove (code w) ids) as [ids1|e]; [|done].
    cbn [mbind result_bind]. rewrite IH.
    destruct (matches wr ids1) as [[ps ids']|e]; [|done].
    cbn. by rewrite <- app_assoc.
Qed.

End Reconcile.

Section Matches.
Implicit Types (wr : list (gmap string pyval)) (ids : list string).

(** What the loop gives when it returns, for any list of ids. *)
Lemma matches_ok wr : ∀ ids ps ids',
  matches wr ids = Ok (ps, ids') →
  ids ≡ₚ map fst ps ++ ids'
  ∧ (∀ y, y ∉ map code wr → filter (λ v, v = y) ids' = filter (λ v, v = y) ids)
  ∧ Forall (λ p, p.1 ∈ ids ∧ p.1 ∈ map code wr) ps.
Proof.
  induction wr as [|w wr IH]; intros ids ps ids'; cbn [matches].
  - intros [= <- <-]. by split_and!.
  - destruct (decide (code w ∈ ids)) as [Hin|Hnin].
    + destruct (Seller.stock_of_count (quantity w)) as [z|e]; [|done].
      cbn [mbind result_bind].
      destruct (py_remove_elem _ _ Hin) as (ids1 & -> & Hperm & _ & Hcount).
      cbn [mbind result_bind].
      destruct (matches wr ids1) as [[ps1 ids1']|e] eqn:Hm; [|done].
      cbn. intros [= <- <-].
      destruct (IH _ _ _ Hm) as (Hp1 & Hc1 & Hf1).
      split_and!.
      * cbn. by rewrite Hperm, Hp1.
      * intros y Hy. cbn in Hy. apply not_elem_of_cons in Hy as [Hy1 Hy2].
        rewrite (Hc1 y Hy2). by apply Hcount.
      * constructor; [split; [done | cbn; left]|].
        eapply Forall_impl; [exact Hf1|]. cbn. intros p [Hp Hq]. split.
        -- rewrite Hperm. by right.
        -- by right.
    + intros Hm. destruct (IH _ _ _ Hm) as (Hp1 & Hc1 & Hf1). split_and!.
      * done.
      * intros y Hy. cbn in Hy. apply not_elem_of_cons in Hy as [_ Hy]. by apply Hc1.
      * eapply Forall_impl; [exact Hf1|]. cbn. intros p [Hp Hq]. split; [done | by right].
Qed.

(** What it gives on a list of ids without repetition. *)
Lemma matches_ok_nodup wr : ∀ ids ps ids',
  NoDup ids → matches wr ids = Ok (ps, ids') →
  ids' = filter (λ id, id ∉ map code wr) ids
  ∧ Forall (λ p, ∃ w, first_with_code wr w ∧ code w = p.1
                      ∧ Seller.stock_of_count (quantity w) = Ok p.2) ps.
Proof.
  induction wr as [|w wr IH]; intros ids ps ids' Hnd; cbn [matches].
  - intros [= <- <-]. split; [|done].
    symmetry. apply filter_all. intros x _. cbn. apply not_elem_of_nil.
  - destruct (decide (code w ∈ ids)) as [Hin|Hnin].
    + destruct (Seller.stock_of_count (quantity w)) as [z|e] eqn:Hz; [|done].
      cbn [mbind result_bind].
      destruct (py_remove_elem _ _ Hin) as (ids1 & -> & Hperm & Hfil & _).
      cbn [mbind result_bind].
      destruct (matches wr ids1) as [[ps1 ids1']|e] eqn:Hm; [|done].
      cbn. intros [= <- <-].
      assert (NoDup ids1) as Hnd1.
      { rewrite Hperm in Hnd. by apply NoDup_cons in Hnd as [_ ?]. }
      assert (code w ∉ ids1) as Hfresh.
      { rewrite Hperm in Hnd. by apply NoDup_cons in Hnd as [? _]. }
      destruct (IH _ _ _ Hnd1 Hm) as (-> & Hf1).
      destruct (matches_ok _ _ _ _ Hm) as (_ & _ & Hin1).
      split.
      * rewrite (Hfil Hnd). rewrite list_filter_filter.
        apply list_filter_iff. intros x. cbn. rewrite not_elem_of_cons. tauto.
      * constructor.
        -- exists w. split_and!; [apply first_with_code_here | done | done].
        -- rewrite Forall_forall in Hf1, Hin1 |- *. intros p Hp.
           destruct (Hf1 p Hp) as (w' & Hfirst & Hcode & Hstock).
           exists w'. split_and!; [|done|done].
           apply first_with_code_later; [|done].
           rewrite Hcode. intros Heq. apply Hfresh. rewrite Heq.
           by apply (Hin1 p Hp).
    + intros Hm. destruct (IH _ _ _ Hnd Hm) as (-> & Hf1).
      destruct (matches_ok _ _ _ _ Hm) as (_ & _ & Hin1).
      split.
      * apply filter_agree. intros x Hx. cbn. rewrite not_elem_of_cons.
        split; [intros ?; split; [by intros -> | done] | tauto].
      * rewrite Forall_forall in Hf1, Hin1 |- *. intros p Hp.
        destruct (Hf1 p Hp) as (w' & Hfirst & Hcode & Hstock).
        exists w'. split_and!; [|done|done].
        apply first_with_code_later; [|done].
        rewrite Hcode. intros Heq. apply Hnin. rewrite Heq.
        by apply (Hin1 p Hp).
Qed.

(** When the loop raises, the conversion of a matched quantity did. *)
Lemma matches_raise wr : ∀ ids e,
  matches wr ids = Raise e →
  ∃ w, w ∈ wr ∧ code w ∈ ids ∧ Seller.stock_of_count (quantity w) = Raise e.
Proof.
  induction wr as [|w wr IH]; intros ids e; cbn [matches]; [done|].
  destruct (decide (code w ∈ ids)) as [Hin|Hnin].
  - destruct (Seller.stock_of_count (quantity w)) as [z|e'] eqn:Hz.
    + cbn [mbind result_bind].
      destruct (py_remove_elem _ _ Hin) as (ids1 & -> & Hperm & _ & _).
      cbn [mbind result_bind].
      destruct (matches wr ids1) as [[ps1 ids1']|e'] eqn:Hm; [done|].
      cbn. intros [= ->].
      destruct (IH _ _ Hm) as (w' & Hw' & Hc & Hs).
      exists w'. split_and!; [by right | | done].
      rewrite Hperm. by right.
    + cbn. intros [= ->]. exists w. split_and!; [by left | done | done].
  - intros Hm. destruct (IH _ _ Hm) as (w' & Hw' & Hc & Hs).
    exists w'. split_and!; [by right | done | done].
Qed.

End Matches.

Lemma occurrences_elem x ids : x ∈ ids → (0 < occurrences x ids)%nat.
Proof.
  intros Hx. unfold occurrences.
  assert (x ∈ filter (λ y, y = x) ids) as Hin by (by apply list_elem_of_filter).
  destruct (filter (λ y, y = x) ids); [by apply elem_of_nil in Hin | cbn; lia].
Qed.

Lemma occurrences_NoDup x ids : NoDup ids → x ∈ ids → occurrences x ids = 1%nat.
Proof.
  unfold occurrences. induction 1 as [|a ids Ha Hnd IH]; intros Hx.
  - by apply elem_of_nil in Hx.
  - destruct (decide (a = x)) as [->|Hne].
    + rewrite filter_cons_True by done. cbn. f_equal.
      rewrite filter_none; [done|]. by intros y Hy ->.
    + rewrite filter_cons_False by done. apply IH.
      apply elem_of_cons in Hx as [->|]; done.
Qed.

Section ReconcileRecords.
Context {R : Type} (mk : string → Z → R).
Context (rid : R → string) (has_stock : R → Z → Prop) (zero : string → R).
Context `{!∀ r id, Decision (rid r = id)}.
Hypothesis rid_mk : ∀ c z, rid (mk c z) = c.
Hypothesis has_stock_mk : ∀ c z, has_stock (mk c z) z.
Hypothesis zero_mk : ∀ id, zero id = mk id 0.
Implicit Types (wr : list (gmap string pyval)) (ids : list string).

Lemma map_rid_records (ps : list (string * Z)) :
  map rid (map (λ p, mk p.1 p.2) ps) = map fst ps.
Proof. rewrite map_map. apply map_ext. intros p. apply rid_mk. Qed.

Lemma map_rid_zero ids : map rid (map zero ids) = ids.
Proof.
  rewrite map_map. rewrite <- (map_id ids) at 2. apply map_ext.
  intros id. by rewrite zero_mk, rid_mk.
Qed.

Lemma filter_zero_records id ids :
  filter (λ r, rid r = id) (map zero ids) = replicate (occurrences id ids) (zero id).
Proof.
  unfold occurrences. induction ids as [|a ids IH]; [done|]. cbn [map].
  assert (rid (zero a) = a) as Ha by (by rewrite zero_mk, rid_mk).
  destruct (decide (a = id)) as [->|Hne].
  - rewrite !filter_cons_True by done. cbn. by rewrite IH.
  - rewrite !filter_cons_False by congruence. done.
Qed.

Lemma reconcile_reconciled wr ids :
  NoDup ids → reconciled rid has_stock zero wr ids (reconcile mk zero wr ids).
Proof.
  intros Hnd. unfold reconcile. rewrite reconcile_loop_matches.
  destruct (matches wr ids) as [[ps rest]|e] eqn:Hm; cbn.
  - left. exists (map (λ p, mk p.1 p.2) ps), rest.
    destruct (matches_ok _ _ _ _ Hm) as (Hperm & _ & Hin).
    destruct (matches_ok_nodup _ _ _ _ Hnd Hm) as (Hrest & Hfirst).
    assert (map rid (map (λ p, mk p.1 p.2) ps ++ map zero rest) ≡ₚ ids) as Hp.
    { by rewrite map_app, map_rid_records, map_rid_zero. }
    split_and!; [done | done | done | by rewrite Hp | |].
    + rewrite Forall_forall in Hin. rewrite Forall_forall in Hfirst.
      apply Forall_forall. intros r Hr.
      apply list_elem_of_In, in_map_iff in Hr as (p & <- & Hp').
      apply list_elem_of_In in Hp'. rewrite rid_mk.
      split; [by apply (Hin p Hp')|].
      destruct (Hfirst p Hp') as (w & Hw & Hc & Hs).
      by exists w, p.2.
    + apply Forall_forall. intros id _. rewrite zero_mk, rid_mk. by split.
  - right. destruct (matches_raise _ _ _ Hm) as (w & ? & ? & ?). by exists e, w.
Qed.

Lemma reconcile_unmatched_zeroed wr ids :
  unmatched_zeroed rid zero wr ids (reconcile mk zero wr ids).
Proof.
  unfold reconcile. rewrite reconcile_loop_matches.
  destruct (matches wr ids) as [[ps rest]|e] eqn:Hm; cbn.
  - left. eexists _, rest. split; [done|]. intros id Hid Hnew.
    destruct (matches_ok _ _ _ _ Hm) as (_ & Hcount & Hin).
    assert (filter (λ r, rid r = id) (map (λ p, mk p.1 p.2) ps ++ map zero rest)
            = replicate (occurrences id ids) (zero id)) as Hfil.
    { rewrite filter_app. rewrite (filter_none _ (map _ ps)).
      - cbn [app]. rewrite filter_zero_records. unfold occurrences.
        by rewrite (Hcount id Hnew).
      - intros r Hr Heq.
        apply list_elem_of_In, in_map_iff in Hr as (p & <- & Hp).
        apply list_elem_of_In in Hp. rewrite rid_mk in Heq.
        rewrite Forall_forall in Hin. destruct (Hin p Hp) as [_ Hcode].
        apply Hnew. by rewrite <- Heq. }
    split_and!; [done | by apply occurrences_elem |].
    intros Hnd. by rewrite Hfil, occurrences_NoDup.
  - right. destruct (matches_raise _ _ _ Hm) as (w & ? & ? & ?). by exists e, w.
Qed.

End ReconcileRecords.

Lemma seller_create_stocks_loop wr : ∀ ids acc,
  Seller.create_stocks_loop wr ids acc = reconcile_loop Seller.mkStock wr ids acc.
Proof.
  induction wr as [|w wr IH]; intros ids acc; [done|].
  cbn [Seller.create_stocks_loop reconcile_loop]. fold (code w) (quantity w).
  destruct (decide (code w ∈ ids)); [|apply IH].
  destruct (Seller.stock_of_count (quantity w)); [|done]. cbn [mbind result_bind].
  destruct (py_remove (code w) ids); [|done]. cbn [mbind result_bind]. apply IH.
Qed.

Lemma market_create_stocks_loop date wh wr : ∀ ids acc,
  Market.create_stocks_loop date wr ids wh acc
  = reconcile_loop (λ c z, Market.mkStock c wh [Market.mkItem z "FIT" date]) wr ids acc.
Proof.
  induction wr as [|w wr IH]; intros ids acc; [done|].
  cbn [Market.create_stocks_loop reconcile_loop]. fold (code w) (quantity w).
  change Market.stock_of_count with Seller.stock_of_count.
  destruct (decide (code w ∈ ids)); [|apply IH].
  destruct (Seller.stock_of_count (quantity w)); [|done]. cbn [mbind result_bind].
  destruct (py_remove (code w) ids); [|done]. cbn [mbind result_bind]. apply IH.
Qed.

Lemma seller_create_stocks wr ids :
  Seller.create_stocks wr ids
  = reconcile Seller.mkStock (λ id, Seller.mkStock id 0) wr ids.
Proof.
  unfold Seller.create_stocks, reconcile. by rewrite seller_create_stocks_loop.
Qed.

Lemma market_create_stocks now wh wr ids :
  Market.create_stocks now wr ids wh
  = reconcile (λ c z, Market.mkStock c wh [Market.mkItem z "FIT" (now +:+ "Z")])
              (λ id, Market.mkStock id wh [Market.mkItem 0 "FIT" (now +:+ "Z")]) wr ids.
Proof.
  unfold Market.create_stocks, reconcile. by rewrite market_create_stocks_loop.
Qed.

(** C1.  On a list of offer ids without repetition [create_stocks], in both
    scripts, computes the set difference of the ids and the supplier's codes:
    it returns one stock record per id of the list and none for another id,
    the matched ids first, each with the stock made of the quantity of the
    first supplier row carrying it, then the zero records of the ids matched
    by no row; it fails to do so only by raising what the conversion of a
    matched quantity raised. *)
Theorem create_stocks_set_difference (wr : list (gmap string pyval)) (ids : list string) :
  NoDup ids →
  reconciled Seller.stock_offer_id (λ r z, Seller.stock r = z)
             (λ id, Seller.mkStock id 0) wr ids (Seller.create_stocks wr ids)
  ∧ ∀ now wh,
      reconciled Market.sku
                 (λ r z, Market.warehouseId r = wh
                         ∧ Market.items r = [Market.mkItem z "FIT" (now +:+ "Z")])
                 (λ id, Market.mkStock id wh [Market.mkItem 0 "FIT" (now +:+ "Z")])
                 wr ids (Market.create_stocks now wr ids wh).
Proof.
  intros Hnd. split; [|intros now wh].
  - rewrite seller_create_stocks. by apply reconcile_reconciled.
  - rewrite market_create_stocks. by apply reconcile_reconciled.
Qed.

(** C2.  In both scripts [create_stocks], when it returns, holds for every
    offer id of the list that is the code of no supplier row only zero-stock
    records, one per entry of the list equal to that id (exactly one on a
    list without repetition): [stock = 0] for Ozon, a single item of
    [count = 0] for Yandex.Market.  It fails to return only by raising what
    the conversion of a matched quantity raised. *)
Theorem create_stocks_zero_fills (wr : list (gmap string pyval)) (ids : list string) :
  unmatched_zeroed Seller.stock_offer_id (λ id, Seller.mkStock id 0) wr ids
                   (Seller.create_stocks wr ids)
  ∧ ∀ now wh,
      unmatched_zeroed Market.sku
                       (λ id, Market.mkStock id wh [Market.mkItem 0 "FIT" (now +:+ "Z")])
                       wr ids (Market.create_stocks now wr ids wh).
Proof.
  split; [|intros now wh].
  - rewrite seller_create_stocks. by apply reconcile_unmatched_zeroed.
  - rewrite market_create_stocks. by apply reconcile_unmatched_zeroed.
Qed.

(** ** Quantities and prices *)

Lemma py_str_int_read (z : Z) :
  Z.of_int <$> NilZero.int_of_string (py_str (PyInt z)) = Some z.
Proof.
  cbn [py_str]. pose proof (DecimalZ.of_to z) as Hd.
  destruct (Z.to_int z) as [[]|[]];
    first [rewrite NilZero.isi_posnil | rewrite NilZero.isi_negnil
          | rewrite NilZero.isi by discriminate];
    rewrite <- Hd; reflexivity.
Qed.

Lemma py_str_int_one (z : Z) : py_str (PyInt z) = "1"%string ↔ z = 1.
Proof.
  split; [|by intros ->].
  intros H. pose proof (py_str_int_read z) as Hr. rewrite H in Hr.
  cbn in Hr. congruence.
Qed.

Lemma py_str_int_not_more_than_ten (z : Z) : py_str (PyInt z) ≠ ">10"%string.
Proof.
  intros H. pose proof (py_str_int_read z) as Hr. rewrite H in Hr.
  cbn in Hr. congruence.
Qed.

Lemma py_remove_head x l : py_remove x (x :: l) = Ok l.
Proof. cbn. by rewrite decide_True. Qed.

(** C9, as the code has it.  In both scripts the stock of a matched row is
    made of its quantity, compared after [str()]: the string ">10" gives
    100; the string "1" and the integer 1 give 0; any other integer is kept;
    any other string goes through [int()], which returns its value or raises
    [ValueError]; [None] raises [TypeError]. *)
Theorem stock_of_count_cases :
  (∀ q, Market.stock_of_count q = Seller.stock_of_count q)
  ∧ (∀ q, Seller.stock_of_count q
          = match q with
            | PyStr s =>
                if decide (s = ">10"%string) then Ok 100
                else if decide (s = "1"%string) then Ok 0
                else py_int (PyStr s)
            | PyInt z => if decide (z = 1) then Ok 0 else py_int (PyInt z)
            | PyNone => py_int PyNone
            end)
  ∧ (∀ z, py_int (PyInt z) = Ok z)
  ∧ py_int PyNone = Raise TypeError
  ∧ (∀ s, (∃ z, py_int (PyStr s) = Ok z) ∨ py_int (PyStr s) = Raise ValueError)
  ∧ (∀ w, Seller.create_stocks [w] [code w]
          = z ← Seller.stock_of_count (quantity w);
            Ok ([Seller.mkStock (code w) z], []))
  ∧ (∀ now wh w,
        Market.create_stocks now [w] [code w] wh
        = z ← Market.stock_of_count (quantity w);
          Ok ([Market.mkStock (code w) wh [Market.mkItem z "FIT" (now +:+ "Z")]], [])).
Proof.
  split_and!; [done | | done | done | | |].
  - intros q. unfold Seller.stock_of_count. destruct q as [|z|s].
    + done.
    + destruct (String.eqb_spec (py_str (PyInt z)) ">10") as [E|_];
        [by apply py_str_int_not_more_than_ten in E|].
      destruct (String.eqb_spec (py_str (PyInt z)) "1") as [E|N].
      * apply py_str_int_one in E. by rewrite decide_True.
      * rewrite decide_False; [done|]. intros ->. by apply N.
    + cbn [py_str].
      destruct (String.eqb_spec s ">10") as [->|N1]; [done|].
      rewrite (decide_False (P := s = ">10"%string)) by done.
      destruct (String.eqb_spec s "1") as [->|N2]; [done|].
      by rewrite (decide_False (P := s = "1"%string)).
  - intros s. cbn [py_int]. unfold py_int_str.
    match goal with |- context [match ?p with Some _ => _ | None => _ end] =>
      destruct p as [z|] end; [left; by exists z | by right].
  - intros w. unfold Seller.create_stocks. cbn [Seller.create_stocks_loop].
    fold (code w) (quantity w).
    rewrite decide_True by (by left).
    destruct (Seller.stock_of_count (quantity w)) as [z|e]; [|done].
    cbn [mbind result_bind]. by rewrite py_remove_head.
  - intros now wh w. unfold Market.create_stocks. cbn [Market.create_stocks_loop].
    fold (code w) (quantity w).
    rewrite decide_True by (by left).
    destruct (Market.stock_of_count (quantity w)) as [z|e]; [|done].
    cbn [mbind result_bind]. by rewrite py_remove_head.
Qed.

(** C9 as stated fails on the integer 1: it is neither of the two literal
    strings, [int()] gives 1 for it, and both scripts make it the stock 0. *)
Lemma stock_of_count_integer_one :
  Seller.stock_of_count (PyInt 1) = Ok 0
  ∧ Market.stock_of_count (PyInt 1) = Ok 0
  ∧ py_int (PyInt 1) = Ok 1
  ∧ ¬ (∀ q, q ≠ PyStr ">10" → q ≠ PyStr "1" →
            Seller.stock_of_count q = py_int q ∧ Market.stock_of_count q = py_int q).
Proof.
  split_and!; [reflexivity | reflexivity | reflexivity |].
  intros H. destruct (H (PyInt 1)) as [Hs _]; [done | done |].
  vm_compute in Hs. discriminate Hs.
Qed.

Lemma re_sub_non_digits_digits_only s : re_sub_non_digits s = digits_only s.
Proof.
  unfold digits_only. induction s as [|c s IH]; [done|].
  cbn [re_sub_non_digits String.list_ascii_of_string]. rewrite filter_cons.
  destruct (is_digit c) eqn:Hc.
  - rewrite decide_True by done. cbn. by rewrite IH.
  - rewrite decide_False by done. done.
Qed.

Lemma digits_only_digits s :
  Forall (λ c, is_digit c = true) (String.list_ascii_of_string (digits_only s)).
Proof.
  unfold digits_only. rewrite String.list_ascii_of_string_of_list_ascii.
  apply Forall_forall. intros c Hc. by apply list_elem_of_filter in Hc as [? _].
Qed.

Lemma split_dot_dot_free s : dot_free s → split_dot s = [s].
Proof.
  unfold dot_free. induction s as [|c s IH]; [done|].
  cbn [String.list_ascii_of_string split_dot]. intros H.
  apply Forall_cons in H as [Hc Hs].
  destruct (Ascii.eqb_spec c ".") as [->|_]; [done|].
  by rewrite (IH Hs).
Qed.

Lemma split_dot_first pre post :
  dot_free pre → ∃ pieces, split_dot (pre +:+ "." +:+ post) = pre :: pieces.
Proof.
  unfold dot_free. induction pre as [|c pre IH].
  - intros _. cbn. by eexists.
  - cbn [String.list_ascii_of_string]. intros H. apply Forall_cons in H as [Hc Hs].
    destruct (IH Hs) as [pieces Hp].
    change (String c pre +:+ "." +:+ post) with (String c (pre +:+ "." +:+ post)).
    cbn [split_dot]. destruct (Ascii.eqb_spec c ".") as [->|_]; [done|].
    rewrite Hp. by eexists.
Qed.

Lemma split_dot_head s : ∃ piece pieces, split_dot s = piece :: pieces.
Proof.
  induction s as [|c s (piece & pieces & IH)]; [by repeat eexists|].
  cbn [split_dot]. destruct (Ascii.eqb c "."); [by repeat eexists|].
  rewrite IH. by repeat eexists.
Qed.

Lemma is_digit_not_space c : is_digit c = true → is_space c = false.
Proof.
  unfold is_digit, is_space. cbv zeta. intros H.
  apply andb_true_iff in H as [H1 H2].
  apply Nat.leb_le in H1, H2.
  apply orb_false_iff. split; apply andb_false_iff.
  - right. apply Nat.leb_gt. lia.
  - right. apply Nat.leb_gt. lia.
Qed.

Lemma rstrip_digits s :
  Forall (λ c, is_digit c = true) (String.list_ascii_of_string s) → rstrip s = s.
Proof.
  induction s as [|c s IH]; [done|]. cbn [String.list_ascii_of_string rstrip].
  intros H. apply Forall_cons in H as [Hc Hs]. rewrite (IH Hs).
  destruct s; [|done]. by rewrite (is_digit_not_space c Hc).
Qed.

Lemma strip_digits s :
  Forall (λ c, is_digit c = true) (String.list_ascii_of_string s) → strip s = s.
Proof.
  intros H. unfold strip.
  assert (lstrip s = s) as ->; [|by apply rstrip_digits].
  destruct s as [|c s]; [done|]. cbn [String.list_ascii_of_string] in H.
  apply Forall_cons in H as [Hc _]. cbn [lstrip].
  by rewrite (is_digit_not_space c Hc).
Qed.

Lemma parse_digits_digits s : ∀ acc b,
  Forall (λ c, is_digit c = true) (String.list_ascii_of_string s) →
  parse_digits acc b s
  = match s with
    | EmptyString => if b then Some acc else None
    | _ => Some (fold_left (λ acc c, 10 * acc + digit_value c)
                           (String.list_ascii_of_string s) acc)
    end.
Proof.
  induction s as [|c s IH]; intros acc b H; [done|].
  cbn [String.list_ascii_of_string] in *. apply Forall_cons in H as [Hc Hs].
  cbn [parse_digits fold_left]. rewrite Hc. rewrite (IH _ _ Hs).
  by destruct s.
Qed.

(** [int()] on a string of digits: its decimal value, or [ValueError] when
    the string is empty. *)
Lemma py_int_digits d :
  Forall (λ c, is_digit c = true) (String.list_ascii_of_string d) →
  py_int (PyStr d) = if decide (d = EmptyString) then Raise ValueError else Ok (decimal_value d).
Proof.
  intros H. cbn [py_int]. unfold py_int_str. rewrite (strip_digits d H).
  destruct d as [|c d]; [done|]. rewrite decide_False by done.
  pose proof H as H'. cbn [String.list_ascii_of_string] in H'.
  apply Forall_cons in H' as [Hc _].
  destruct (Ascii.eqb_spec c "-") as [->|_]; [done|].
  destruct (Ascii.eqb_spec c "+") as [->|_]; [done|].
  by rewrite (parse_digits_digits _ _ _ H).
Qed.

Lemma market_create_prices_loop wr ids : ∀ acc,
  Market.create_prices_loop wr ids acc
  = ys ← map_result market_price_of (filter (λ w, code w ∈ ids) wr); Ok (acc ++ ys).
Proof.
  induction wr as [|w wr IH]; intros acc.
  - cbn. by rewrite app_nil_r.
  - cbn [Market.create_prices_loop]. fold (code w). rewrite filter_cons.
    destruct (decide (code w ∈ ids)) as [Hin|Hnin]; [|apply IH].
    cbn [map_result]. unfold market_price_of.
    destruct (Seller.price_conversion (dict_get w "Цена")) as [converted|e]; [|done].
    cbn [mbind result_bind].
    destruct (py_int (PyStr converted)) as [value|e]; [|done].
    cbn [mbind result_bind]. rewrite IH.
    destruct (map_result _ _) as [ys|e]; [|done].
    cbn. by rewrite <- app_assoc.
Qed.

Lemma seller_create_prices_loop wr ids : ∀ acc,
  Seller.create_prices_loop wr ids acc
  = ys ← map_result seller_price_of (filter (λ w, code w ∈ ids) wr); Ok (acc ++ ys).
Proof.
  induction wr as [|w wr IH]; intros acc.
  - cbn. by rewrite app_nil_r.
  - cbn [Seller.create_prices_loop]. fold (code w). rewrite filter_cons.
    destruct (decide (code w ∈ ids)) as [Hin|Hnin]; [|apply IH].
    cbn [map_result]. unfold seller_price_of.
    destruct (Seller.price_conversion (dict_get w "Цена")) as [converted|e]; [|done].
    cbn [mbind result_bind]. rewrite IH.
    destruct (map_result _ _) as [ys|e]; [|done].
    cbn. by rewrite <- app_assoc.
Qed.

Lemma map_result_id {A} (r : result (list A)) : (ys ← r; Ok ([] ++ ys)) = r.
Proof. by destruct r. Qed.

(** C10.  On a string [price_conversion] returns the digits of what stands
    before the first dot (of the whole string when it has no dot) and
    nothing else, so that what follows the dot has no influence: the price
    is cut, not rounded.  The Yandex.Market [create_prices] gives each row
    whose code is a listed id the price [int()] reads in that string: its
    decimal value, [ValueError] when no digit is left. *)
Theorem price_conversion_digits_before_dot :
  (∀ s, dot_free s → Seller.price_conversion (PyStr s) = Ok (digits_only s))
  ∧ (∀ pre post, dot_free pre →
       Seller.price_conversion (PyStr (pre +:+ "." +:+ post)) = Ok (digits_only pre))
  ∧ (∀ s, ∃ d, Seller.price_conversion (PyStr s) = Ok d
               ∧ Forall (λ c, is_digit c = true) (String.list_ascii_of_string d))
  ∧ Seller.price_conversion (PyStr "5'990.00 руб.") = Ok "5990"%string
  ∧ (∀ wr ids,
       Market.create_prices wr ids
       = map_result market_price_of (filter (λ w, code w ∈ ids) wr))
  ∧ (∀ d, Forall (λ c, is_digit c = true) (String.list_ascii_of_string d) →
          py_int (PyStr d)
          = if decide (d = EmptyString) then Raise ValueError else Ok (decimal_value d)).
Proof.
  split_and!.
  - intros s Hs. cbn [Seller.price_conversion]. rewrite (split_dot_dot_free s Hs).
    cbn. by rewrite re_sub_non_digits_digits_only.
  - intros pre post Hpre. cbn [Seller.price_conversion].
    destruct (split_dot_first pre post Hpre) as [pieces ->].
    cbn. by rewrite re_sub_non_digits_digits_only.
  - intros s. cbn [Seller.price_conversion].
    destruct (split_dot_head s) as (piece & pieces & ->). cbn.
    eexists. split; [done|]. rewrite re_sub_non_digits_digits_only.
    apply digits_only_digits.
  - reflexivity.
  - intros wr ids. unfold Market.create_prices. rewrite market_create_prices_loop.
    apply map_result_id.
  - apply py_int_digits.
Qed.

(** ** Pagination: [get_offer_ids] *)

Section OzonPagination.
Context {St : Type} (srv : Seller.Server St) (cid tok : string).

(** The loop on a served stream: it stops at the first page that signals
    the end, having fetched the pages up to that one. *)
Lemma ozon_loop_served ps : ∀ w last acc k fuel,
  ozon_serves srv cid tok (remote w) last ps →
  ozon_first_signal (length acc) ps = Some k →
  (k < fuel)%nat →
  ∃ s', Seller.get_offer_ids_loop srv fuel cid tok last acc w
        = Some (Ok (acc ++ concat (map Seller.items (take (S k) ps))),
                after_requests w (ozon_requests cid tok last (take (S k) ps)) s').
Proof.
  induction ps as [|p ps IH]; intros w last acc k fuel Hserves Hsignal Hfuel; [done|].
  destruct fuel as [|fuel]; [lia|].
  destruct Hserves as (s1 & Hreq & Hrest).
  cbn [Seller.get_offer_ids_loop]. unfold Seller.get_product_list, exchange.
  unfold mbind at 1, M_bind. rewrite Hreq.
  cbn [ozon_first_signal] in Hsignal.
  rewrite <- length_app in Hsignal.
  destruct (Seller.total p =? Z.of_nat (length (acc ++ Seller.items p))) eqn:Htotal.
  - injection Hsignal as <-. exists s1. cbn. by rewrite !app_nil_r.
  - destruct (ozon_first_signal _ ps) as [k'|] eqn:Hk'; [|done].
    injection Hsignal as <-.
    set (w1 := mkWorld s1 _ _ _).
    destruct (IH w1 (Seller.last_id p) (acc ++ Seller.items p) k' fuel) as [s' Hloop];
      [done | done | lia |].
    exists s'. rewrite Hloop. f_equal. f_equal.
    + f_equal. cbn. by rewrite app_assoc.
    + unfold after_requests, w1. cbn. by rewrite <- app_assoc.
Qed.
End OzonPagination.

Section MarketPagination.
Context {St : Type} (srv : Market.Server St) (cid tok : string).

(** The loop on a served stream: it stops at the first page whose
    [nextPageToken] is empty, having fetched the pages up to that one. *)
Lemma market_loop_served ps : ∀ w page acc k fuel,
  market_serves srv cid tok (remote w) page ps →
  market_first_signal ps = Some k →
  (k < fuel)%nat →
  ∃ s', Market.get_offer_ids_loop srv fuel cid tok page acc w
        = Some (Ok (acc ++ concat (map Market.offerMappingEntries (take (S k) ps))),
                after_requests w (market_requests cid tok page (take (S k) ps)) s').
Proof.
  induction ps as [|p ps IH]; intros w page acc k fuel Hserves Hsignal Hfuel; [done|].
  destruct fuel as [|fuel]; [lia|].
  destruct Hserves as (s1 & Hreq & Hrest).
  cbn [Market.get_offer_ids_loop]. unfold Market.get_product_list, exchange.
  unfold mbind at 1, M_bind. rewrite Hreq.
  cbn [market_first_signal] in Hsignal.
  destruct (negb (py_truthy (Market.nextPageToken (Market.paging p)))) eqn:Htoken.
  - injection Hsignal as <-. exists s1. cbn. by rewrite !app_nil_r.
  - destruct (market_first_signal ps) as [k'|] eqn:Hk'; [|done].
    injection Hsignal as <-.
    set (w1 := mkWorld s1 _ _ _).
    destruct (IH w1 (Market.nextPageToken (Market.paging p))
                 (acc ++ Market.offerMappingEntries p) k' fuel) as [s' Hloop];
      [done | done | lia |].
    exists s'. rewrite Hloop. f_equal. f_equal.
    + f_equal. cbn. by rewrite app_assoc.
    + unfold after_requests, w1. cbn. by rewrite <- app_assoc.
Qed.
End MarketPagination.

Lemma ozon_requests_take cid tok ps : ∀ n last,
  ozon_requests cid tok last (take n ps) = take n (ozon_requests cid tok last ps).
Proof. induction ps as [|p ps IH]; intros [|n] last; cbn; try done. by rewrite IH. Qed.

Lemma market_requests_take cid tok ps : ∀ n page,
  market_requests cid tok page (take n ps) = take n (market_requests cid tok page ps).
Proof. induction ps as [|p ps IH]; intros [|n] page; cbn; try done. by rewrite IH. Qed.

Lemma ozon_first_signal_lt ps : ∀ count k,
  ozon_first_signal count ps = Some k → (k < length ps)%nat.
Proof.
  induction ps as [|p ps IH]; intros count k; cbn; [done|].
  destruct (_ =? _); [intros [= <-]; lia|].
  destruct (ozon_first_signal _ ps) as [k'|] eqn:Hk'; [|done].
  intros [= <-]. apply IH in Hk'. lia.
Qed.

Lemma market_first_signal_lt ps : ∀ k,
  market_first_signal ps = Some k → (k < length ps)%nat.
Proof.
  induction ps as [|p ps IH]; intros k; cbn; [done|].
  destruct (negb _); [intros [= <-]; lia|].
  destruct (market_first_signal ps) as [k'|]; [|done].
  intros [= <-]. specialize (IH k' eq_refl). lia.
Qed.

(** C6.  When the marketplace serves a finite page stream whose last page,
    and no page before it, signals the end (Ozon: the reported total is the
    number of items accumulated so far; Yandex.Market: the [nextPageToken]
    is empty), [get_offer_ids] returns the offer ids of all the pages, in
    page order, having requested each page once. *)
Theorem get_offer_ids_collects_all_pages :
  (∀ St (srv : Seller.Server St) cid tok (w : World St Seller.request) ps fuel,
      ozon_serves srv cid tok (remote w) EmptyString ps →
      ozon_first_signal 0 ps = Some (pred (length ps)) →
      (length ps ≤ fuel)%nat →
      ∃ s', Seller.get_offer_ids srv fuel cid tok w
            = Some (Ok (ozon_offer_ids ps),
                    after_requests w (ozon_requests cid tok EmptyString ps) s'))
  ∧ (∀ St (srv : Market.Server St) cid tok (w : World St Market.request) ps fuel,
      market_serves srv cid tok (remote w) (PyStr EmptyString) ps →
      market_first_signal ps = Some (pred (length ps)) →
      (length ps ≤ fuel)%nat →
      ∃ s', Market.get_offer_ids srv fuel cid tok w
            = Some (Ok (market_offer_ids ps),
                    after_requests w (market_requests cid tok (PyStr EmptyString) ps) s')).
Proof.
  split; intros St srv cid tok w ps fuel Hserves Hsignal Hfuel.
  - pose proof (ozon_first_signal_lt _ _ _ Hsignal) as Hlt.
    destruct (ozon_loop_served srv cid tok ps w EmptyString [] _ fuel Hserves Hsignal ltac:(lia))
      as [s' Hloop].
    exists s'. unfold Seller.get_offer_ids. unfold mbind, M_bind. rewrite Hloop.
    replace (S (pred (length ps))) with (length ps) by lia.
    by rewrite firstn_all.
  - pose proof (market_first_signal_lt _ _ Hsignal) as Hlt.
    destruct (market_loop_served srv cid tok ps w (PyStr EmptyString) [] _ fuel Hserves Hsignal
                ltac:(lia)) as [s' Hloop].
    exists s'. unfold Market.get_offer_ids. unfold mbind, M_bind. rewrite Hloop.
    replace (S (pred (length ps))) with (length ps) by lia.
    by rewrite firstn_all.
Qed.

(** C7.  When some page of the stream the marketplace serves signals the end
    (Ozon: the running count of accumulated items reaches the reported total;
    Yandex.Market: the [nextPageToken] is empty), the loop of
    [get_offer_ids] is left after finitely many page requests: with the first
    such page at position [k], [k + 1] requests are sent and the function
    returns. *)
Theorem get_offer_ids_terminates :
  (∀ St (srv : Seller.Server St) cid tok (w : World St Seller.request) ps fuel,
      ozon_serves srv cid tok (remote w) EmptyString ps →
      is_Some (ozon_first_signal 0 ps) →
      (length ps ≤ fuel)%nat →
      ∃ k ids s',
        (k < length ps)%nat
        ∧ Seller.get_offer_ids srv fuel cid tok w
          = Some (Ok ids, after_requests w (take (S k) (ozon_requests cid tok EmptyString ps)) s'))
  ∧ (∀ St (srv : Market.Server St) cid tok (w : World St Market.request) ps fuel,
      market_serves srv cid tok (remote w) (PyStr EmptyString) ps →
      is_Some (market_first_signal ps) →
      (length ps ≤ fuel)%nat →
      ∃ k ids s',
        (k < length ps)%nat
        ∧ Market.get_offer_ids srv fuel cid tok w
          = Some (Ok ids,
                  after_requests w (take (S k) (market_requests cid tok (PyStr EmptyString) ps)) s')).
Proof.
  split; intros St srv cid tok w ps fuel Hserves [k Hsignal] Hfuel.
  - pose proof (ozon_first_signal_lt _ _ _ Hsignal) as Hlt.
    destruct (ozon_loop_served srv cid tok ps w EmptyString [] _ fuel Hserves Hsignal ltac:(lia))
      as [s' Hloop].
    exists k. eexists _, s'. split; [done|].
    unfold Seller.get_offer_ids. unfold mbind, M_bind. rewrite Hloop.
    by rewrite ozon_requests_take.
  - pose proof (market_first_signal_lt _ _ Hsignal) as Hlt.
    destruct (market_loop_served srv cid tok ps w (PyStr EmptyString) [] _ fuel Hserves Hsignal
                ltac:(lia)) as [s' Hloop].
    exists k. eexists _, s'. split; [done|].
    unfold Market.get_offer_ids. unfold mbind, M_bind. rewrite Hloop.
    by rewrite market_requests_take.
Qed.

(** ** Runs in the world: batches sent, errors caught *)

Section Runs.
Context {St Req : Type}.
Abbreviation W := (World St Req).
Implicit Types (w : W) (P : Req → Prop).

Lemma bind_Some {A B} (m : M W A) (f : A → M W B) w r w' :
  (m ≫= f) w = Some (r, w') →
  (∃ a w1, m w = Some (Ok a, w1) ∧ f a w1 = Some (r, w'))
  ∨ (∃ e, m w = Some (Raise e, w') ∧ r = Raise e).
Proof.
  unfold mbind, M_bind. destruct (m w) as [[[a|e] w1]|]; [| |done].
  - intros H. left. by exists a, w1.
  - intros [= <- <-]. right. by exists e.
Qed.

Lemma only_sends_ret {A} P (a : A) : only_sends P (mret a : M W A).
Proof. intros w r w' [= <- <-]. exists []. by rewrite app_nil_r. Qed.

Lemma only_sends_lift {A} P (r : result A) : only_sends P (lift r : M W A).
Proof. intros w r' w' [= <- <-]. exists []. by rewrite app_nil_r. Qed.

Lemma only_sends_print P p : only_sends P (print p : M W unit).
Proof. intros w r w' [= <- <-]. exists []. cbn. by rewrite app_nil_r. Qed.

Lemma only_sends_env_str P name : only_sends P (env_str name : M W string).
Proof. intros w r w' [= <- <-]. exists []. by rewrite app_nil_r. Qed.

Lemma only_sends_call_without_await {A} P (m : M W A) :
  only_sends P (call_without_await m).
Proof. apply only_sends_ret. Qed.

Lemma only_sends_download P reply :
  only_sends P (Seller.download_stock reply : M W (list (gmap string pyval))).
Proof.
  intros w r w'. unfold Seller.download_stock.
  destruct (reply (remote w)) as [r0 s]. intros [= <- <-].
  exists []. cbn. by rewrite app_nil_r.
Qed.

Lemma only_sends_exchange {A} P req (reply : St → result A * St) :
  P req → only_sends P (exchange req reply).
Proof.
  intros HP w r w'. unfold exchange.
  destruct (reply (remote w)) as [r0 s]. intros [= <- <-].
  exists [req]. split; [done | by constructor].
Qed.

Lemma only_sends_bind {A B} P (m : M W A) (f : A → M W B) :
  only_sends P m → (∀ a, may_return m a → only_sends P (f a)) →
  only_sends P (m ≫= f).
Proof.
  intros Hm Hf w r w' Hrun.
  apply bind_Some in Hrun as [(a & w1 & H1 & H2) | (e & H1 & ->)].
  - destruct (Hm _ _ _ H1) as (new1 & Hs1 & HP1).
    destruct (Hf a (ex_intro _ w (ex_intro _ w1 H1)) _ _ _ H2) as (new2 & Hs2 & HP2).
    exists (new1 ++ new2). split; [by rewrite Hs2, Hs1, app_assoc|].
    by apply Forall_app.
  - by apply (Hm _ _ _ H1).
Qed.

Lemma only_sends_for_each {A} P (l : list A) (body : A → M W unit) :
  (∀ x, x ∈ l → only_sends P (body x)) → only_sends P (for_each l body).
Proof.
  induction l as [|x l IH]; intros Hbody; cbn [for_each].
  - apply only_sends_ret.
  - apply only_sends_bind; [apply Hbody; left|].
    intros _ _. apply IH. intros y Hy. apply Hbody. by right.
Qed.

Lemma only_sends_try_except {A} P (body : M W A) handler :
  only_sends P body →
  (∀ e h, handler e = Some h → only_sends P h) →
  only_sends P (try_except body handler).
Proof.
  intros Hbody Hh w r w'. unfold try_except.
  destruct (body w) as [[[a|e] w1]|] eqn:Hrun; [| |done].
  - intros [= <- <-]. by apply (Hbody _ _ _ Hrun).
  - destruct (Hbody _ _ _ Hrun) as (new1 & Hs1 & HP1).
    destruct (handler e) as [h|] eqn:He.
    + intros Hrun2. destruct (Hh _ _ He _ _ _ Hrun2) as (new2 & Hs2 & HP2).
      exists (new1 ++ new2). split; [by rewrite Hs2, Hs1, app_assoc|].
      by apply Forall_app.
    + intros [= <- <-]. by exists new1.
Qed.

Lemma may_return_lift {A} (r : result A) a : may_return (lift r : M W A) a → r = Ok a.
Proof. by intros (w & w' & [= -> _]). Qed.

(** A list sent in chunks: the requests sent carry the first chunks of the
    list, all of them when no request raised. *)
Lemma for_each_exchange {A} (mkreq : A → Req) (reply : Req → St → result unit * St)
    (l : list A) : ∀ w r w',
  for_each l (λ x, exchange (mkreq x) (reply (mkreq x))) w = Some (r, w') →
  ∃ done, sent w' = sent w ++ map mkreq done
          ∧ stdout w' = stdout w ∧ environ w' = environ w
          ∧ done `prefix_of` l ∧ (r = Ok tt → done = l).
Proof.
  induction l as [|x l IH]; intros w r w'; cbn [for_each].
  - intros [= <- <-]. exists []. cbn. by rewrite app_nil_r.
  - intros Hrun. apply bind_Some in Hrun as [(a & w1 & H1 & H2) | (e & H1 & ->)].
    + unfold exchange in H1. destruct (reply (mkreq x) (remote w)) as [r0 s].
      injection H1 as -> <-.
      destruct (IH _ _ _ H2) as (done & Hs & Ho & He & Hpre & Hall).
      exists (x :: done). cbn in *. split_and!; [| done | done | |].
      * by rewrite Hs, <- app_assoc.
      * by apply prefix_cons.
      * intros Hr. by rewrite (Hall Hr).
    + unfold exchange in H1. destruct (reply (mkreq x) (remote w)) as [r0 s].
      injection H1 as -> <-.
      exists [x]. cbn. split_and!; try done.
      apply prefix_cons, prefix_nil.
Qed.
End Runs.

Lemma divide_chunks_bound {A} (lst : list A) (n : Z) :
  0 < n →
  ∃ chunks, Seller.divide lst n = Ok chunks
            ∧ Forall (λ c, Z.of_nat (length c) ≤ n) chunks.
Proof.
  intros Hn. eexists. split; [by apply divide_pos|].
  apply Forall_forall. intros c Hc.
  apply list_elem_of_In, in_map_iff in Hc as (k & <- & _).
  pose proof (chunk_at_length (Z.to_nat n) lst k). lia.
Qed.

Lemma divide_chunks_concat {A} (lst : list A) (n : Z) :
  0 < n → ∃ chunks, Seller.divide lst n = Ok chunks ∧ concat chunks = lst.
Proof.
  intros Hn. eexists. split; [by apply divide_pos|].
  apply concat_chunks; [lia | by apply chunk_count_covers].
Qed.

Section SellerRuns.
Context {St : Type} (srv : Seller.Server St).

Lemma seller_only_sends_loop P fuel : ∀ cid tok last acc,
  (∀ last, P (Seller.ProductList cid tok last)) →
  only_sends P (Seller.get_offer_ids_loop srv fuel cid tok last acc).
Proof.
  induction fuel as [|fuel IH]; intros cid tok last acc HP; cbn [Seller.get_offer_ids_loop].
  - by intros w r w'.
  - apply only_sends_bind; [by apply only_sends_exchange|]. intros p _.
    destruct (_ =? _); [apply only_sends_ret | by apply IH].
Qed.

Lemma seller_only_sends_get_offer_ids P fuel cid tok :
  (∀ last, P (Seller.ProductList cid tok last)) →
  only_sends P (Seller.get_offer_ids srv fuel cid tok).
Proof.
  intros HP. unfold Seller.get_offer_ids.
  apply only_sends_bind; [by apply seller_only_sends_loop|].
  intros; apply only_sends_ret.
Qed.

(** A list sent in chunks of at most [n]: every request carries at most
    [n] items. *)
Lemma seller_only_sends_chunks {A B} P (xs : list A) (n : Z) (mkreq : list A → Seller.request)
    (k : M (World St Seller.request) B) :
  0 < n →
  (∀ c, Z.of_nat (length c) ≤ n → P (mkreq c)) →
  only_sends P k →
  only_sends P (chunks ← lift (Seller.divide xs n);
                _ ← for_each chunks (λ c, exchange (mkreq c) (Seller.on_update srv (mkreq c)));
                k).
Proof.
  intros Hn HP Hk. apply only_sends_bind; [apply only_sends_lift|].
  intros chunks Hch. apply may_return_lift in Hch.
  destruct (divide_chunks_bound xs n Hn) as (chunks' & Hd & Hbound).
  rewrite Hd in Hch. injection Hch as <-.
  apply only_sends_bind; [|done].
  apply only_sends_for_each. intros c Hc. apply only_sends_exchange, HP.
  rewrite Forall_forall in Hbound. by apply Hbound.
Qed.

Lemma seller_upload_stocks_ceiling fuel wr cid tok :
  only_sends seller_within_ceiling (Seller.upload_stocks srv fuel wr cid tok).
Proof.
  unfold Seller.upload_stocks.
  apply only_sends_bind; [by apply seller_only_sends_get_offer_ids|]. intros ids _.
  apply only_sends_bind; [apply only_sends_lift|]. intros [stocks rest] _.
  apply (seller_only_sends_chunks _ stocks 100 (Seller.ImportStocks cid tok));
    [lia | cbn; lia | apply only_sends_ret].
Qed.

Lemma seller_upload_prices_ceiling fuel wr cid tok :
  only_sends seller_within_ceiling (Seller.upload_prices srv fuel wr cid tok).
Proof.
  unfold Seller.upload_prices.
  apply only_sends_bind; [by apply seller_only_sends_get_offer_ids|]. intros ids _.
  apply only_sends_bind; [apply only_sends_lift|]. intros prices _.
  apply (seller_only_sends_chunks _ prices 1000 (Seller.ImportPrices cid tok));
    [lia | cbn; lia | apply only_sends_ret].
Qed.

Lemma seller_main_ceiling fuel :
  only_sends seller_within_ceiling (Seller.main srv fuel).
Proof.
  unfold Seller.main.
  apply only_sends_bind; [apply only_sends_env_str|]. intros tok _.
  apply only_sends_bind; [apply only_sends_env_str|]. intros cid _.
  apply only_sends_try_except.
  - unfold Seller.main_try.
    apply only_sends_bind; [by apply seller_only_sends_get_offer_ids|]. intros ids _.
    apply only_sends_bind; [apply only_sends_download|]. intros wr _.
    apply only_sends_bind; [apply only_sends_lift|]. intros [stocks rest] _.
    apply (seller_only_sends_chunks _ stocks 100 (Seller.ImportStocks cid tok));
      [lia | cbn; lia |].
    apply only_sends_bind; [apply only_sends_lift|]. intros prices _.
    apply only_sends_bind; [apply only_sends_lift|].
    intros chunks Hch. apply may_return_lift in Hch.
    destruct (divide_chunks_bound prices 900 ltac:(lia)) as (chunks' & Hd & Hbound).
    rewrite Hd in Hch. injection Hch as <-.
    apply only_sends_for_each. intros c Hc.
    apply only_sends_exchange. cbn.
    rewrite Forall_forall in Hbound. specialize (Hbound c Hc). lia.
  - intros e h. unfold Seller.main_except.
    repeat (destruct (_ e)); intros [= <-]; apply only_sends_print.
Qed.
End SellerRuns.

Section MarketRuns.
Context {St : Type} (srv : Market.Server St).

Lemma market_only_sends_loop P fuel : ∀ cid tok page acc,
  (∀ page, P (Market.OfferMappingEntries cid tok page)) →
  only_sends P (Market.get_offer_ids_loop srv fuel cid tok page acc).
Proof.
  induction fuel as [|fuel IH]; intros cid tok page acc HP; cbn [Market.get_offer_ids_loop].
  - by intros w r w'.
  - apply only_sends_bind; [by apply only_sends_exchange|]. intros p _.
    destruct (negb _); [apply only_sends_ret | by apply IH].
Qed.

Lemma market_only_sends_get_offer_ids P fuel cid tok :
  (∀ page, P (Market.OfferMappingEntries cid tok page)) →
  only_sends P (Market.get_offer_ids srv fuel cid tok).
Proof.
  intros HP. unfold Market.get_offer_ids.
  apply only_sends_bind; [by apply market_only_sends_loop|].
  intros; apply only_sends_ret.
Qed.

Lemma market_only_sends_read_clock P : only_sends P (Market.read_clock srv).
Proof. intros w r w' [= <- <-]. exists []. by rewrite app_nil_r. Qed.

Lemma market_only_sends_chunks {A B} P (xs : list A) (n : Z) (mkreq : list A → Market.request)
    (k : M (World St Market.request) B) :
  0 < n →
  (∀ c, Z.of_nat (length c) ≤ n → P (mkreq c)) →
  only_sends P k →
  only_sends P (chunks ← lift (Seller.divide xs n);
                _ ← for_each chunks (λ c, exchange (mkreq c) (Market.on_update srv (mkreq c)));
                k).
Proof.
  intros Hn HP Hk. apply only_sends_bind; [apply only_sends_lift|].
  intros chunks Hch. apply may_return_lift in Hch.
  destruct (divide_chunks_bound xs n Hn) as (chunks' & Hd & Hbound).
  rewrite Hd in Hch. injection Hch as <-.
  apply only_sends_bind; [|done].
  apply only_sends_for_each. intros c Hc. apply only_sends_exchange, HP.
  rewrite Forall_forall in Hbound. by apply Hbound.
Qed.

Lemma market_upload_stocks_ceiling fuel wr cid tok wh :
  only_sends market_within_ceiling (Market.upload_stocks srv fuel wr cid tok wh).
Proof.
  unfold Market.upload_stocks.
  apply only_sends_bind; [by apply market_only_sends_get_offer_ids|]. intros ids _.
  apply only_sends_bind; [apply market_only_sends_read_clock|]. intros now _.
  apply only_sends_bind; [apply only_sends_lift|]. intros [stocks rest] _.
  apply (market_only_sends_chunks _ stocks 2000 (Market.PutStocks cid tok));
    [lia | cbn; lia | apply only_sends_ret].
Qed.

Lemma market_upload_prices_ceiling fuel wr cid tok :
  only_sends market_within_ceiling (Market.upload_prices srv fuel wr cid tok).
Proof.
  unfold Market.upload_prices.
  apply only_sends_bind; [by apply market_only_sends_get_offer_ids|]. intros ids _.
  apply only_sends_bind; [apply only_sends_lift|]. intros prices _.
  apply (market_only_sends_chunks _ prices 500 (Market.PostPrices cid tok));
    [lia | cbn; lia | apply only_sends_ret].
Qed.

Lemma market_main_ceiling fuel :
  only_sends market_within_ceiling (Market.main srv fuel).
Proof.
  unfold Market.main.
  do 5 (apply only_sends_bind; [apply only_sends_env_str|]; intros ? _).
  apply only_sends_bind; [apply only_sends_download|]. intros wr _.
  apply only_sends_try_except.
  - unfold Market.main_try.
    apply only_sends_bind; [by apply market_only_sends_get_offer_ids|]. intros ids _.
    apply only_sends_bind; [apply market_only_sends_read_clock|]. intros now _.
    apply only_sends_bind; [apply only_sends_lift|]. intros [stocks rest] _.
    apply (market_only_sends_chunks _ stocks 2000 (Market.PutStocks _ _)); [lia | cbn; lia |].
    apply only_sends_bind; [apply only_sends_call_without_await|]. intros _ _.
    apply only_sends_bind; [by apply market_only_sends_get_offer_ids|]. intros ids' _.
    apply only_sends_bind; [apply market_only_sends_read_clock|]. intros now' _.
    apply only_sends_bind; [apply only_sends_lift|]. intros [stocks' rest'] _.
    apply (market_only_sends_chunks _ stocks' 2000 (Market.PutStocks _ _)); [lia | cbn; lia |].
    apply only_sends_call_without_await.
  - intros e h. unfold Market.main_except.
    repeat (destruct (_ e)); intros [= <-]; apply only_sends_print.
Qed.
End MarketRuns.

(** C3.  For a positive [n] every chunk of [divide lst n] holds at most [n]
    items; the upload routines of both scripts, and both [main], send their
    records cut by [divide] with fixed steps, so that whatever happens no
    request sent carries more than the ceiling: 100 stock records and 1000
    prices for Ozon, 2000 stock records and 500 prices for Yandex.Market. *)
Theorem batches_within_ceiling :
  (∀ A (lst : list A) n, 0 < n →
      ∃ chunks, Seller.divide lst n = Ok chunks
                ∧ Forall (λ c, Z.of_nat (length c) ≤ n) chunks)
  ∧ (∀ St (srv : Seller.Server St) fuel wr cid tok,
      only_sends seller_within_ceiling (Seller.upload_stocks srv fuel wr cid tok)
      ∧ only_sends seller_within_ceiling (Seller.upload_prices srv fuel wr cid tok)
      ∧ only_sends seller_within_ceiling (Seller.main srv fuel))
  ∧ (∀ St (srv : Market.Server St) fuel wr cid tok wh,
      only_sends market_within_ceiling (Market.upload_stocks srv fuel wr cid tok wh)
      ∧ only_sends market_within_ceiling (Market.upload_prices srv fuel wr cid tok)
      ∧ only_sends market_within_ceiling (Market.main srv fuel)).
Proof.
  split_and!.
  - intros A lst n. apply divide_chunks_bound.
  - intros St srv fuel wr cid tok. split_and!.
    + apply seller_upload_stocks_ceiling.
    + apply seller_upload_prices_ceiling.
    + apply seller_main_ceiling.
  - intros St srv fuel wr cid tok wh. split_and!.
    + apply market_upload_stocks_ceiling.
    + apply market_upload_prices_ceiling.
    + apply market_main_ceiling.
Qed.

Lemma lift_Some {W A} (r : result A) (w : W) r' w' :
  lift r w = Some (r', w') → r = r' ∧ w' = w.
Proof. by intros [= -> ->]. Qed.

Lemma seller_batches_product_list new :
  Forall seller_is_product_list new →
  seller_stock_batches new = [] ∧ seller_price_batches new = [].
Proof.
  induction 1 as [|req new Hreq _ [IH1 IH2]]; [done|].
  destruct req; cbn in *; done.
Qed.

Lemma market_batches_product_list new :
  Forall market_is_product_list new →
  market_stock_batches new = [] ∧ market_price_batches new = [].
Proof.
  induction 1 as [|req new Hreq _ [IH1 IH2]]; [done|].
  destruct req; cbn in *; done.
Qed.

Lemma seller_stock_batches_map cid tok chunks :
  seller_stock_batches (map (Seller.ImportStocks cid tok) chunks) = chunks.
Proof. induction chunks as [|c chunks IH]; [done|]. cbn. by f_equal. Qed.

Lemma seller_price_batches_map cid tok chunks :
  seller_price_batches (map (Seller.ImportPrices cid tok) chunks) = chunks.
Proof. induction chunks as [|c chunks IH]; [done|]. cbn. by f_equal. Qed.

Lemma market_stock_batches_map cid tok chunks :
  market_stock_batches (map (Market.PutStocks cid tok) chunks) = chunks.
Proof. induction chunks as [|c chunks IH]; [done|]. cbn. by f_equal. Qed.

Lemma market_price_batches_map cid tok chunks :
  market_price_batches (map (Market.PostPrices cid tok) chunks) = chunks.
Proof. induction chunks as [|c chunks IH]; [done|]. cbn. by f_equal. Qed.

Section SentInChunks.
Context {St Req A : Type} (mkreq : list A → Req) (reply : Req → St → result unit * St).

(** A list cut by [divide] and sent chunk by chunk with no request
    raising: the requests sent carry the chunks, which together are the
    list. *)
Lemma sent_in_chunks (xs : list A) (n : Z) (w : World St Req) chunks w1 w2 :
  0 < n →
  lift (Seller.divide xs n) w = Some (Ok chunks, w1) →
  for_each chunks (λ c, exchange (mkreq c) (reply (mkreq c))) w1 = Some (Ok tt, w2) →
  sent w2 = sent w ++ map mkreq chunks ∧ concat chunks = xs.
Proof.
  intros Hn Hd Hrun. apply lift_Some in Hd as [Hd ->].
  destruct (divide_chunks_concat xs n Hn) as (chunks' & Hd' & Hcat).
  rewrite Hd' in Hd. injection Hd as ->.
  destruct (for_each_exchange _ _ _ _ _ _ Hrun) as (done & Hs & _ & _ & _ & Hall).
  rewrite (Hall eq_refl) in Hs. done.
Qed.
End SentInChunks.

(** C4.  For a positive [n] the chunks of [divide lst n], put end to end in
    order, are [lst]: batching drops, repeats and moves nothing.  Hence when
    an upload routine returns, the batches carried by the requests it sent
    are, end to end, the records it built. *)
Theorem batches_rebuild_records :
  (∀ A (lst : list A) n, 0 < n →
      ∃ chunks, Seller.divide lst n = Ok chunks ∧ concat chunks = lst)
  ∧ (∀ St (srv : Seller.Server St) fuel wr cid tok w not_empty stocks w',
      Seller.upload_stocks srv fuel wr cid tok w = Some (Ok (not_empty, stocks), w') →
      ∃ new, sent w' = sent w ++ new ∧ concat (seller_stock_batches new) = stocks)
  ∧ (∀ St (srv : Seller.Server St) fuel wr cid tok w prices w',
      Seller.upload_prices srv fuel wr cid tok w = Some (Ok prices, w') →
      ∃ new, sent w' = sent w ++ new ∧ concat (seller_price_batches new) = prices)
  ∧ (∀ St (srv : Market.Server St) fuel wr cid tok wh w not_empty stocks w',
      Market.upload_stocks srv fuel wr cid tok wh w = Some (Ok (not_empty, stocks), w') →
      ∃ new, sent w' = sent w ++ new ∧ concat (market_stock_batches new) = stocks)
  ∧ (∀ St (srv : Market.Server St) fuel wr cid tok w prices w',
      Market.upload_prices srv fuel wr cid tok w = Some (Ok prices, w') →
      ∃ new, sent w' = sent w ++ new ∧ concat (market_price_batches new) = prices).
Proof.
  split_and!.
  - intros A lst n. apply divide_chunks_concat.
  - intros St srv fuel wr cid tok w ne stocks w' H. unfold Seller.upload_stocks in H.
    apply bind_Some in H as [(ids & w1 & Hids & H) | (e & _ & [=])].
    destruct (seller_only_sends_get_offer_ids srv seller_is_product_list fuel cid tok
                ltac:(done) _ _ _ Hids) as (new1 & Hs1 & Hpl).
    apply bind_Some in H as [([stocks0 rest] & w2 & Hbuild & H) | (e & _ & [=])].
    apply lift_Some in Hbuild as [_ ->].
    apply bind_Some in H as [(chunks & w3 & Hdiv & H) | (e & _ & [=])].
    apply bind_Some in H as [([] & w4 & Hsend & H) | (e & _ & [=])].
    injection H as <- <- <-.
    destruct (sent_in_chunks (Seller.ImportStocks cid tok) (Seller.on_update srv) stocks0 100 _ _ _ _
                ltac:(lia) Hdiv Hsend) as [Hs2 Hcat].
    exists (new1 ++ map (Seller.ImportStocks cid tok) chunks).
    split; [by rewrite Hs2, Hs1, app_assoc|].
    unfold seller_stock_batches. rewrite omap_app.
    fold (seller_stock_batches new1).
    fold (seller_stock_batches (map (Seller.ImportStocks cid tok) chunks)).
    rewrite (proj1 (seller_batches_product_list _ Hpl)), seller_stock_batches_map.
    done.
  - intros St srv fuel wr cid tok w prices w' H. unfold Seller.upload_prices in H.
    apply bind_Some in H as [(ids & w1 & Hids & H) | (e & _ & [=])].
    destruct (seller_only_sends_get_offer_ids srv seller_is_product_list fuel cid tok
                ltac:(done) _ _ _ Hids) as (new1 & Hs1 & Hpl).
    apply bind_Some in H as [(prices0 & w2 & Hbuild & H) | (e & _ & [=])].
    apply lift_Some in Hbuild as [_ ->].
    apply bind_Some in H as [(chunks & w3 & Hdiv & H) | (e & _ & [=])].
    apply bind_Some in H as [([] & w4 & Hsend & H) | (e & _ & [=])].
    injection H as <- <-.
    destruct (sent_in_chunks (Seller.ImportPrices cid tok) (Seller.on_update srv) prices0 1000 _ _ _ _
                ltac:(lia) Hdiv Hsend) as [Hs2 Hcat].
    exists (new1 ++ map (Seller.ImportPrices cid tok) chunks).
    split; [by rewrite Hs2, Hs1, app_assoc|].
    unfold seller_price_batches. rewrite omap_app.
    fold (seller_price_batches new1).
    fold (seller_price_batches (map (Seller.ImportPrices cid tok) chunks)).
    rewrite (proj2 (seller_batches_product_list _ Hpl)), seller_price_batches_map.
    done.
  - intros St srv fuel wr cid tok wh w ne stocks w' H. unfold Market.upload_stocks in H.
    apply bind_Some in H as [(ids & w1 & Hids & H) | (e & _ & [=])].
    destruct (market_only_sends_get_offer_ids srv market_is_product_list fuel cid tok
                ltac:(done) _ _ _ Hids) as (new1 & Hs1 & Hpl).
    apply bind_Some in H as [(now & w1' & Hnow & H) | (e & _ & [=])].
    injection Hnow as _ <-.
    apply bind_Some in H as [([stocks0 rest] & w2 & Hbuild & H) | (e & _ & [=])].
    apply lift_Some in Hbuild as [_ ->].
    apply bind_Some in H as [(chunks & w3 & Hdiv & H) | (e & _ & [=])].
    apply bind_Some in H as [([] & w4 & Hsend & H) | (e & _ & [=])].
    injection H as <- <- <-.
    destruct (sent_in_chunks (Market.PutStocks cid tok) (Market.on_update srv) stocks0 2000 _ _ _ _
                ltac:(lia) Hdiv Hsend) as [Hs2 Hcat].
    exists (new1 ++ map (Market.PutStocks cid tok) chunks).
    split; [by rewrite Hs2, Hs1, app_assoc|].
    unfold market_stock_batches. rewrite omap_app.
    fold (market_stock_batches new1).
    fold (market_stock_batches (map (Market.PutStocks cid tok) chunks)).
    rewrite (proj1 (market_batches_product_list _ Hpl)), market_stock_batches_map.
    done.
  - intros St srv fuel wr cid tok w prices w' H. unfold Market.upload_prices in H.
    apply bind_Some in H as [(ids & w1 & Hids & H) | (e & _ & [=])].
    destruct (market_only_sends_get_offer_ids srv market_is_product_list fuel cid tok
                ltac:(done) _ _ _ Hids) as (new1 & Hs1 & Hpl).
    apply bind_Some in H as [(prices0 & w2 & Hbuild & H) | (e & _ & [=])].
    apply lift_Some in Hbuild as [_ ->].
    apply bind_Some in H as [(chunks & w3 & Hdiv & H) | (e & _ & [=])].
    apply bind_Some in H as [([] & w4 & Hsend & H) | (e & _ & [=])].
    injection H as <- <-.
    destruct (sent_in_chunks (Market.PostPrices cid tok) (Market.on_update srv) prices0 500 _ _ _ _
                ltac:(lia) Hdiv Hsend) as [Hs2 Hcat].
    exists (new1 ++ map (Market.PostPrices cid tok) chunks).
    split; [by rewrite Hs2, Hs1, app_assoc|].
    unfold market_price_batches. rewrite omap_app.
    fold (market_price_batches new1).
    fold (market_price_batches (map (Market.PostPrices cid tok) chunks)).
    rewrite (proj2 (market_batches_product_list _ Hpl)), market_price_batches_map.
    done.
Qed.

Lemma env_str_found {St Req} (w : World St Req) name v :
  environ w !! name = Some v → env_str name w = Some (Ok v, w).
Proof. unfold env_str. by intros ->. Qed.

(** C5.  In both scripts an exception raised inside the [try] block of
    [main] that is an [Exception] does not leave [main]: [main] returns, in
    the world the exception left, with one more printed line and nothing
    else (no further request, no retry).  The line is the time-out text for
    [ReadTimeout], the error followed by the connection text for
    [ConnectionError], the error followed by "ERROR_2" for any other
    [Exception].  What derives from [BaseException] only matches none of the
    three clauses and propagates; a block that returns prints nothing. *)
Theorem main_catches_three_categories :
  (∀ St (srv : Seller.Server St) fuel (w : World St Seller.request) cid tok r w1,
      environ w !! "SELLER_TOKEN"%string = Some tok →
      environ w !! "CLIENT_ID"%string = Some cid →
      Seller.main_try srv fuel cid tok w = Some (r, w1) →
      Seller.main srv fuel w
      = match r with
        | Ok _ => Some (Ok tt, w1)
        | Raise e =>
            if is_Exception e then Some (Ok tt, printed w1 (except_message e))
            else Some (Raise e, w1)
        end)
  ∧ (∀ St (srv : Market.Server St) fuel (w : World St Market.request)
       tok fbs dbs wh_fbs wh_dbs wr w0 r w1,
      environ w !! "MARKET_TOKEN"%string = Some tok →
      environ w !! "FBS_ID"%string = Some fbs →
      environ w !! "DBS_ID"%string = Some dbs →
      environ w !! "WAREHOUSE_FBS_ID"%string = Some wh_fbs →
      environ w !! "WAREHOUSE_DBS_ID"%string = Some wh_dbs →
      Seller.download_stock (Market.on_download srv) w = Some (Ok wr, w0) →
      Market.main_try srv fuel wr tok fbs dbs wh_fbs wh_dbs w0 = Some (r, w1) →
      Market.main srv fuel w
      = match r with
        | Ok _ => Some (Ok tt, w1)
        | Raise e =>
            if is_Exception e then Some (Ok tt, printed w1 (except_message e))
            else Some (Raise e, w1)
        end).
Proof.
  split.
  - intros St srv fuel w cid tok r w1 Htok Hcid Htry.
    unfold Seller.main, mbind, M_bind.
    rewrite (env_str_found _ _ _ Htok), (env_str_found _ _ _ Hcid).
    unfold try_except. rewrite Htry.
    destruct r as [[]|e]; [done|].
    by destruct e.
  - intros St srv fuel w tok fbs dbs wh_fbs wh_dbs wr w0 r w1
           Htok Hfbs Hdbs Hwf Hwd Hdl Htry.
    unfold Market.main, mbind, M_bind.
    rewrite (env_str_found _ _ _ Htok), (env_str_found _ _ _ Hfbs),
      (env_str_found _ _ _ Hdbs), (env_str_found _ _ _ Hwf), (env_str_found _ _ _ Hwd).
    rewrite Hdl. unfold try_except. rewrite Htry.
    destruct r as [[]|e]; [done|].
    by destruct e.
Qed.

Lemma bind_at {W A B} (m : M W A) (f : A → M W B) w a w1 :
  m w = Some (Ok a, w1) → (m ≫= f) w = f a w1.
Proof. unfold mbind, M_bind. by intros ->. Qed.

(** On ids without repetition [create_stocks] leaves in the list the ids
    that are the code of no row, and [create_prices] finds nothing to price
    in what is left. *)
Lemma seller_create_stocks_leaves wr ids stocks rest :
  NoDup ids → Seller.create_stocks wr ids = Ok (stocks, rest) →
  rest = filter (λ id, id ∉ map code wr) ids
  ∧ (∀ w, w ∈ wr → code w ∉ rest)
  ∧ Seller.create_prices wr rest = Ok [].
Proof.
  intros Hnd. rewrite seller_create_stocks. unfold reconcile.
  rewrite reconcile_loop_matches.
  destruct (matches wr ids) as [[ps rest0]|e] eqn:Hm; [|done].
  cbn. intros [= _ <-].
  destruct (matches_ok_nodup _ _ _ _ Hnd Hm) as [Hrest _].
  assert (∀ w, w ∈ wr → code w ∉ rest0) as Hout.
  { intros w Hw Hin. rewrite Hrest in Hin.
    apply list_elem_of_filter in Hin as [Hnot _]. apply Hnot.
    apply list_elem_of_In, in_map, list_elem_of_In, Hw. }
  split_and!; [done | done |].
  unfold Seller.create_prices. rewrite seller_create_prices_loop.
  rewrite filter_none; [done|]. intros w Hw. by apply Hout.
Qed.

(** The rest of the [try] block of seller.py, once the ids are fetched and
    hold no repetition, sends no price update. *)
Lemma seller_main_after_ids {St} (srv : Seller.Server St) cid tok ids :
  NoDup ids →
  only_sends seller_no_price_update
    (watch_remnants ← Seller.download_stock (Seller.on_download srv);
     '(stocks, offer_ids) ← lift (Seller.create_stocks watch_remnants ids);
     chunks ← lift (Seller.divide stocks 100);
     _ ← for_each chunks (λ some_stock, Seller.update_stocks srv some_stock cid tok);
     prices ← lift (Seller.create_prices watch_remnants offer_ids);
     chunks ← lift (Seller.divide prices 900);
     for_each chunks (λ some_price, Seller.update_price srv some_price cid tok)).
Proof.
  intros Hnd.
  apply only_sends_bind; [apply only_sends_download|]. intros wr _.
  apply only_sends_bind; [apply only_sends_lift|]. intros [stocks rest] Hbuild.
  apply may_return_lift in Hbuild.
  destruct (seller_create_stocks_leaves _ _ _ _ Hnd Hbuild) as (_ & _ & Hprices).
  apply only_sends_bind; [apply only_sends_lift|]. intros chunks _.
  apply only_sends_bind.
  { apply only_sends_for_each. intros c _. by apply only_sends_exchange. }
  intros _ _.
  apply only_sends_bind; [apply only_sends_lift|]. intros prices Hp.
  apply may_return_lift in Hp. rewrite Hprices in Hp. injection Hp as <-.
  apply only_sends_bind; [apply only_sends_lift|]. intros chunks' Hd.
  apply may_return_lift in Hd. vm_compute in Hd. injection Hd as <-.
  apply only_sends_ret.
Qed.

(** C8, as the code has it.  [create_stocks] of seller.py takes the matched
    ids out of the list it is given.  When that list holds no id twice, no
    code of a supplier row is left in it, and [create_prices], which [main]
    calls on the same list afterwards, yields no price record at all: no
    row reconciled into the stocks is priced, and [main] sends no price
    update. *)
Theorem create_stocks_empties_price_upload :
  (∀ wr ids stocks rest,
      NoDup ids → Seller.create_stocks wr ids = Ok (stocks, rest) →
      rest = filter (λ id, id ∉ map code wr) ids
      ∧ (∀ w, w ∈ wr → code w ∉ rest)
      ∧ Seller.create_prices wr rest = Ok [])
  ∧ (∀ St (srv : Seller.Server St) fuel cid tok (w : World St Seller.request) ids w1 r w',
      Seller.get_offer_ids srv fuel cid tok w = Some (Ok ids, w1) →
      NoDup ids →
      Seller.main_try srv fuel cid tok w = Some (r, w') →
      ∃ new, sent w' = sent w ++ new ∧ Forall seller_no_price_update new).
Proof.
  split; [apply seller_create_stocks_leaves|].
  intros St srv fuel cid tok w ids w1 r w' Hids Hnd Hrun.
  unfold Seller.main_try in Hrun. rewrite (bind_at _ _ _ _ _ Hids) in Hrun.
  destruct (seller_only_sends_get_offer_ids srv seller_no_price_update fuel cid tok
              ltac:(done) _ _ _ Hids) as (new1 & Hs1 & HP1).
  destruct (seller_main_after_ids srv cid tok ids Hnd _ _ _ Hrun) as (new2 & Hs2 & HP2).
  exists (new1 ++ new2). split; [by rewrite Hs2, Hs1, app_assoc | by apply Forall_app].
Qed.

(** C8 as stated fails when an id stands twice in the list: only one of the
    two is taken out, the row matched for the stocks is still found by
    [create_prices] and gets a price record. *)
Lemma create_stocks_keeps_repeated_id :
  Seller.create_stocks_loop sample_rows ["111"; "111"]%string []
  = Ok ([Seller.mkStock "111" 5], ["111"]%string)
  ∧ Seller.create_stocks sample_rows ["111"; "111"]%string
    = Ok ([Seller.mkStock "111" 5; Seller.mkStock "111" 0], ["111"]%string)
  ∧ Seller.create_prices sample_rows ["111"%string]
    = Ok [Seller.mkPrice "UNKNOWN" "RUB" "111" "0" "5990"]
  ∧ ¬ (∀ wr ids matched rest prices,
         Seller.create_stocks_loop wr ids [] = Ok (matched, rest) →
         Seller.create_prices wr rest = Ok prices →
         (∀ r, r ∈ matched → Seller.stock_offer_id r ∉ rest)
         ∧ (∀ p, p ∈ prices →
                 Seller.price_offer_id p ∉ map Seller.stock_offer_id matched)).
Proof.
  assert (Seller.create_stocks_loop sample_rows ["111"; "111"]%string []
          = Ok ([Seller.mkStock "111" 5], ["111"]%string))
    as Hloop by (vm_compute; reflexivity).
  assert (Seller.create_prices sample_rows ["111"%string]
          = Ok [Seller.mkPrice "UNKNOWN" "RUB" "111" "0" "5990"])
    as Hprices by (vm_compute; reflexivity).
  split_and!; [exact Hloop | vm_compute; reflexivity | exact Hprices |].
  intros Hclaim. destruct (Hclaim _ _ _ _ _ Hloop Hprices) as [Hgone _].
  apply (Hgone (Seller.mkStock "111" 5)); cbn; left.
Qed.

(** * Further properties *)

(** ** [divide] at its bounds *)

(** X1.  A step of zero makes [divide] raise [ValueError], whatever the
    list; a negative step makes it yield no chunk at all, so that a list cut
    with such a step is lost without an error. *)
Theorem divide_step_not_positive {A} (lst : list A) :
  Seller.divide lst 0 = Raise ValueError
  ∧ ∀ n, n < 0 → Seller.divide lst n = Ok [].
Proof.
  split; [done|]. intros n Hn. unfold Seller.divide, py_range.
  rewrite (proj2 (Z.eqb_neq n 0)) by lia.
  rewrite (proj2 (Z.ltb_ge 0 n)) by lia.
  replace (Z.to_nat ((0 - Z.of_nat (length lst) - n - 1) / - n)) with 0%nat; [done|].
  assert ((0 - Z.of_nat (length lst) - n - 1) / - n ≤ 0); [|lia].
  assert ((0 - Z.of_nat (length lst) - n - 1) / - n < 1); [|lia].
  apply Z.div_lt_upper_bound; lia.
Qed.

(** X2.  For a positive step [n] the list is cut in as many chunks as its
    length over [n], rounded up; the chunk of rank [i] is the slice that
    starts at [i * n]; no chunk is empty and every chunk but the last holds
    exactly [n] items.  In particular the empty list gives no chunk. *)
Theorem divide_chunk_shape {A} (lst : list A) (n : Z) :
  0 < n →
  ∃ chunks,
    Seller.divide lst n = Ok chunks
    ∧ Z.of_nat (length chunks) = (Z.of_nat (length lst) + n - 1) / n
    ∧ (lst = [] → chunks = [])
    ∧ ∀ i chunk, chunks !! i = Some chunk →
        chunk = take (Z.to_nat n) (drop (i * Z.to_nat n) lst)
        ∧ chunk ≠ []
        ∧ ((S i < length chunks)%nat → Z.of_nat (length chunk) = n).
Proof.
  intros Hn. eexists. split; [by apply divide_pos|].
  assert (0 ≤ (Z.of_nat (length lst) + n - 1) / n) as Hcnt by (apply Z.div_pos; lia).
  rewrite length_map, length_seq. split_and!.
  - unfold chunk_count. lia.
  - intros ->. unfold chunk_count. cbn [length].
    replace ((Z.of_nat 0 + n - 1) / n) with 0; [done|].
    symmetry. apply Z.div_small. lia.
  - intros i chunk Hi.
    change (map ?f ?l) with (f <$> l) in Hi.
    rewrite list_lookup_fmap in Hi.
    destruct (seq 0 (chunk_count lst n) !! i) as [k|] eqn:Hk; [|done].
    apply lookup_seq in Hk as [-> Hlt]. cbn in Hi. injection Hi as <-.
    pose proof (chunk_count_start lst n i Hn Hlt) as Hstart.
    unfold chunk_at. split_and!; [done | |].
    + intros Hnil. apply (f_equal length) in Hnil.
      rewrite length_take, length_drop in Hnil. cbn in Hnil. nia.
    + intros Hnext.
      pose proof (chunk_count_start lst n (S i) Hn Hnext) as Hstart'.
      rewrite length_take, length_drop. nia.
Qed.

(** ** [create_stocks] on any list of ids *)

Lemma py_remove_sublist x l l' :
  py_remove x l = Ok l' → l' `sublist_of` l ∧ length l = S (length l').
Proof.
  revert l'. induction l as [|a l IH]; intros l'; cbn [py_remove]; [done|].
  destruct (decide (x = a)) as [->|Hne].
  - intros [= <-]. split; [by apply sublist_cons | done].
  - destruct (py_remove x l) as [l1|e]; [|done]. cbn. intros [= <-].
    destruct (IH l1 eq_refl) as [Hs Hl]. split; [by apply sublist_skip | cbn; lia].
Qed.

Lemma matches_sublists wr : ∀ ids ps rest,
  matches wr ids = Ok (ps, rest) →
  rest `sublist_of` ids ∧ map fst ps `sublist_of` map code wr.
Proof.
  induction wr as [|w wr IH]; intros ids ps rest; cbn [matches].
  - by intros [= <- <-].
  - destruct (decide (code w ∈ ids)) as [Hin|Hnin].
    + destruct (Seller.stock_of_count (quantity w)) as [z|e]; [|done].
      cbn [mbind result_bind].
      destruct (py_remove (code w) ids) as [ids1|e] eqn:Hrm; [|done].
      cbn [mbind result_bind].
      destruct (matches wr ids1) as [[ps1 rest1]|e] eqn:Hm; [|done].
      cbn. intros [= <- <-].
      destruct (IH _ _ _ Hm) as [Hs1 Hs2].
      destruct (py_remove_sublist _ _ _ Hrm) as [Hs3 _].
      split; [by etrans | by apply sublist_skip].
    + intros Hm. destruct (IH _ _ _ Hm) as [Hs1 Hs2].
      split; [done | by apply sublist_cons].
Qed.

Lemma first_with_code_tail w0 w wr :
  first_with_code (w0 :: wr) w → w = w0 ∨ (code w0 ≠ code w ∧ first_with_code wr w).
Proof.
  intros ([|i] & Hi & Hfirst).
  - left. by injection Hi.
  - right. split.
    + apply (Hfirst 0%nat w0); [lia | done].
    + exists i. split; [done|]. intros j w' Hj Hw'.
      apply (Hfirst (S j) w'); [lia | done].
Qed.

Lemma matches_first wr : ∀ ids,
  (∀ ps rest, matches wr ids = Ok (ps, rest) →
     ∀ w, first_with_code wr w → code w ∈ ids →
       ∃ z, Seller.stock_of_count (quantity w) = Ok z ∧ (code w, z) ∈ ps)
  ∧ (∀ w e, first_with_code wr w → code w ∈ ids →
       Seller.stock_of_count (quantity w) = Raise e → ∃ e', matches wr ids = Raise e').
Proof.
  induction wr as [|w0 wr IH]; intros ids.
  { split; [intros ps rest _ w (i & Hi & _) | intros w e (i & Hi & _)]; done. }
  cbn [matches]. destruct (decide (code w0 ∈ ids)) as [Hin|Hnin].
  - destruct (py_remove_elem _ _ Hin) as (ids1 & Hrm & Hperm & _ & _).
    destruct (IH ids1) as [IHok IHraise].
    assert (∀ w, code w0 ≠ code w → code w ∈ ids → code w ∈ ids1) as Hkeep.
    { intros w Hne Hw. rewrite Hperm in Hw.
      apply elem_of_cons in Hw as [Heq|Hw]; [by symmetry in Heq | done]. }
    split.
    + intros ps rest Hm w Hfirst Hw.
      destruct (Seller.stock_of_count (quantity w0)) as [z0|e0] eqn:Hz0; [|done].
      cbn [mbind result_bind] in Hm. rewrite Hrm in Hm. cbn [mbind result_bind] in Hm.
      destruct (matches wr ids1) as [[ps1 rest1]|e1] eqn:Hm1; [|done].
      cbn in Hm. injection Hm as <- <-.
      apply first_with_code_tail in Hfirst as [->|[Hne Hfirst]].
      * exists z0. split; [done | by left].
      * destruct (IHok _ _ eq_refl w Hfirst (Hkeep w Hne Hw)) as (z & Hz & Hp).
        exists z. split; [done | by right].
    + intros w e Hfirst Hw Hraise.
      destruct (Seller.stock_of_count (quantity w0)) as [z0|e0] eqn:Hz0; [|by eexists].
      cbn [mbind result_bind]. rewrite Hrm. cbn [mbind result_bind].
      apply first_with_code_tail in Hfirst as [->|[Hne Hfirst]]; [congruence|].
      destruct (IHraise w e Hfirst (Hkeep w Hne Hw) Hraise) as [e' ->]. by eexists.
  - destruct (IH ids) as [IHok IHraise]. split.
    + intros ps rest Hm w Hfirst Hw.
      apply first_with_code_tail in Hfirst as [->|[Hne Hfirst]]; [done|].
      by apply (IHok _ _ Hm).
    + intros w e Hfirst Hw Hraise.
      apply first_with_code_tail in Hfirst as [->|[Hne Hfirst]]; [done|].
      by apply (IHraise w e).
Qed.

Section ReconcileAnyIds.
Context {R : Type} (mk : string → Z → R) (rid : R → string) (zero : string → R).
Hypothesis rid_mk : ∀ c z, rid (mk c z) = c.
Hypothesis zero_mk : ∀ id, zero id = mk id 0.
Implicit Types (wr : list (gmap string pyval)) (ids : list string).

Lemma reconcile_Ok wr ids stocks rest :
  reconcile mk zero wr ids = Ok (stocks, rest) →
  ∃ ps, matches wr ids = Ok (ps, rest)
        ∧ stocks = map (λ p, mk p.1 p.2) ps ++ map zero rest.
Proof.
  unfold reconcile. rewrite reconcile_loop_matches.
  destruct (matches wr ids) as [[ps rest0]|e]; [|done].
  cbn. intros [= <- <-]. by exists ps.
Qed.

Lemma reconcile_conserved wr ids :
  conserved rid zero wr ids (reconcile mk zero wr ids).
Proof.
  intros stocks rest Hrun.
  apply reconcile_Ok in Hrun as (ps & Hm & ->).
  destruct (matches_ok _ _ _ _ Hm) as (Hperm & _ & _).
  destruct (matches_sublists _ _ _ _ Hm) as [Hrest Hcodes].
  assert (map rid (map (λ p, mk p.1 p.2) ps ++ map zero rest) ≡ₚ ids) as Hp.
  { by rewrite map_app, (map_rid_records mk rid rid_mk),
       (map_rid_zero mk rid zero rid_mk zero_mk). }
  split_and!; [done | | done |].
  - rewrite <- (length_map rid). by rewrite Hp.
  - eexists. split; [done|]. rewrite (map_rid_records mk rid rid_mk). by split.
Qed.

Lemma reconcile_complete_or_raised wr ids :
  complete_or_raised mk wr ids (reconcile mk zero wr ids).
Proof.
  intros w Hfirst Hw. destruct (matches_first wr ids) as [Hok Hraise]. split.
  - intros stocks rest Hrun. apply reconcile_Ok in Hrun as (ps & Hm & ->).
    destruct (Hok _ _ Hm w Hfirst Hw) as (z & Hz & Hp).
    exists z. split; [done|]. apply elem_of_app. left.
    apply list_elem_of_In, in_map_iff. exists (code w, z).
    split; [done | by apply list_elem_of_In].
  - intros e He. destruct (Hraise w e Hfirst Hw He) as [e' Hm].
    exists e'. unfold reconcile. rewrite reconcile_loop_matches. by rewrite Hm.
Qed.

(** A record of the result is a zero record of an id left, or the record of
    a supplier's code that is one of the ids. *)
Lemma reconcile_record_origin wr ids stocks rest r :
  reconcile mk zero wr ids = Ok (stocks, rest) → r ∈ stocks →
  r ∈ map zero rest ∨ (rid r ∈ map code wr ∧ rid r ∈ ids).
Proof.
  intros Hrun Hr. apply reconcile_Ok in Hrun as (ps & Hm & ->).
  apply elem_of_app in Hr as [Hr|Hr]; [right | by left].
  destruct (matches_ok _ _ _ _ Hm) as (_ & _ & Hin).
  apply list_elem_of_In, in_map_iff in Hr as (p & <- & Hp).
  apply list_elem_of_In in Hp. rewrite rid_mk.
  rewrite Forall_forall in Hin. destruct (Hin p Hp). by split.
Qed.
End ReconcileAnyIds.

(** X3.  Whatever the ids given, repeated or not, when [create_stocks]
    returns, in both scripts, the ids of its records are the ids given, each
    as many times: there are as many records as ids.  The list left to the
    caller holds some of the ids given, in their order; the matched records
    come first, in the order of the supplier's rows. *)
Theorem create_stocks_conserves_ids (wr : list (gmap string pyval)) (ids : list string) :
  conserved Seller.stock_offer_id (λ id, Seller.mkStock id 0) wr ids
            (Seller.create_stocks wr ids)
  ∧ ∀ now wh,
      conserved Market.sku
                (λ id, Market.mkStock id wh [Market.mkItem 0 "FIT" (now +:+ "Z")])
                wr ids (Market.create_stocks now wr ids wh).
Proof.
  split; [|intros now wh].
  - rewrite seller_create_stocks. by apply reconcile_conserved.
  - rewrite market_create_stocks. by apply reconcile_conserved.
Qed.

(** X4.  [create_stocks] gives all or nothing, in both scripts: when it
    returns, every row that is the first with its code, the code being one
    of the ids, has its record in the result; when the quantity of such a row
    cannot be converted, [create_stocks] raises and no record at all is
    returned. *)
Theorem create_stocks_all_or_nothing (wr : list (gmap string pyval)) (ids : list string) :
  complete_or_raised Seller.mkStock wr ids (Seller.create_stocks wr ids)
  ∧ ∀ now wh,
      complete_or_raised (λ c z, Market.mkStock c wh [Market.mkItem z "FIT" (now +:+ "Z")])
                         wr ids (Market.create_stocks now wr ids wh).
Proof.
  split; [|intros now wh].
  - rewrite seller_create_stocks. by apply reconcile_complete_or_raised.
  - rewrite market_create_stocks. by apply reconcile_complete_or_raised.
Qed.

(** ** Prices *)

Lemma split_dot_before_dot s : ∃ pieces, split_dot s = before_dot s :: pieces.
Proof.
  induction s as [|c s [pieces IH]]; [by eexists|].
  cbn [split_dot before_dot]. destruct (Ascii.eqb c "."); [by eexists|].
  rewrite IH. by eexists.
Qed.

Lemma price_conversion_before_dot s :
  Seller.price_conversion (PyStr s) = Ok (digits_only (before_dot s)).
Proof.
  cbn [Seller.price_conversion]. destruct (split_dot_before_dot s) as [pieces ->].
  cbn. by rewrite re_sub_non_digits_digits_only.
Qed.

Lemma re_sub_non_digits_length s :
  (String.length (re_sub_non_digits s) ≤ String.length s)%nat.
Proof.
  induction s as [|c s IH]; [done|]. cbn [re_sub_non_digits].
  destruct (is_digit c); cbn [String.length]; lia.
Qed.

Lemma before_dot_length s : (String.length (before_dot s) ≤ String.length s)%nat.
Proof.
  induction s as [|c s IH]; [done|]. cbn [before_dot].
  destruct (Ascii.eqb c "."); cbn [String.length]; lia.
Qed.

Lemma digits_fixed d :
  Forall (λ c, is_digit c = true) (String.list_ascii_of_string d) →
  re_sub_non_digits (before_dot d) = d.
Proof.
  induction d as [|c d IH]; [done|]. cbn [String.list_ascii_of_string].
  intros H. apply Forall_cons in H as [Hc Hd]. cbn [before_dot].
  destruct (Ascii.eqb_spec c ".") as [->|_]; [done|].
  cbn [re_sub_non_digits]. rewrite Hc. by rewrite (IH Hd).
Qed.

(** X5.  [price_conversion] changes nothing in a string it has produced,
    and what it returns for a string is never longer than that string: the
    conversion only removes characters. *)
Theorem price_conversion_idempotent (s d : string) :
  Seller.price_conversion (PyStr s) = Ok d →
  Seller.price_conversion (PyStr d) = Ok d
  ∧ (String.length d ≤ String.length s)%nat.
Proof.
  rewrite price_conversion_before_dot. intros [= <-].
  rewrite price_conversion_before_dot, <- !re_sub_non_digits_digits_only. split.
  - f_equal. apply digits_fixed. rewrite re_sub_non_digits_digits_only.
    apply digits_only_digits.
  - etrans; [apply re_sub_non_digits_length | apply before_dot_length].
Qed.

Section MapResult.
Context {A B : Type} (f : A → result B).

Lemma map_result_Ok (l : list A) :
  (∀ x, x ∈ l → ∃ y, f x = Ok y) →
  ∃ ys, map_result f l = Ok ys ∧ Forall2 (λ x y, f x = Ok y) l ys.
Proof.
  induction l as [|x l IH]; intros Hl; [by exists []|].
  destruct (Hl x) as [y Hy]; [by left|].
  destruct IH as (ys & Hys & Hall); [intros x' Hx'; apply Hl; by right|].
  exists (y :: ys). cbn [map_result]. rewrite Hy. cbn [mbind result_bind].
  rewrite Hys. cbn. split; [done | by constructor].
Qed.

Lemma map_result_Raise (l : list A) x e :
  x ∈ l → f x = Raise e →
  ∃ e' x', map_result f l = Raise e' ∧ x' ∈ l ∧ f x' = Raise e'.
Proof.
  induction l as [|a l IH]; intros Hx He; [by apply elem_of_nil in Hx|].
  cbn [map_result]. destruct (f a) as [y|e0] eqn:Ha.
  - apply elem_of_cons in Hx as [->|Hx]; [congruence|].
    destruct (IH Hx He) as (e' & x' & Hr & Hx' & He').
    exists e', x'. cbn [mbind result_bind]. rewrite Hr. split_and!; [done | by right | done].
  - exists e0, a. split_and!; [done | by left | done].
Qed.
End MapResult.

Lemma seller_price_of_cases w :
  seller_price_of w
  = match price_cell w with
    | PyStr s => Ok (Seller.mkPrice "UNKNOWN" "RUB" (code w) "0" (digits_only (before_dot s)))
    | _ => Raise AttributeError
    end.
Proof.
  unfold seller_price_of, price_cell. destruct (dict_get w "Цена") as [| |s]; [done | done |].
  by rewrite price_conversion_before_dot.
Qed.

Lemma market_price_of_cases w :
  market_price_of w
  = match price_cell w with
    | PyStr s =>
        if decide (digits_only (before_dot s) = EmptyString) then Raise ValueError
        else Ok (Market.mkPrice (code w)
                   (Market.mkValue (decimal_value (digits_only (before_dot s))) "RUR"))
    | _ => Raise AttributeError
    end.
Proof.
  unfold market_price_of, price_cell. destruct (dict_get w "Цена") as [| |s]; [done | done |].
  rewrite price_conversion_before_dot. cbn [mbind result_bind].
  rewrite (py_int_digits _ (digits_only_digits _)).
  by destruct (decide (digits_only (before_dot s) = EmptyString)).
Qed.

Lemma seller_create_prices wr ids :
  Seller.create_prices wr ids = map_result seller_price_of (listed wr ids).
Proof.
  unfold Seller.create_prices. rewrite seller_create_prices_loop. apply map_result_id.
Qed.

Lemma market_create_prices wr ids :
  Market.create_prices wr ids = map_result market_price_of (listed wr ids).
Proof.
  unfold Market.create_prices. rewrite market_create_prices_loop. apply map_result_id.
Qed.

(** X6.  [create_prices] of seller.py returns exactly when the price of
    every row whose code is one of the ids is a string: it then gives one
    record per such row, in the order of the file, rows of the same code
    included, with the digits before the first dot as price (no digit gives
    the empty price).  A price that is no string (a missing cell, a number)
    on any such row makes the whole call raise [AttributeError]. *)
Theorem seller_create_prices_outcome (wr : list (gmap string pyval)) (ids : list string) :
  ((∀ w, w ∈ listed wr ids → ∃ s, price_cell w = PyStr s) →
     ∃ prices,
       Seller.create_prices wr ids = Ok prices
       ∧ Forall2 (λ w p, ∃ s, price_cell w = PyStr s
                         ∧ p = Seller.mkPrice "UNKNOWN" "RUB" (code w) "0"
                                 (digits_only (before_dot s)))
                 (listed wr ids) prices)
  ∧ (∀ w, w ∈ listed wr ids → (∀ s, price_cell w ≠ PyStr s) →
       Seller.create_prices wr ids = Raise AttributeError).
Proof.
  rewrite seller_create_prices. split.
  - intros Hall.
    destruct (map_result_Ok seller_price_of (listed wr ids)) as (prices & Hrun & Hrec).
    { intros w Hw. destruct (Hall w Hw) as [s Hs].
      rewrite seller_price_of_cases, Hs. by eexists. }
    exists prices. split; [done|].
    eapply Forall2_impl; [exact Hrec|]. cbn. intros w p Hp.
    rewrite seller_price_of_cases in Hp.
    destruct (price_cell w) as [| |s]; [done | done |].
    injection Hp as <-. by exists s.
  - intros w Hw Hnot.
    assert (seller_price_of w = Raise AttributeError) as Hraise.
    { rewrite seller_price_of_cases. destruct (price_cell w) as [| |s]; [done | done |].
      by destruct (Hnot s). }
    destruct (map_result_Raise seller_price_of _ _ _ Hw Hraise) as (e' & w' & -> & _ & He').
    rewrite seller_price_of_cases in He'.
    destruct (price_cell w') as [| |s]; [by injection He' as <- ..|done].
Qed.

(** X7.  [create_prices] of market.py returns exactly when the price of
    every row whose code is one of the ids is a string with a digit before
    its first dot: it then gives one record per such row, in the order of the
    file, with the number those digits write, in RUR.  Any other price on
    such a row makes the whole call raise, [AttributeError] or [ValueError],
    and nothing else. *)
Theorem market_create_prices_outcome (wr : list (gmap string pyval)) (ids : list string) :
  ((∀ w, w ∈ listed wr ids →
         ∃ s, price_cell w = PyStr s ∧ digits_only (before_dot s) ≠ EmptyString) →
     ∃ prices,
       Market.create_prices wr ids = Ok prices
       ∧ Forall2 (λ w p, ∃ s, price_cell w = PyStr s
                         ∧ p = Market.mkPrice (code w)
                                 (Market.mkValue (decimal_value (digits_only (before_dot s)))
                                                 "RUR"))
                 (listed wr ids) prices)
  ∧ (∀ w, w ∈ listed wr ids →
       (∀ s, price_cell w = PyStr s → digits_only (before_dot s) = EmptyString) →
       ∃ e, Market.create_prices wr ids = Raise e ∧ (e = AttributeError ∨ e = ValueError)).
Proof.
  rewrite market_create_prices. split.
  - intros Hall.
    destruct (map_result_Ok market_price_of (listed wr ids)) as (prices & Hrun & Hrec).
    { intros w Hw. destruct (Hall w Hw) as (s & Hs & Hd).
      rewrite market_price_of_cases, Hs, decide_False by done. by eexists. }
    exists prices. split; [done|].
    eapply Forall2_impl; [exact Hrec|]. cbn. intros w p Hp.
    rewrite market_price_of_cases in Hp.
    destruct (price_cell w) as [| |s]; [done | done |].
    destruct (decide _); [done|]. injection Hp as <-. by exists s.
  - intros w Hw Hnot.
    assert (∃ e, market_price_of w = Raise e) as [e Hraise].
    { rewrite market_price_of_cases.
      destruct (price_cell w) as [| |s]; [by eexists | by eexists |].
      rewrite decide_True by (by apply Hnot). by eexists. }
    destruct (map_result_Raise market_price_of _ _ _ Hw Hraise) as (e' & w' & -> & _ & He').
    exists e'. split; [done|]. rewrite market_price_of_cases in He'.
    destruct (price_cell w') as [| |s]; [injection He' as <-; by left ..|].
    destruct (decide _); [|done]. injection He' as <-. by right.
Qed.

(** ** Pagination that does not end well *)

Section OzonLoopFurther.
Context {St : Type} (srv : Seller.Server St) (cid tok : string).

Lemma ozon_loop_running ps : ∀ (w : World St Seller.request) last acc fuel,
  ozon_serves srv cid tok (remote w) last ps →
  ozon_first_signal (length acc) ps = None →
  (fuel ≤ length ps)%nat →
  Seller.get_offer_ids_loop srv fuel cid tok last acc w = None.
Proof.
  induction ps as [|p ps IH]; intros w last acc fuel Hserves Hsignal Hfuel.
  { cbn in Hfuel. by replace fuel with 0%nat by lia. }
  destruct fuel as [|fuel]; [done|].
  destruct Hserves as (s1 & Hreq & Hrest).
  cbn [Seller.get_offer_ids_loop]. unfold Seller.get_product_list, exchange.
  unfold mbind at 1, M_bind. rewrite Hreq.
  cbn [ozon_first_signal] in Hsignal. rewrite <- length_app in Hsignal.
  destruct (Seller.total p =? Z.of_nat (length (acc ++ Seller.items p))); [done|].
  destruct (ozon_first_signal _ ps) eqn:Hrec; [done|].
  apply IH; [done | done | cbn in Hfuel; lia].
Qed.

Lemma ozon_loop_raises ps : ∀ (w : World St Seller.request) last acc fuel s1 last1 e s2,
  ozon_serves_to srv cid tok (remote w) last ps s1 last1 →
  ozon_first_signal (length acc) ps = None →
  Seller.on_product_list srv (Seller.ProductList cid tok last1) s1 = (Raise e, s2) →
  (length ps < fuel)%nat →
  Seller.get_offer_ids_loop srv fuel cid tok last acc w
  = Some (Raise e,
          after_requests w (ozon_requests cid tok last ps
                            ++ [Seller.ProductList cid tok last1]) s2).
Proof.
  induction ps as [|p ps IH]; intros w last acc fuel s1 last1 e s2 Hserves Hsignal Hraise Hfuel;
    (destruct fuel as [|fuel]; [cbn in Hfuel; lia|]);
    cbn [Seller.get_offer_ids_loop]; unfold Seller.get_product_list, exchange;
    unfold mbind at 1, M_bind.
  - destruct Hserves as [-> ->]. by rewrite Hraise.
  - destruct Hserves as (s0 & Hreq & Hrest). rewrite Hreq.
    cbn [ozon_first_signal] in Hsignal. rewrite <- length_app in Hsignal.
    destruct (Seller.total p =? Z.of_nat (length (acc ++ Seller.items p))); [done|].
    destruct (ozon_first_signal _ ps) eqn:Hrec; [done|].
    set (w1 := mkWorld s0 _ _ _).
    rewrite (IH w1 (Seller.last_id p) (acc ++ Seller.items p) fuel s1 last1 e s2);
      [| done | done | done | cbn in Hfuel; lia].
    unfold after_requests, w1. cbn. by rewrite <- app_assoc.
Qed.
End OzonLoopFurther.

Section MarketLoopFurther.
Context {St : Type} (srv : Market.Server St) (cid tok : string).

Lemma market_loop_running ps : ∀ (w : World St Market.request) page acc fuel,
  market_serves srv cid tok (remote w) page ps →
  market_first_signal ps = None →
  (fuel ≤ length ps)%nat →
  Market.get_offer_ids_loop srv fuel cid tok page acc w = None.
Proof.
  induction ps as [|p ps IH]; intros w page acc fuel Hserves Hsignal Hfuel.
  { cbn in Hfuel. by replace fuel with 0%nat by lia. }
  destruct fuel as [|fuel]; [done|].
  destruct Hserves as (s1 & Hreq & Hrest).
  cbn [Market.get_offer_ids_loop]. unfold Market.get_product_list, exchange.
  unfold mbind at 1, M_bind. rewrite Hreq.
  cbn [market_first_signal] in Hsignal.
  destruct (negb (py_truthy (Market.nextPageToken (Market.paging p)))); [done|].
  destruct (market_first_signal ps) eqn:Hrec; [done|].
  apply IH; [done | done | cbn in Hfuel; lia].
Qed.

Lemma market_loop_raises ps : ∀ (w : World St Market.request) page acc fuel s1 page1 e s2,
  market_serves_to srv cid tok (remote w) page ps s1 page1 →
  market_first_signal ps = None →
  Market.on_product_list srv (Market.OfferMappingEntries cid tok page1) s1 = (Raise e, s2) →
  (length ps < fuel)%nat →
  Market.get_offer_ids_loop srv fuel cid tok page acc w
  = Some (Raise e,
          after_requests w (market_requests cid tok page ps
                            ++ [Market.OfferMappingEntries cid tok page1]) s2).
Proof.
  induction ps as [|p ps IH]; intros w page acc fuel s1 page1 e s2 Hserves Hsignal Hraise Hfuel;
    (destruct fuel as [|fuel]; [cbn in Hfuel; lia|]);
    cbn [Market.get_offer_ids_loop]; unfold Market.get_product_list, exchange;
    unfold mbind at 1, M_bind.
  - destruct Hserves as [-> ->]. by rewrite Hraise.
  - destruct Hserves as (s0 & Hreq & Hrest). rewrite Hreq.
    cbn [market_first_signal] in Hsignal.
    destruct (negb (py_truthy (Market.nextPageToken (Market.paging p)))); [done|].
    destruct (market_first_signal ps) eqn:Hrec; [done|].
    set (w1 := mkWorld s0 _ _ _).
    rewrite (IH w1 (Market.nextPageToken (Market.paging p))
                (acc ++ Market.offerMappingEntries p) fuel s1 page1 e s2);
      [| done | done | done | cbn in Hfuel; lia].
    unfold after_requests, w1. cbn. by rewrite <- app_assoc.
Qed.
End MarketLoopFurther.

(** X8.  The loop of [get_offer_ids] is never left early: as long as no
    page served has signalled the end (Ozon: the reported total is not the
    number of items accumulated; Yandex.Market: the [nextPageToken] is not
    empty) it asks for the next page.  After as many requests as pages
    served without a signal it has not returned. *)
Theorem get_offer_ids_no_early_exit :
  (∀ St (srv : Seller.Server St) cid tok (w : World St Seller.request) ps fuel,
      ozon_serves srv cid tok (remote w) EmptyString ps →
      ozon_first_signal 0 ps = None →
      (fuel ≤ length ps)%nat →
      Seller.get_offer_ids srv fuel cid tok w = None)
  ∧ (∀ St (srv : Market.Server St) cid tok (w : World St Market.request) ps fuel,
      market_serves srv cid tok (remote w) (PyStr EmptyString) ps →
      market_first_signal ps = None →
      (fuel ≤ length ps)%nat →
      Market.get_offer_ids srv fuel cid tok w = None).
Proof.
  split; intros St srv cid tok w ps fuel Hserves Hsignal Hfuel.
  - unfold Seller.get_offer_ids, mbind, M_bind.
    by rewrite (ozon_loop_running srv cid tok ps w _ [] fuel Hserves Hsignal Hfuel).
  - unfold Market.get_offer_ids, mbind, M_bind.
    by rewrite (market_loop_running srv cid tok ps w _ [] fuel Hserves Hsignal Hfuel).
Qed.

(** X9.  When a page request raises before any page has signalled the end,
    [get_offer_ids] raises the same exception: the pages fetched so far are
    dropped, and the requests sent are those of the pages served followed by
    the one that failed. *)
Theorem get_offer_ids_propagates_error :
  (∀ St (srv : Seller.Server St) cid tok (w : World St Seller.request)
       ps s1 last1 e s2 fuel,
      ozon_serves_to srv cid tok (remote w) EmptyString ps s1 last1 →
      ozon_first_signal 0 ps = None →
      Seller.on_product_list srv (Seller.ProductList cid tok last1) s1 = (Raise e, s2) →
      (length ps < fuel)%nat →
      Seller.get_offer_ids srv fuel cid tok w
      = Some (Raise e,
              after_requests w (ozon_requests cid tok EmptyString ps
                                ++ [Seller.ProductList cid tok last1]) s2))
  ∧ (∀ St (srv : Market.Server St) cid tok (w : World St Market.request)
       ps s1 page1 e s2 fuel,
      market_serves_to srv cid tok (remote w) (PyStr EmptyString) ps s1 page1 →
      market_first_signal ps = None →
      Market.on_product_list srv (Market.OfferMappingEntries cid tok page1) s1
      = (Raise e, s2) →
      (length ps < fuel)%nat →
      Market.get_offer_ids srv fuel cid tok w
      = Some (Raise e,
              after_requests w (market_requests cid tok (PyStr EmptyString) ps
                                ++ [Market.OfferMappingEntries cid tok page1]) s2)).
Proof.
  split.
  - intros St srv cid tok w ps s1 last1 e s2 fuel Hserves Hsignal Hraise Hfuel.
    unfold Seller.get_offer_ids, mbind, M_bind.
    by rewrite (ozon_loop_raises srv cid tok ps w _ [] fuel s1 last1 e s2).
  - intros St srv cid tok w ps s1 page1 e s2 fuel Hserves Hsignal Hraise Hfuel.
    unfold Market.get_offer_ids, mbind, M_bind.
    by rewrite (market_loop_raises srv cid tok ps w _ [] fuel s1 page1 e s2).
Qed.

(** ** What the routines leave alone *)

Section Quiet.
Context {St Req : Type}.
Implicit Types (w : World St Req).

Lemma quiet_ret {A} (a : A) : quiet (mret a : M (World St Req) A).
Proof. by intros w r w' [= <- <-]. Qed.

Lemma quiet_lift {A} (r : result A) : quiet (lift r : M (World St Req) A).
Proof. by intros w r' w' [= <- <-]. Qed.

Lemma quiet_exchange {A} req (reply : St → result A * St) :
  quiet (exchange req reply : M (World St Req) A).
Proof.
  intros w r w'. unfold exchange. destruct (reply (remote w)) as [r0 s].
  by intros [= <- <-].
Qed.

Lemma quiet_bind {A B} (m : M (World St Req) A) (f : A → M (World St Req) B) :
  quiet m → (∀ a, quiet (f a)) → quiet (m ≫= f).
Proof.
  intros Hm Hf w r w' Hrun.
  apply bind_Some in Hrun as [(a & w1 & H1 & H2) | (e & H1 & ->)].
  - destruct (Hm _ _ _ H1) as [Ho1 He1]. destruct (Hf a _ _ _ H2) as [Ho2 He2].
    split; congruence.
  - by apply (Hm _ _ _ H1).
Qed.

Lemma quiet_for_each {A} (l : list A) (body : A → M (World St Req) unit) :
  (∀ x, quiet (body x)) → quiet (for_each l body).
Proof.
  intros Hbody. induction l as [|x l IH]; cbn [for_each]; [apply quiet_ret|].
  apply quiet_bind; [apply Hbody | by intros _].
Qed.
End Quiet.

Lemma seller_quiet_get_offer_ids {St} (srv : Seller.Server St) fuel cid tok :
  quiet (Seller.get_offer_ids srv fuel cid tok).
Proof.
  unfold Seller.get_offer_ids. apply quiet_bind; [|intros; apply quiet_ret].
  generalize (@nil Seller.product) as acc. generalize EmptyString as last.
  induction fuel as [|fuel IH]; intros last acc; cbn [Seller.get_offer_ids_loop].
  - by intros w r w'.
  - apply quiet_bind; [apply quiet_exchange|]. intros p.
    destruct (_ =? _); [apply quiet_ret | apply IH].
Qed.

Lemma market_quiet_get_offer_ids {St} (srv : Market.Server St) fuel cid tok :
  quiet (Market.get_offer_ids srv fuel cid tok).
Proof.
  unfold Market.get_offer_ids. apply quiet_bind; [|intros; apply quiet_ret].
  generalize (@nil Market.mapping_entry) as acc. generalize (PyStr EmptyString) as page.
  induction fuel as [|fuel IH]; intros page acc; cbn [Market.get_offer_ids_loop].
  - by intros w r w'.
  - apply quiet_bind; [apply quiet_exchange|]. intros p.
    destruct (negb _); [apply quiet_ret | apply IH].
Qed.

(** X10.  Fetching the ids sends page requests only, and neither it nor the
    upload routines of the two scripts print anything or touch the
    environment, whatever happens: an error met there is left to the
    caller. *)
Theorem uploads_print_nothing :
  (∀ St (srv : Seller.Server St) fuel wr cid tok,
      only_sends seller_is_product_list (Seller.get_offer_ids srv fuel cid tok)
      ∧ quiet (Seller.get_offer_ids srv fuel cid tok)
      ∧ quiet (Seller.upload_stocks srv fuel wr cid tok)
      ∧ quiet (Seller.upload_prices srv fuel wr cid tok))
  ∧ (∀ St (srv : Market.Server St) fuel wr cid tok wh,
      only_sends market_is_product_list (Market.get_offer_ids srv fuel cid tok)
      ∧ quiet (Market.get_offer_ids srv fuel cid tok)
      ∧ quiet (Market.upload_stocks srv fuel wr cid tok wh)
      ∧ quiet (Market.upload_prices srv fuel wr cid tok)).
Proof.
  split.
  - intros St srv fuel wr cid tok. split_and!.
    + by apply seller_only_sends_get_offer_ids.
    + apply seller_quiet_get_offer_ids.
    + unfold Seller.upload_stocks.
      apply quiet_bind; [apply seller_quiet_get_offer_ids|]. intros ids.
      apply quiet_bind; [apply quiet_lift|]. intros [stocks rest].
      apply quiet_bind; [apply quiet_lift|]. intros chunks.
      apply quiet_bind; [|intros; apply quiet_ret].
      apply quiet_for_each. intros c. apply quiet_exchange.
    + unfold Seller.upload_prices.
      apply quiet_bind; [apply seller_quiet_get_offer_ids|]. intros ids.
      apply quiet_bind; [apply quiet_lift|]. intros prices.
      apply quiet_bind; [apply quiet_lift|]. intros chunks.
      apply quiet_bind; [|intros; apply quiet_ret].
      apply quiet_for_each. intros c. apply quiet_exchange.
  - intros St srv fuel wr cid tok wh. split_and!.
    + by apply market_only_sends_get_offer_ids.
    + apply market_quiet_get_offer_ids.
    + unfold Market.upload_stocks.
      apply quiet_bind; [apply market_quiet_get_offer_ids|]. intros ids.
      apply quiet_bind; [by intros w r w' [= <- <-]|]. intros now.
      apply quiet_bind; [apply quiet_lift|]. intros [stocks rest].
      apply quiet_bind; [apply quiet_lift|]. intros chunks.
      apply quiet_bind; [|intros; apply quiet_ret].
      apply quiet_for_each. intros c. apply quiet_exchange.
    + unfold Market.upload_prices.
      apply quiet_bind; [apply market_quiet_get_offer_ids|]. intros ids.
      apply quiet_bind; [apply quiet_lift|]. intros prices.
      apply quiet_bind; [apply quiet_lift|]. intros chunks.
      apply quiet_bind; [|intros; apply quiet_ret].
      apply quiet_for_each. intros c. apply quiet_exchange.
Qed.

(** X11.  [main] of market.py never sends a price update: it calls
    [upload_prices], a coroutine function, without awaiting it, so that for
    both campaigns only page requests and stock updates leave the script,
    whatever the marketplace answers. *)
Theorem market_main_sends_no_price {St} (srv : Market.Server St) (fuel : nat) :
  only_sends market_no_price_update (Market.main srv fuel).
Proof.
  unfold Market.main.
  do 5 (apply only_sends_bind; [apply only_sends_env_str|]; intros ? _).
  apply only_sends_bind; [apply only_sends_download|]. intros wr _.
  apply only_sends_try_except.
  - unfold Market.main_try.
    apply only_sends_bind; [by apply market_only_sends_get_offer_ids|]. intros ids _.
    apply only_sends_bind; [apply market_only_sends_read_clock|]. intros now _.
    apply only_sends_bind; [apply only_sends_lift|]. intros [stocks rest] _.
    apply only_sends_bind; [apply only_sends_lift|]. intros chunks _.
    apply only_sends_bind.
    { apply only_sends_for_each. intros c _. by apply only_sends_exchange. }
    intros _ _.
    apply only_sends_bind; [apply only_sends_call_without_await|]. intros _ _.
    apply only_sends_bind; [by apply market_only_sends_get_offer_ids|]. intros ids' _.
    apply only_sends_bind; [apply market_only_sends_read_clock|]. intros now' _.
    apply only_sends_bind; [apply only_sends_lift|]. intros [stocks' rest'] _.
    apply only_sends_bind; [apply only_sends_lift|]. intros chunks' _.
    apply only_sends_bind.
    { apply only_sends_for_each. intros c _. by apply only_sends_exchange. }
    intros _ _. apply only_sends_call_without_await.
  - intros e h. unfold Market.main_except.
    repeat (destruct (_ e)); intros [= <-]; apply only_sends_print.
Qed.

(** ** Errors before the [try] block *)

Lemma env_str_missing {St Req} (w : World St Req) name :
  environ w !! name = None → env_str name w = Some (Raise EnvError, w).
Proof. unfold env_str. by intros ->. Qed.

(** X12.  A missing environment variable is not caught: both [main] read
    their variables before the [try] block, and when one of them is not set
    [main] raises the error of [Env], having sent and printed nothing. *)
Theorem main_missing_variable :
  (∀ St (srv : Seller.Server St) fuel (w : World St Seller.request) name,
      name ∈ ["SELLER_TOKEN"; "CLIENT_ID"]%string →
      environ w !! name = None →
      Seller.main srv fuel w = Some (Raise EnvError, w))
  ∧ (∀ St (srv : Market.Server St) fuel (w : World St Market.request) name,
      name ∈ ["MARKET_TOKEN"; "FBS_ID"; "DBS_ID"; "WAREHOUSE_FBS_ID";
              "WAREHOUSE_DBS_ID"]%string →
      environ w !! name = None →
      Market.main srv fuel w = Some (Raise EnvError, w)).
Proof.
  split; intros St srv fuel w name Hname Hmissing.
  - unfold Seller.main, mbind, M_bind, env_str.
    destruct (environ w !! "SELLER_TOKEN"%string) eqn:H1; [|done].
    destruct (environ w !! "CLIENT_ID"%string) eqn:H2; [|done].
    repeat (apply elem_of_cons in Hname as [->|Hname]; [congruence|]).
    by apply elem_of_nil in Hname.
  - unfold Market.main, mbind, M_bind, env_str.
    destruct (environ w !! "MARKET_TOKEN"%string) eqn:H1; [|done].
    destruct (environ w !! "FBS_ID"%string) eqn:H2; [|done].
    destruct (environ w !! "DBS_ID"%string) eqn:H3; [|done].
    destruct (environ w !! "WAREHOUSE_FBS_ID"%string) eqn:H4; [|done].
    destruct (environ w !! "WAREHOUSE_DBS_ID"%string) eqn:H5; [|done].
    repeat (apply elem_of_cons in Hname as [->|Hname]; [congruence|]).
    by apply elem_of_nil in Hname.
Qed.

(** X13.  The two [main] differ on a failure of the supplier's site.  In
    seller.py the download stands inside the [try] block: an [Exception] it
    raises is printed and [main] returns.  In market.py it stands before the
    block: whatever the download raises leaves [main], nothing being sent to
    the marketplace or printed. *)
Theorem main_download_failure :
  (∀ St (srv : Seller.Server St) fuel (w : World St Seller.request) cid tok ids w1 e s',
      environ w !! "SELLER_TOKEN"%string = Some tok →
      environ w !! "CLIENT_ID"%string = Some cid →
      Seller.get_offer_ids srv fuel cid tok w = Some (Ok ids, w1) →
      Seller.on_download srv (remote w1) = (Raise e, s') →
      is_Exception e = true →
      Seller.main srv fuel w
      = Some (Ok tt, mkWorld s' (sent w1) (stdout w1 ++ [except_message e]) (environ w1)))
  ∧ (∀ St (srv : Market.Server St) fuel (w : World St Market.request)
       tok fbs dbs wh_fbs wh_dbs e s',
      environ w !! "MARKET_TOKEN"%string = Some tok →
      environ w !! "FBS_ID"%string = Some fbs →
      environ w !! "DBS_ID"%string = Some dbs →
      environ w !! "WAREHOUSE_FBS_ID"%string = Some wh_fbs →
      environ w !! "WAREHOUSE_DBS_ID"%string = Some wh_dbs →
      Market.on_download srv (remote w) = (Raise e, s') →
      Market.main srv fuel w = Some (Raise e, mkWorld s' (sent w) (stdout w) (environ w))).
Proof.
  split.
  - intros St srv fuel w cid tok ids w1 e s' Htok Hcid Hids Hdl Hexn.
    unfold Seller.main, mbind, M_bind.
    rewrite (env_str_found _ _ _ Htok), (env_str_found _ _ _ Hcid).
    unfold try_except, Seller.main_try.
    rewrite (bind_at _ _ _ _ _ Hids).
    unfold mbind, M_bind, Seller.download_stock. rewrite Hdl.
    unfold Seller.main_except, except_message, print. cbn.
    by destruct e.
  - intros St srv fuel w tok fbs dbs wh_fbs wh_dbs e s' Htok Hfbs Hdbs Hwf Hwd Hdl.
    unfold Market.main, mbind, M_bind.
    rewrite (env_str_found _ _ _ Htok), (env_str_found _ _ _ Hfbs),
      (env_str_found _ _ _ Hdbs), (env_str_found _ _ _ Hwf), (env_str_found _ _ _ Hwd).
    unfold Seller.download_stock. by rewrite Hdl.
Qed.

(** ** Whole runs *)

Lemma exchange_answer {St Req A} (req : Req) (reply : St → result A * St)
    (w : World St Req) r s :
  reply (remote w) = (r, s) →
  exchange req reply w = Some (r, mkWorld s (sent w ++ [req]) (stdout w) (environ w)).
Proof. unfold exchange. by intros ->. Qed.

Lemma bind_raise_at {W A B} (m : M W A) (f : A → M W B) w e w1 :
  m w = Some (Raise e, w1) → (m ≫= f) w = Some (Raise e, w1).
Proof. unfold mbind, M_bind. by intros ->. Qed.

Section SendingBatches.
Context {St Req A : Type} (mkreq : A → Req) (reply : Req → St → result unit * St).

Lemma for_each_accepted (l : list A) : ∀ (w : World St Req) s',
  accepted reply mkreq (remote w) l s' →
  for_each l (λ x, exchange (mkreq x) (reply (mkreq x))) w
  = Some (Ok tt, after_requests w (map mkreq l) s').
Proof.
  induction l as [|x l IH]; intros w s'; cbn [accepted for_each].
  - intros ->. unfold after_requests. cbn. rewrite app_nil_r. by destruct w.
  - intros (s1 & Hx & Hrest).
    rewrite (bind_at _ _ _ _ _ (exchange_answer (mkreq x) _ w _ _ Hx)).
    rewrite (IH (mkWorld s1 _ _ _) s' Hrest).
    unfold after_requests. cbn. by rewrite <- app_assoc.
Qed.

Lemma for_each_refused (before after : list A) c : ∀ (w : World St Req) sk e s',
  accepted reply mkreq (remote w) before sk →
  reply (mkreq c) sk = (Raise e, s') →
  for_each (before ++ c :: after) (λ x, exchange (mkreq x) (reply (mkreq x))) w
  = Some (Raise e, after_requests w (map mkreq (before ++ [c])) s').
Proof.
  induction before as [|x before IH]; intros w sk e s'; cbn [accepted app for_each].
  - intros -> Hc.
    by rewrite (bind_raise_at _ _ _ _ _ (exchange_answer (mkreq c) _ w _ _ Hc)).
  - intros (s1 & Hx & Hrest) Hc.
    rewrite (bind_at _ _ _ _ _ (exchange_answer (mkreq x) _ w _ _ Hx)).
    rewrite (IH (mkWorld s1 _ _ _) sk e s' Hrest Hc).
    unfold after_requests. cbn. by rewrite <- app_assoc.
Qed.
End SendingBatches.

Lemma ozon_loop_served_to {St} (srv : Seller.Server St) cid tok ps :
  ∀ (w : World St Seller.request) last acc k fuel s1 last1,
  ozon_serves_to srv cid tok (remote w) last ps s1 last1 →
  ozon_first_signal (length acc) ps = Some k →
  S k = length ps →
  (k < fuel)%nat →
  Seller.get_offer_ids_loop srv fuel cid tok last acc w
  = Some (Ok (acc ++ concat (map Seller.items ps)),
          after_requests w (ozon_requests cid tok last ps) s1).
Proof.
  induction ps as [|p ps IH]; intros w last acc k fuel s1 last1 Hserves Hsignal Hk Hfuel;
    [done|].
  destruct fuel as [|fuel]; [lia|].
  destruct Hserves as (s0 & Hreq & Hrest).
  cbn [Seller.get_offer_ids_loop]. unfold Seller.get_product_list, exchange.
  unfold mbind at 1, M_bind. rewrite Hreq.
  cbn [ozon_first_signal] in Hsignal. rewrite <- length_app in Hsignal.
  destruct (Seller.total p =? Z.of_nat (length (acc ++ Seller.items p))) eqn:Htotal.
  - injection Hsignal as <-. destruct ps; [|done]. destruct Hrest as [-> _].
    cbn. by rewrite !app_nil_r.
  - destruct (ozon_first_signal _ ps) as [k'|] eqn:Hk'; [|done].
    injection Hsignal as <-. set (w1 := mkWorld s0 _ _ _).
    rewrite (IH w1 (Seller.last_id p) (acc ++ Seller.items p) k' fuel s1 last1);
      [| done | done | cbn in Hk; lia | lia].
    unfold after_requests, w1. cbn. by rewrite <- !app_assoc.
Qed.

(** X14.  A run of [main] of seller.py in which nothing fails: the catalog
    is served to its end, its ids are all different, the supplier's file
    comes, the quantities convert and every update is accepted.  Then [main]
    returns having printed nothing, and what it has sent is the page
    requests followed by the stock records in batches of at most 100, in
    order; no price update is sent. *)
Theorem seller_main_good_run {St} (srv : Seller.Server St) (fuel : nat)
    (w : World St Seller.request) (cid tok : string) (ps : list Seller.page)
    (s1 : St) (last1 : string) (wr : list (gmap string pyval)) (s2 : St)
    (stocks : list Seller.stock_record) (rest : list string)
    (chunks : list (list Seller.stock_record)) (s3 : St) :
  environ w !! "SELLER_TOKEN"%string = Some tok →
  environ w !! "CLIENT_ID"%string = Some cid →
  ozon_serves_to srv cid tok (remote w) EmptyString ps s1 last1 →
  ozon_first_signal 0 ps = Some (pred (length ps)) →
  (length ps ≤ fuel)%nat →
  Seller.on_download srv s1 = (Ok wr, s2) →
  NoDup (ozon_offer_ids ps) →
  Seller.create_stocks wr (ozon_offer_ids ps) = Ok (stocks, rest) →
  Seller.divide stocks 100 = Ok chunks →
  accepted (Seller.on_update srv) (Seller.ImportStocks cid tok) s2 chunks s3 →
  Seller.main srv fuel w
  = Some (Ok tt,
          mkWorld s3
            (sent w ++ ozon_requests cid tok EmptyString ps
                    ++ map (Seller.ImportStocks cid tok) chunks)
            (stdout w) (environ w))
  ∧ concat chunks = stocks
  ∧ Forall (λ c, (length c ≤ 100)%nat) chunks.
Proof.
  intros Htok Hcid Hserves Hsignal Hfuel Hdl Hnd Hstocks Hdiv Hacc.
  pose proof (ozon_first_signal_lt _ _ _ Hsignal) as Hlt.
  assert (Seller.get_offer_ids srv fuel cid tok w
          = Some (Ok (ozon_offer_ids ps),
                  after_requests w (ozon_requests cid tok EmptyString ps) s1)) as Hids.
  { unfold Seller.get_offer_ids, mbind, M_bind.
    by rewrite (ozon_loop_served_to srv cid tok ps w _ [] _ fuel s1 last1 Hserves Hsignal
                  ltac:(lia) ltac:(lia)). }
  destruct (seller_create_stocks_leaves _ _ _ _ Hnd Hstocks) as (_ & _ & Hprices).
  split_and!.
  - unfold Seller.main, mbind, M_bind.
    rewrite (env_str_found _ _ _ Htok), (env_str_found _ _ _ Hcid).
    unfold try_except, Seller.main_try.
    rewrite (bind_at _ _ _ _ _ Hids).
    unfold mbind at 1, M_bind, Seller.download_stock. cbn [remote after_requests].
    rewrite Hdl. unfold mbind at 1, M_bind, lift. rewrite Hstocks.
    unfold mbind at 1, M_bind. rewrite Hdiv.
    unfold mbind at 1, M_bind, Seller.update_stocks.
    set (w2 := mkWorld s2 _ _ _).
    rewrite (for_each_accepted (Seller.ImportStocks cid tok) (Seller.on_update srv)
               chunks w2 s3 Hacc).
    unfold mbind at 1, M_bind. rewrite Hprices.
    unfold after_requests, w2. cbn. by rewrite <- app_assoc.
  - destruct (divide_chunks_concat stocks 100 ltac:(lia)) as (chunks' & Hd & Hcat).
    rewrite Hd in Hdiv. by injection Hdiv as <-.
  - destruct (divide_chunks_bound stocks 100 ltac:(lia)) as (chunks' & Hd & Hbound).
    rewrite Hd in Hdiv. injection Hdiv as <-.
    eapply Forall_impl; [exact Hbound|]. cbn. intros c Hc. lia.
Qed.

Lemma stock_of_count_raises q e :
  Seller.stock_of_count q = Raise e → e = ValueError ∨ e = TypeError.
Proof.
  unfold Seller.stock_of_count.
  destruct (String.eqb _ ">10"); [done|]. destruct (String.eqb _ "1"); [done|].
  destruct q as [|z|s]; cbn [py_int]; [intros [= <-]; by right | done |].
  unfold py_int_str.
  match goal with |- context [match ?p with Some _ => _ | None => _ end] =>
    destruct p end; [done | intros [= <-]; by left].
Qed.

Lemma seller_create_stocks_raises wr ids e :
  Seller.create_stocks wr ids = Raise e → e = ValueError ∨ e = TypeError.
Proof.
  rewrite seller_create_stocks. unfold reconcile. rewrite reconcile_loop_matches.
  destruct (matches wr ids) as [[ps rest]|e'] eqn:Hm; [done|].
  cbn. intros [= ->]. destruct (matches_raise _ _ _ Hm) as (w & _ & _ & Hraise).
  by apply stock_of_count_raises in Hraise.
Qed.

Lemma market_create_stocks_raises now wh wr ids e :
  Market.create_stocks now wr ids wh = Raise e → e = ValueError ∨ e = TypeError.
Proof.
  rewrite market_create_stocks. unfold reconcile. rewrite reconcile_loop_matches.
  destruct (matches wr ids) as [[ps rest]|e'] eqn:Hm; [done|].
  cbn. intros [= ->]. destruct (matches_raise _ _ _ Hm) as (w & _ & _ & Hraise).
  by apply stock_of_count_raises in Hraise.
Qed.

(** X15.  A stock other than zero is only reported for a product of the
    supplier: in a result of [create_stocks] a record whose stock is not 0
    carries an id that is the code of a supplier row and one of the ids
    given.  The first list [upload_stocks] returns holds exactly the records
    built whose stock is not 0, so each of them is a product of the
    supplier. *)
Theorem nonzero_stock_comes_from_supplier :
  (∀ wr ids stocks rest r,
      Seller.create_stocks wr ids = Ok (stocks, rest) →
      r ∈ stocks → Seller.stock r ≠ 0 →
      Seller.stock_offer_id r ∈ map code wr ∧ Seller.stock_offer_id r ∈ ids)
  ∧ (∀ now wh wr ids stocks rest r,
      Market.create_stocks now wr ids wh = Ok (stocks, rest) →
      r ∈ stocks → market_count r ≠ Some 0 →
      Market.sku r ∈ map code wr ∧ Market.sku r ∈ ids)
  ∧ (∀ St (srv : Seller.Server St) fuel wr cid tok w not_empty stocks w',
      Seller.upload_stocks srv fuel wr cid tok w = Some (Ok (not_empty, stocks), w') →
      not_empty = filter (λ r, Seller.stock r ≠ 0) stocks
      ∧ ∀ r, r ∈ not_empty → Seller.stock_offer_id r ∈ map code wr)
  ∧ (∀ St (srv : Market.Server St) fuel wr cid tok wh w not_empty stocks w',
      Market.upload_stocks srv fuel wr cid tok wh w = Some (Ok (not_empty, stocks), w') →
      not_empty = filter (λ r, market_count r ≠ Some 0) stocks
      ∧ ∀ r, r ∈ not_empty → Market.sku r ∈ map code wr).
Proof.
  assert (∀ wr ids stocks rest r,
      Seller.create_stocks wr ids = Ok (stocks, rest) →
      r ∈ stocks → Seller.stock r ≠ 0 →
      Seller.stock_offer_id r ∈ map code wr ∧ Seller.stock_offer_id r ∈ ids) as Hseller.
  { intros wr ids stocks rest r Hrun Hr Hnz. rewrite seller_create_stocks in Hrun.
    destruct (reconcile_record_origin Seller.mkStock Seller.stock_offer_id _
                ltac:(done) _ _ _ _ _ Hrun Hr) as [Hzero|Horigin]; [|done].
    apply list_elem_of_In, in_map_iff in Hzero as (id & <- & _). done. }
  assert (∀ now wh wr ids stocks rest r,
      Market.create_stocks now wr ids wh = Ok (stocks, rest) →
      r ∈ stocks → market_count r ≠ Some 0 →
      Market.sku r ∈ map code wr ∧ Market.sku r ∈ ids) as Hmarket.
  { intros now wh wr ids stocks rest r Hrun Hr Hnz. rewrite market_create_stocks in Hrun.
    destruct (reconcile_record_origin
                (λ c z, Market.mkStock c wh [Market.mkItem z "FIT" (now +:+ "Z")])
                Market.sku _ ltac:(done) _ _ _ _ _ Hrun Hr) as [Hzero|Horigin]; [|done].
    apply list_elem_of_In, in_map_iff in Hzero as (id & <- & _). done. }
  split_and!; [exact Hseller | exact Hmarket | |].
  - intros St srv fuel wr cid tok w ne stocks w' H. unfold Seller.upload_stocks in H.
    apply bind_Some in H as [(ids & w1 & Hids & H) | (e & _ & [=])].
    apply bind_Some in H as [([stocks0 rest] & w2 & Hbuild & H) | (e & _ & [=])].
    apply lift_Some in Hbuild as [Hbuild ->].
    apply bind_Some in H as [(chunks & w3 & Hdiv & H) | (e & _ & [=])].
    apply bind_Some in H as [([] & w4 & Hsend & H) | (e & _ & [=])].
    injection H as <- <- <-. split; [done|].
    intros r Hr. apply list_elem_of_filter in Hr as [Hnz Hr].
    by apply (Hseller _ _ _ _ _ Hbuild Hr Hnz).
  - intros St srv fuel wr cid tok wh w ne stocks w' H. unfold Market.upload_stocks in H.
    apply bind_Some in H as [(ids & w1 & Hids & H) | (e & _ & [=])].
    apply bind_Some in H as [(now & w1' & Hnow & H) | (e & _ & [=])].
    apply bind_Some in H as [([stocks0 rest] & w2 & Hbuild & H) | (e & _ & [=])].
    apply lift_Some in Hbuild as [Hbuild ->].
    apply bind_Some in H as [(chunks & w3 & Hdiv & H) | (e & _ & [=])].
    apply bind_Some in H as [([] & w4 & Hsend & H) | (e & _ & [=])].
    injection H as <- <- <-. split; [done|].
    intros r Hr. apply list_elem_of_filter in Hr as [Hnz Hr].
    by apply (Hmarket _ _ _ _ _ _ _ Hbuild Hr Hnz).
Qed.

(** X16.  A quantity that cannot be converted stops the whole update, in
    both [main]: when [create_stocks] raises ([ValueError] or [TypeError],
    nothing else) no update request is sent, the error is printed with
    "ERROR_2" and [main] returns; in market.py the second campaign is not
    even fetched. *)
Theorem main_bad_quantity :
  (∀ St (srv : Seller.Server St) fuel (w : World St Seller.request) cid tok ids w1 wr s2 e,
      environ w !! "SELLER_TOKEN"%string = Some tok →
      environ w !! "CLIENT_ID"%string = Some cid →
      Seller.get_offer_ids srv fuel cid tok w = Some (Ok ids, w1) →
      Seller.on_download srv (remote w1) = (Ok wr, s2) →
      Seller.create_stocks wr ids = Raise e →
      Seller.main srv fuel w
      = Some (Ok tt, mkWorld s2 (sent w1) (stdout w1 ++ [Print (Some e) "ERROR_2"])
                             (environ w1))
      ∧ ∃ new, sent w1 = sent w ++ new ∧ Forall seller_is_product_list new)
  ∧ (∀ St (srv : Market.Server St) fuel (w : World St Market.request)
       tok fbs dbs wh_fbs wh_dbs wr s0 ids w1 e,
      environ w !! "MARKET_TOKEN"%string = Some tok →
      environ w !! "FBS_ID"%string = Some fbs →
      environ w !! "DBS_ID"%string = Some dbs →
      environ w !! "WAREHOUSE_FBS_ID"%string = Some wh_fbs →
      environ w !! "WAREHOUSE_DBS_ID"%string = Some wh_dbs →
      Market.on_download srv (remote w) = (Ok wr, s0) →
      Market.get_offer_ids srv fuel fbs tok (mkWorld s0 (sent w) (stdout w) (environ w))
      = Some (Ok ids, w1) →
      Market.create_stocks (Market.utcnow srv (remote w1)) wr ids wh_fbs = Raise e →
      Market.main srv fuel w
      = Some (Ok tt, mkWorld (remote w1) (sent w1) (stdout w1 ++ [Print (Some e) "ERROR_2"])
                             (environ w1))
      ∧ ∃ new, sent w1 = sent w ++ new ∧ Forall market_is_product_list new).
Proof.
  split.
  - intros St srv fuel w cid tok ids w1 wr s2 e Htok Hcid Hids Hdl Hraise. split.
    + unfold Seller.main, mbind, M_bind.
      rewrite (env_str_found _ _ _ Htok), (env_str_found _ _ _ Hcid).
      unfold try_except, Seller.main_try. rewrite (bind_at _ _ _ _ _ Hids).
      unfold mbind at 1, M_bind, Seller.download_stock. rewrite Hdl.
      unfold mbind at 1, M_bind, lift. rewrite Hraise.
      by destruct (seller_create_stocks_raises _ _ _ Hraise) as [-> | ->].
    + by apply (seller_only_sends_get_offer_ids srv seller_is_product_list fuel cid tok
                  ltac:(done) _ _ _ Hids).
  - intros St srv fuel w tok fbs dbs wh_fbs wh_dbs wr s0 ids w1 e
           Htok Hfbs Hdbs Hwf Hwd Hdl Hids Hraise. split.
    + unfold Market.main, mbind, M_bind.
      rewrite (env_str_found _ _ _ Htok), (env_str_found _ _ _ Hfbs),
        (env_str_found _ _ _ Hdbs), (env_str_found _ _ _ Hwf), (env_str_found _ _ _ Hwd).
      unfold Seller.download_stock. rewrite Hdl.
      unfold try_except, Market.main_try. rewrite (bind_at _ _ _ _ _ Hids).
      unfold mbind at 1, M_bind, Market.read_clock.
      unfold mbind at 1, M_bind, lift. rewrite Hraise.
      by destruct (market_create_stocks_raises _ _ _ _ _ Hraise) as [-> | ->].
    + by apply (market_only_sends_get_offer_ids srv market_is_product_list fuel fbs tok
                  ltac:(done) _ _ _ Hids).
Qed.

(** X17.  A refused batch ends [upload_stocks] of seller.py: when the update
    of a batch raises, the batches before it have been sent and accepted, the
    refused one has been sent once, the batches after it are never sent, and
    the exception is left to the caller. *)
Theorem seller_refused_batch_stops_upload {St} (srv : Seller.Server St) (fuel : nat)
    (w : World St Seller.request) (cid tok : string) (wr : list (gmap string pyval))
    (ids : list string) (w1 : World St Seller.request)
    (stocks : list Seller.stock_record) (rest : list string)
    (before after : list (list Seller.stock_record)) (c : list Seller.stock_record)
    (sk : St) (e : exn) (s' : St) :
  Seller.get_offer_ids srv fuel cid tok w = Some (Ok ids, w1) →
  Seller.create_stocks wr ids = Ok (stocks, rest) →
  Seller.divide stocks 100 = Ok (before ++ c :: after) →
  accepted (Seller.on_update srv) (Seller.ImportStocks cid tok) (remote w1) before sk →
  Seller.on_update srv (Seller.ImportStocks cid tok c) sk = (Raise e, s') →
  Seller.upload_stocks srv fuel wr cid tok w
  = Some (Raise e,
          after_requests w1 (map (Seller.ImportStocks cid tok) (before ++ [c])) s').
Proof.
  intros Hids Hstocks Hdiv Hacc Hrefused.
  unfold Seller.upload_stocks. rewrite (bind_at _ _ _ _ _ Hids).
  unfold mbind at 1, M_bind, lift. rewrite Hstocks.
  unfold mbind at 1, M_bind. rewrite Hdiv.
  apply bind_raise_at. unfold Seller.update_stocks.
  by apply (for_each_refused (Seller.ImportStocks cid tok) (Seller.on_update srv)
              before after c w1 sk e s').
Qed.

Lemma download_answer {St Req} (reply : St → result (list (gmap string pyval)) * St)
    (w : World St Req) r s :
  reply (remote w) = (r, s) →
  Seller.download_stock reply w = Some (r, mkWorld s (sent w) (stdout w) (environ w)).
Proof. unfold Seller.download_stock. by intros ->. Qed.

Lemma read_clock_at {St} (srv : Market.Server St) (w : World St Market.request) :
  Market.read_clock srv w = Some (Ok (Market.utcnow srv (remote w)), w).
Proof. done. Qed.

Lemma lift_at {W A} (r : result A) (a : A) (w : W) :
  r = Ok a → lift r w = Some (Ok a, w).
Proof. by intros ->. Qed.

Lemma market_loop_served_to {St} (srv : Market.Server St) cid tok ps :
  ∀ (w : World St Market.request) page acc k fuel s1 page1,
  market_serves_to srv cid tok (remote w) page ps s1 page1 →
  market_first_signal ps = Some k →
  S k = length ps →
  (k < fuel)%nat →
  Market.get_offer_ids_loop srv fuel cid tok page acc w
  = Some (Ok (acc ++ concat (map Market.offerMappingEntries ps)),
          after_requests w (market_requests cid tok page ps) s1).
Proof.
  induction ps as [|p ps IH]; intros w page acc k fuel s1 page1 Hserves Hsignal Hk Hfuel;
    [done|].
  destruct fuel as [|fuel]; [lia|].
  destruct Hserves as (s0 & Hreq & Hrest).
  cbn [Market.get_offer_ids_loop]. unfold Market.get_product_list, exchange.
  unfold mbind at 1, M_bind. rewrite Hreq.
  cbn [market_first_signal] in Hsignal.
  destruct (negb (py_truthy (Market.nextPageToken (Market.paging p)))) eqn:Htoken.
  - injection Hsignal as <-. destruct ps; [|done]. destruct Hrest as [-> _].
    cbn. by rewrite !app_nil_r.
  - destruct (market_first_signal ps) as [k'|] eqn:Hk'; [|done].
    injection Hsignal as <-. set (w1 := mkWorld s0 _ _ _).
    rewrite (IH w1 (Market.nextPageToken (Market.paging p))
                (acc ++ Market.offerMappingEntries p) k' fuel s1 page1);
      [| done | done | cbn in Hk; lia | lia].
    unfold after_requests, w1. cbn. by rewrite <- !app_assoc.
Qed.

Lemma market_get_offer_ids_served {St} (srv : Market.Server St) cid tok ps
    (w : World St Market.request) fuel s1 page1 :
  market_serves_to srv cid tok (remote w) (PyStr EmptyString) ps s1 page1 →
  market_first_signal ps = Some (pred (length ps)) →
  (length ps ≤ fuel)%nat →
  Market.get_offer_ids srv fuel cid tok w
  = Some (Ok (market_offer_ids ps),
          after_requests w (market_requests cid tok (PyStr EmptyString) ps) s1).
Proof.
  intros Hserves Hsignal Hfuel.
  pose proof (market_first_signal_lt _ _ Hsignal) as Hlt.
  unfold Market.get_offer_ids, mbind, M_bind.
  by rewrite (market_loop_served_to srv cid tok ps w _ [] _ fuel s1 page1 Hserves Hsignal
                ltac:(lia) ltac:(lia)).
Qed.

(** X18.  A run of [main] of market.py in which nothing fails.  The
    supplier's file is read once, before anything is asked of the
    marketplace; then, for the FBS campaign and after it for the DBS
    campaign, the catalog is fetched, the stocks are built for the warehouse
    of the campaign with the time read at that moment, and sent in batches
    of at most 2000.  [main] returns having printed nothing and sent nothing
    else. *)
Theorem market_main_good_run {St} (srv : Market.Server St) (fuel : nat)
    (w : World St Market.request) (tok fbs dbs wh_fbs wh_dbs : string)
    (wr : list (gmap string pyval)) (s0 : St)
    (ps1 : list Market.page) (s1 : St) (page1 : pyval)
    (stocks1 : list Market.stock_record) (rest1 : list string)
    (chunks1 : list (list Market.stock_record)) (s2 : St)
    (ps2 : list Market.page) (s3 : St) (page2 : pyval)
    (stocks2 : list Market.stock_record) (rest2 : list string)
    (chunks2 : list (list Market.stock_record)) (s4 : St) :
  environ w !! "MARKET_TOKEN"%string = Some tok →
  environ w !! "FBS_ID"%string = Some fbs →
  environ w !! "DBS_ID"%string = Some dbs →
  environ w !! "WAREHOUSE_FBS_ID"%string = Some wh_fbs →
  environ w !! "WAREHOUSE_DBS_ID"%string = Some wh_dbs →
  Market.on_download srv (remote w) = (Ok wr, s0) →
  market_serves_to srv fbs tok s0 (PyStr EmptyString) ps1 s1 page1 →
  market_first_signal ps1 = Some (pred (length ps1)) →
  (length ps1 ≤ fuel)%nat →
  Market.create_stocks (Market.utcnow srv s1) wr (market_offer_ids ps1) wh_fbs
  = Ok (stocks1, rest1) →
  Seller.divide stocks1 2000 = Ok chunks1 →
  accepted (Market.on_update srv) (Market.PutStocks fbs tok) s1 chunks1 s2 →
  market_serves_to srv dbs tok s2 (PyStr EmptyString) ps2 s3 page2 →
  market_first_signal ps2 = Some (pred (length ps2)) →
  (length ps2 ≤ fuel)%nat →
  Market.create_stocks (Market.utcnow srv s3) wr (market_offer_ids ps2) wh_dbs
  = Ok (stocks2, rest2) →
  Seller.divide stocks2 2000 = Ok chunks2 →
  accepted (Market.on_update srv) (Market.PutStocks dbs tok) s3 chunks2 s4 →
  Market.main srv fuel w
  = Some (Ok tt,
          mkWorld s4
            (sent w ++ market_requests fbs tok (PyStr EmptyString) ps1
                    ++ map (Market.PutStocks fbs tok) chunks1
                    ++ market_requests dbs tok (PyStr EmptyString) ps2
                    ++ map (Market.PutStocks dbs tok) chunks2)
            (stdout w) (environ w)).
Proof.
  intros Htok Hfbs Hdbs Hwf Hwd Hdl Hserves1 Hsignal1 Hfuel1 Hstocks1 Hdiv1 Hacc1
         Hserves2 Hsignal2 Hfuel2 Hstocks2 Hdiv2 Hacc2.
  unfold Market.main.
  rewrite (bind_at _ _ _ _ _ (env_str_found _ _ _ Htok)).
  rewrite (bind_at _ _ _ _ _ (env_str_found _ _ _ Hfbs)).
  rewrite (bind_at _ _ _ _ _ (env_str_found _ _ _ Hdbs)).
  rewrite (bind_at _ _ _ _ _ (env_str_found _ _ _ Hwf)).
  rewrite (bind_at _ _ _ _ _ (env_str_found _ _ _ Hwd)).
  rewrite (bind_at _ _ _ _ _ (download_answer _ w _ _ Hdl)).
  unfold try_except, Market.main_try.
  rewrite (bind_at _ _ _ _ _
             (market_get_offer_ids_served srv fbs tok ps1 (mkWorld s0 _ _ _) fuel s1 page1
                Hserves1 Hsignal1 Hfuel1)).
  rewrite (bind_at _ _ _ _ _ (read_clock_at srv _)).
  cbn [remote after_requests] in *.
  rewrite (bind_at _ _ _ _ _ (lift_at _ _ _ Hstocks1)). cbv beta iota.
  rewrite (bind_at _ _ _ _ _ (lift_at _ _ _ Hdiv1)).
  unfold Market.update_stocks.
  rewrite (bind_at _ _ _ _ _
             (for_each_accepted (Market.PutStocks fbs tok) (Market.on_update srv)
                chunks1 (after_requests _ _ s1) s2 Hacc1)).
  rewrite (bind_at _ _ _ tt _ eq_refl).
  rewrite (bind_at _ _ _ _ _
             (market_get_offer_ids_served srv dbs tok ps2 (after_requests _ _ s2) fuel s3 page2
                Hserves2 Hsignal2 Hfuel2)).
  rewrite (bind_at _ _ _ _ _ (read_clock_at srv _)).
  cbn [remote after_requests] in *.
  rewrite (bind_at _ _ _ _ _ (lift_at _ _ _ Hstocks2)). cbv beta iota.
  rewrite (bind_at _ _ _ _ _ (lift_at _ _ _ Hdiv2)).
  rewrite (bind_at _ _ _ _ _
             (for_each_accepted (Market.PutStocks dbs tok) (Market.on_update srv)
                chunks2 (after_requests _ _ s3) s4 Hacc2)).
  unfold call_without_await, after_requests. cbn.
  by rewrite <- !app_assoc.
Qed.

(** ** The statements run on the sample data *)

Example sample_create_stocks :
  Seller.create_stocks sample_rows sample_ids
  = Ok ([Seller.mkStock "111" 5; Seller.mkStock "222" 0; Seller.mkStock "333" 0],
        ["222"; "333"]%string)
  ∧ Market.create_stocks "2024-01-01T00:00:00" sample_rows sample_ids "wh"
    = Ok ([Market.mkStock "111" "wh" [Market.mkItem 5 "FIT" "2024-01-01T00:00:00Z"];
           Market.mkStock "222" "wh" [Market.mkItem 0 "FIT" "2024-01-01T00:00:00Z"];
           Market.mkStock "333" "wh" [Market.mkItem 0 "FIT" "2024-01-01T00:00:00Z"]],
          ["222"; "333"]%string).
Proof. split; vm_compute; reflexivity. Qed.

Example sample_create_prices :
  Seller.create_prices sample_rows ["111"; "444"]%string
  = Ok [Seller.mkPrice "UNKNOWN" "RUB" "111" "0" "5990";
        Seller.mkPrice "UNKNOWN" "RUB" "444" "0" "12345"]
  ∧ Market.create_prices sample_rows ["111"; "444"]%string
    = Ok [Market.mkPrice "111" (Market.mkValue 5990 "RUR");
          Market.mkPrice "444" (Market.mkValue 12345 "RUR")].
Proof. split; vm_compute; reflexivity. Qed.

Example sample_divide :
  Seller.divide [1; 2; 3; 4; 5] 2 = Ok [[1; 2]; [3; 4]; [5]]
  ∧ Seller.divide [1; 2; 3; 4] 2 = Ok [[1; 2]; [3; 4]]
  ∧ Seller.divide ([] : list Z) 2 = Ok []
  ∧ Seller.divide [1; 2; 3] 0 = Raise ValueError
  ∧ Seller.divide [1; 2; 3] (-1) = Ok [].
Proof. repeat split; vm_compute; reflexivity. Qed.

Example sample_main_seller :
  Seller.main ozon_sample_server 5 (ozon_sample_world ozon_sample_pages)
  = Some (Ok tt,
          mkWorld []
            [ Seller.ProductList "client" "token" EmptyString;
              Seller.ProductList "client" "token" "a";
              Seller.ImportStocks "client" "token"
                [Seller.mkStock "111" 5; Seller.mkStock "222" 0; Seller.mkStock "333" 0] ]
            [] sample_environ).
Proof. vm_compute. reflexivity. Qed.

Example sample_main_market :
  Market.main market_sample_server 5 (market_sample_world market_sample_pages)
  = Some (Ok tt,
          mkWorld []
            [ Market.OfferMappingEntries "fbs" "token" (PyStr EmptyString);
              Market.OfferMappingEntries "fbs" "token" (PyStr "next");
              Market.PutStocks "fbs" "token"
                [Market.mkStock "111" "wh-fbs" [Market.mkItem 5 "FIT" "2024-01-01T00:00:00Z"];
                 Market.mkStock "222" "wh-fbs" [Market.mkItem 0 "FIT" "2024-01-01T00:00:00Z"];
                 Market.mkStock "333" "wh-fbs" [Market.mkItem 0 "FIT" "2024-01-01T00:00:00Z"]];
              Market.OfferMappingEntries "dbs" "token" (PyStr EmptyString) ]
            [Print None "Превышено время ожидания..."] sample_environ).
Proof. vm_compute. reflexivity. Qed.

Lemma sample_ids_NoDup : NoDup sample_ids.
Proof. apply (bool_decide_unpack _). vm_compute. exact I. Defined.

Lemma create_stocks_set_difference_witness :
  NoDup sample_ids
  ∧ reconciled Seller.stock_offer_id (λ r z, Seller.stock r = z)
               (λ id, Seller.mkStock id 0) sample_rows sample_ids
               (Seller.create_stocks sample_rows sample_ids)
  ∧ reconciled Market.sku
               (λ r z, Market.warehouseId r = "wh"%string
                       ∧ Market.items r = [Market.mkItem z "FIT" "2024-01-01T00:00:00Z"])
               (λ id, Market.mkStock id "wh" [Market.mkItem 0 "FIT" "2024-01-01T00:00:00Z"])
               sample_rows sample_ids
               (Market.create_stocks "2024-01-01T00:00:00" sample_rows sample_ids "wh").
Proof.
  split; [exact sample_ids_NoDup|]. split.
  - exact (proj1 (create_stocks_set_difference sample_rows sample_ids sample_ids_NoDup)).
  - exact (proj2 (create_stocks_set_difference sample_rows sample_ids sample_ids_NoDup)
             "2024-01-01T00:00:00" "wh"%string).
Defined.

Lemma batches_within_ceiling_witness :
  0 < 2
  ∧ (∃ chunks, Seller.divide [1; 2; 3; 4; 5] 2 = Ok chunks
               ∧ Forall (λ c, Z.of_nat (length c) ≤ 2) chunks)
  ∧ only_sends seller_within_ceiling (Seller.main ozon_sample_server 5)
  ∧ only_sends market_within_ceiling (Market.main market_sample_server 5).
Proof.
  assert (0 < 2) as Hpos by reflexivity.
  split; [exact Hpos|]. split_and!.
  - exact (proj1 batches_within_ceiling Z [1; 2; 3; 4; 5] 2 Hpos).
  - exact (proj2 (proj2 (proj1 (proj2 batches_within_ceiling)
                           _ ozon_sample_server 5%nat sample_rows "client" "token"%string))).
  - exact (proj2 (proj2 (proj2 (proj2 batches_within_ceiling)
                           _ market_sample_server 5%nat sample_rows "fbs" "token" "wh"%string))).
Defined.

Lemma batches_rebuild_records_witness :
  0 < 2
  ∧ (∃ chunks, Seller.divide [1; 2; 3; 4; 5] 2 = Ok chunks ∧ concat chunks = [1; 2; 3; 4; 5])
  ∧ ∃ new,
      [ Seller.ProductList "client" "token" EmptyString; Seller.ProductList "client" "token" "a";
        Seller.ImportStocks "client" "token"
          [Seller.mkStock "111" 5; Seller.mkStock "222" 0; Seller.mkStock "333" 0] ]
      = [] ++ new
      ∧ concat (seller_stock_batches new)
        = [Seller.mkStock "111" 5; Seller.mkStock "222" 0; Seller.mkStock "333" 0].
Proof.
  assert (0 < 2) as Hpos by reflexivity.
  split; [exact Hpos|]. split.
  - exact (proj1 batches_rebuild_records Z [1; 2; 3; 4; 5] 2 Hpos).
  - refine (proj1 (proj2 batches_rebuild_records) _ ozon_sample_server 5%nat sample_rows
              "client" "token"%string (ozon_sample_world ozon_sample_pages)
              [Seller.mkStock "111" 5]
              [Seller.mkStock "111" 5; Seller.mkStock "222" 0; Seller.mkStock "333" 0]
              (mkWorld [] _ [] sample_environ) _).
    vm_compute. reflexivity.
Defined.

Lemma main_catches_three_categories_witness :
  Seller.main ozon_sample_server 5 (ozon_sample_world [])
  = Some (Ok tt,
          mkWorld [] [Seller.ProductList "client" "token" EmptyString]
                  [Print (Some HTTPError) "ERROR_2"] sample_environ)
  ∧ Market.main market_sample_server 5 (market_sample_world [])
    = Some (Ok tt,
            mkWorld [] [Market.OfferMappingEntries "fbs" "token" (PyStr EmptyString)]
                    [Print None "Превышено время ожидания..."] sample_environ).
Proof.
  split.
  - refine (proj1 main_catches_three_categories _ ozon_sample_server 5%nat
              (ozon_sample_world []) "client" "token"%string (Raise HTTPError)
              (mkWorld [] [Seller.ProductList "client" "token" EmptyString] [] sample_environ)
              _ _ _); vm_compute; reflexivity.
  - refine (proj2 main_catches_three_categories _ market_sample_server 5%nat
              (market_sample_world []) "token" "fbs" "dbs" "wh-fbs" "wh-dbs"%string
              sample_rows (market_sample_world []) (Raise ReadTimeout)
              (mkWorld [] [Market.OfferMappingEntries "fbs" "token" (PyStr EmptyString)] []
                       sample_environ)
              _ _ _ _ _ _ _); vm_compute; reflexivity.
Defined.

Lemma ozon_sample_served :
  ozon_serves ozon_sample_server "client" "token" ozon_sample_pages EmptyString ozon_sample_pages.
Proof.
  cbn. eexists. split; [reflexivity|]. eexists. split; [reflexivity|]. exact I.
Defined.

Lemma market_sample_served :
  market_serves market_sample_server "fbs" "token" market_sample_pages (PyStr EmptyString)
    market_sample_pages.
Proof.
  cbn. eexists. split; [reflexivity|]. eexists. split; [reflexivity|]. exact I.
Defined.

Lemma get_offer_ids_collects_all_pages_witness :
  (∃ s', Seller.get_offer_ids ozon_sample_server 5 "client" "token"
           (ozon_sample_world ozon_sample_pages)
         = Some (Ok sample_ids,
                 after_requests (ozon_sample_world ozon_sample_pages)
                   [ Seller.ProductList "client" "token" EmptyString;
                     Seller.ProductList "client" "token" "a" ] s'))
  ∧ (∃ s', Market.get_offer_ids market_sample_server 5 "fbs" "token"
             (market_sample_world market_sample_pages)
           = Some (Ok sample_ids,
                   after_requests (market_sample_world market_sample_pages)
                     [ Market.OfferMappingEntries "fbs" "token" (PyStr EmptyString);
                       Market.OfferMappingEntries "fbs" "token" (PyStr "next") ] s')).
Proof.
  split.
  - refine (proj1 get_offer_ids_collects_all_pages _ ozon_sample_server
              "client" "token"%string (ozon_sample_world ozon_sample_pages)
              ozon_sample_pages 5%nat ozon_sample_served _ _); [reflexivity | cbn; lia].
  - refine (proj2 get_offer_ids_collects_all_pages _ market_sample_server
              "fbs" "token"%string (market_sample_world market_sample_pages)
              market_sample_pages 5%nat market_sample_served _ _); [reflexivity | cbn; lia].
Defined.

Lemma get_offer_ids_terminates_witness :
  (∃ k ids s',
      (k < 2)%nat
      ∧ Seller.get_offer_ids ozon_sample_server 5 "client" "token"
          (ozon_sample_world ozon_sample_pages)
        = Some (Ok ids,
                after_requests (ozon_sample_world ozon_sample_pages)
                  (take (S k) (ozon_requests "client" "token" EmptyString ozon_sample_pages)) s'))
  ∧ (∃ k ids s',
      (k < 2)%nat
      ∧ Market.get_offer_ids market_sample_server 5 "fbs" "token"
          (market_sample_world market_sample_pages)
        = Some (Ok ids,
                after_requests (market_sample_world market_sample_pages)
                  (take (S k) (market_requests "fbs" "token" (PyStr EmptyString) market_sample_pages))
                  s')).
Proof.
  split.
  - refine (proj1 get_offer_ids_terminates _ ozon_sample_server
              "client" "token"%string (ozon_sample_world ozon_sample_pages)
              ozon_sample_pages 5%nat ozon_sample_served _ _);
      [eexists; reflexivity | cbn; lia].
  - refine (proj2 get_offer_ids_terminates _ market_sample_server
              "fbs" "token"%string (market_sample_world market_sample_pages)
              market_sample_pages 5%nat market_sample_served _ _);
      [eexists; reflexivity | cbn; lia].
Defined.

Lemma create_stocks_empties_price_upload_witness :
  NoDup sample_ids
  ∧ Seller.create_prices sample_rows ["222"; "333"]%string = Ok []
  ∧ ∃ new,
      [ Seller.ProductList "client" "token" EmptyString; Seller.ProductList "client" "token" "a";
        Seller.ImportStocks "client" "token"
          [Seller.mkStock "111" 5; Seller.mkStock "222" 0; Seller.mkStock "333" 0] ]
      = [] ++ new
      ∧ Forall seller_no_price_update new.
Proof.
  split; [exact sample_ids_NoDup|]. split.
  - refine (proj2 (proj2 (proj1 create_stocks_empties_price_upload sample_rows sample_ids
              [Seller.mkStock "111" 5; Seller.mkStock "222" 0; Seller.mkStock "333" 0]
              ["222"; "333"]%string sample_ids_NoDup _))).
    vm_compute. reflexivity.
  - refine (proj2 create_stocks_empties_price_upload _ ozon_sample_server 5%nat
              "client" "token"%string (ozon_sample_world ozon_sample_pages) sample_ids
              (mkWorld [] [ Seller.ProductList "client" "token" EmptyString;
                            Seller.ProductList "client" "token" "a" ] [] sample_environ)
              (Ok tt)
              (mkWorld [] _ [] sample_environ) _ sample_ids_NoDup _);
      vm_compute; reflexivity.
Defined.

Lemma dot_free_sample : dot_free "5'990".
Proof. apply (bool_decide_unpack _). vm_compute. exact I. Defined.

Lemma digits_sample : Forall (λ c, is_digit c = true) (String.list_ascii_of_string "5990").
Proof. apply (bool_decide_unpack _). vm_compute. exact I. Defined.

Lemma price_conversion_digits_before_dot_witness :
  dot_free "5'990"
  ∧ Seller.price_conversion (PyStr "5'990.99 руб.") = Ok "5990"%string
  ∧ Forall (λ c, is_digit c = true) (String.list_ascii_of_string "5990")
  ∧ py_int (PyStr "5990") = Ok 5990.
Proof.
  split; [exact dot_free_sample|]. split.
  - exact (proj1 (proj2 price_conversion_digits_before_dot)
             "5'990" "99 руб."%string dot_free_sample).
  - split; [exact digits_sample|].
    exact (proj2 (proj2 (proj2 (proj2 (proj2 price_conversion_digits_before_dot))))
             "5990"%string digits_sample).
Defined.

Example sample_builtins :
  py_int (PyStr " 12 ") = Ok 12 ∧ py_int (PyStr "-7") = Ok (-7)
  ∧ py_int (PyStr "1_000") = Ok 1000 ∧ py_int (PyStr EmptyString) = Raise ValueError
  ∧ py_int (PyStr ">10") = Raise ValueError ∧ py_int (PyStr "1__0") = Raise ValueError
  ∧ py_int (PyStr "5.0") = Raise ValueError ∧ py_int (PyStr "+ 5") = Raise ValueError
  ∧ py_str (PyInt (-120)) = "-120"%string ∧ py_str (PyInt 0) = "0"%string
  ∧ py_range 0 5 2 = Ok [0; 2; 4] ∧ py_range 0 4 2 = Ok [0; 2]
  ∧ py_range 5 0 (-2) = Ok [5; 3; 1]
  ∧ py_slice [1; 2; 3; 4; 5] 4 6 = [5] ∧ py_slice [1; 2; 3; 4; 5] (-2) 9 = [4; 5]
  ∧ py_slice [1; 2; 3; 4; 5] 3 1 = []
  ∧ split_dot "12.5.7" = ["12"; "5"; "7"]%string ∧ split_dot EmptyString = [EmptyString]
  ∧ split_dot "a." = ["a"%string; EmptyString].
Proof. repeat split; vm_compute; reflexivity. Qed.

Example sample_stock_of_count :
  Seller.stock_of_count (PyStr ">10") = Ok 100
  ∧ Seller.stock_of_count (PyStr "1") = Ok 0
  ∧ Seller.stock_of_count (PyInt 1) = Ok 0
  ∧ Seller.stock_of_count (PyStr "01") = Ok 1
  ∧ Seller.stock_of_count (PyStr "7") = Ok 7
  ∧ Seller.stock_of_count (PyInt 10) = Ok 10
  ∧ Seller.stock_of_count (PyStr "нет") = Raise ValueError
  ∧ Seller.stock_of_count PyNone = Raise TypeError.
Proof. repeat split; vm_compute; reflexivity. Qed.

(** ** The further statements run on the sample data *)

Lemma divide_step_not_positive_witness :
  -1 < 0 ∧ Seller.divide [1; 2; 3] (-1) = Ok [].
Proof.
  assert (-1 < 0) as Hneg by reflexivity.
  split; [exact Hneg|].
  exact (proj2 (divide_step_not_positive [1; 2; 3]) (-1) Hneg).
Defined.

Lemma divide_chunk_shape_witness :
  0 < 2
  ∧ ∃ chunks,
      Seller.divide [1; 2; 3; 4; 5] 2 = Ok chunks
      ∧ Z.of_nat (length chunks) = (Z.of_nat (length [1; 2; 3; 4; 5]) + 2 - 1) / 2.
Proof.
  assert (0 < 2) as Hpos by reflexivity.
  split; [exact Hpos|].
  destruct (divide_chunk_shape [1; 2; 3; 4; 5] 2 Hpos) as (chunks & Hrun & Hlen & _).
  exists chunks. split; [exact Hrun | exact Hlen].
Defined.

Lemma create_stocks_conserves_ids_witness :
  Seller.create_stocks sample_rows ["111"; "111"; "222"]%string
  = Ok ([Seller.mkStock "111" 5; Seller.mkStock "111" 0; Seller.mkStock "222" 0],
        ["111"; "222"]%string)
  ∧ length [Seller.mkStock "111" 5; Seller.mkStock "111" 0; Seller.mkStock "222" 0]
    = length ["111"; "111"; "222"]%string.
Proof.
  assert (Seller.create_stocks sample_rows ["111"; "111"; "222"]%string
          = Ok ([Seller.mkStock "111" 5; Seller.mkStock "111" 0; Seller.mkStock "222" 0],
                ["111"; "222"]%string)) as Hrun by (vm_compute; reflexivity).
  split; [exact Hrun|].
  exact (proj1 (proj2 (proj1 (create_stocks_conserves_ids sample_rows
                                ["111"; "111"; "222"]%string) _ _ Hrun))).
Defined.

Lemma rows_bad_quantity_second :
  first_with_code rows_bad_quantity
    {[ "Код" := PyStr "222"; "Количество" := PyStr "много"; "Цена" := PyStr "20.00" ]}.
Proof.
  exists 1%nat. split; [reflexivity|].
  intros [|j] w' Hj Hw'; [|lia]. injection Hw' as <-. vm_compute. discriminate.
Defined.

Lemma create_stocks_all_or_nothing_witness :
  ∃ e, Seller.create_stocks rows_bad_quantity ["111"; "222"]%string = Raise e.
Proof.
  refine (proj2 (proj1 (create_stocks_all_or_nothing rows_bad_quantity
                          ["111"; "222"]%string)
                   _ rows_bad_quantity_second _) ValueError _).
  - apply (bool_decide_unpack _). vm_compute. exact I.
  - vm_compute. reflexivity.
Defined.

Lemma price_conversion_idempotent_witness :
  Seller.price_conversion (PyStr "5'990.00 руб.") = Ok "5990"%string
  ∧ Seller.price_conversion (PyStr "5990") = Ok "5990"%string
  ∧ (String.length "5990" ≤ String.length "5'990.00 руб.")%nat.
Proof.
  assert (Seller.price_conversion (PyStr "5'990.00 руб.") = Ok "5990"%string) as Hrun
    by reflexivity.
  split; [exact Hrun|].
  exact (price_conversion_idempotent "5'990.00 руб." "5990" Hrun).
Defined.

Lemma sample_rows_listed : listed sample_rows ["111"; "444"]%string = sample_rows.
Proof. vm_compute. reflexivity. Defined.

Lemma sample_rows_priced :
  ∀ w, w ∈ listed sample_rows ["111"; "444"]%string →
       ∃ s, price_cell w = PyStr s ∧ digits_only (before_dot s) ≠ EmptyString.
Proof.
  rewrite sample_rows_listed. apply Forall_forall.
  repeat constructor; eexists; (split; [reflexivity | vm_compute; discriminate]).
Defined.

Lemma rows_without_price_listed :
  {[ "Код" := PyStr "111"; "Количество" := PyStr "5" ]}
  ∈ listed rows_without_price ["111"%string].
Proof. apply (bool_decide_unpack _). vm_compute. exact I. Defined.

Lemma seller_create_prices_outcome_witness :
  (∃ prices, Seller.create_prices sample_rows ["111"; "444"]%string = Ok prices
             ∧ length prices = 2%nat)
  ∧ Seller.create_prices rows_without_price ["111"%string] = Raise AttributeError.
Proof.
  split.
  - destruct (proj1 (seller_create_prices_outcome sample_rows ["111"; "444"]%string))
      as (prices & Hrun & Hrec).
    { intros w Hw. destruct (sample_rows_priced w Hw) as (s & Hs & _). by exists s. }
    exists prices. split; [exact Hrun|].
    rewrite <- (Forall2_length _ _ _ Hrec), sample_rows_listed. reflexivity.
  - refine (proj2 (seller_create_prices_outcome rows_without_price ["111"%string])
              _ rows_without_price_listed _).
    intros s. vm_compute. discriminate.
Defined.

Lemma rows_price_on_request_listed :
  {[ "Код" := PyStr "111"; "Количество" := PyStr "5"; "Цена" := PyStr "по запросу" ]}
  ∈ listed rows_price_on_request ["111"%string].
Proof. apply (bool_decide_unpack _). vm_compute. exact I. Defined.

Lemma market_create_prices_outcome_witness :
  (∃ prices, Market.create_prices sample_rows ["111"; "444"]%string = Ok prices
             ∧ length prices = 2%nat)
  ∧ ∃ e, Market.create_prices rows_price_on_request ["111"%string] = Raise e
         ∧ (e = AttributeError ∨ e = ValueError).
Proof.
  split.
  - destruct (proj1 (market_create_prices_outcome sample_rows ["111"; "444"]%string)
                sample_rows_priced) as (prices & Hrun & Hrec).
    exists prices. split; [exact Hrun|].
    rewrite <- (Forall2_length _ _ _ Hrec), sample_rows_listed. reflexivity.
  - refine (proj2 (market_create_prices_outcome rows_price_on_request ["111"%string])
              _ rows_price_on_request_listed _).
    intros s Hs. vm_compute in Hs. injection Hs as <-. vm_compute. reflexivity.
Defined.

Lemma get_offer_ids_no_early_exit_witness :
  Seller.get_offer_ids ozon_endless_server 3 "client" "token"
    (mkWorld 0%nat [] [] sample_environ) = None
  ∧ Market.get_offer_ids market_endless_server 3 "fbs" "token"
      (mkWorld 0%nat [] [] sample_environ) = None.
Proof.
  split.
  - refine (proj1 get_offer_ids_no_early_exit _ ozon_endless_server
              "client" "token"%string (mkWorld 0%nat [] [] sample_environ)
              [ozon_endless_page 0; ozon_endless_page 1; ozon_endless_page 2] 3%nat _ _ _).
    + cbn. repeat (eexists; split; [reflexivity|]). exact I.
    + reflexivity.
    + cbn. lia.
  - refine (proj2 get_offer_ids_no_early_exit _ market_endless_server
              "fbs" "token"%string (mkWorld 0%nat [] [] sample_environ)
              [market_endless_page; market_endless_page; market_endless_page] 3%nat _ _ _).
    + cbn. repeat (eexists; split; [reflexivity|]). exact I.
    + reflexivity.
    + cbn. lia.
Defined.

Lemma get_offer_ids_propagates_error_witness :
  Seller.get_offer_ids ozon_sample_server 5 "client" "token"
    (ozon_sample_world (take 1 ozon_sample_pages))
  = Some (Raise HTTPError,
          mkWorld []
            [ Seller.ProductList "client" "token" EmptyString;
              Seller.ProductList "client" "token" "a" ] [] sample_environ)
  ∧ Market.get_offer_ids market_sample_server 5 "fbs" "token"
      (market_sample_world (take 1 market_sample_pages))
    = Some (Raise ReadTimeout,
            mkWorld []
              [ Market.OfferMappingEntries "fbs" "token" (PyStr EmptyString);
                Market.OfferMappingEntries "fbs" "token" (PyStr "next") ] [] sample_environ).
Proof.
  split.
  - refine (proj1 get_offer_ids_propagates_error _ ozon_sample_server
              "client" "token"%string (ozon_sample_world (take 1 ozon_sample_pages))
              (take 1 ozon_sample_pages) [] "a"%string HTTPError [] 5%nat _ _ _ _).
    + cbn. eexists. split; [reflexivity|]. split; reflexivity.
    + reflexivity.
    + reflexivity.
    + cbn. lia.
  - refine (proj2 get_offer_ids_propagates_error _ market_sample_server
              "fbs" "token"%string (market_sample_world (take 1 market_sample_pages))
              (take 1 market_sample_pages) [] (PyStr "next") ReadTimeout [] 5%nat _ _ _ _).
    + cbn. eexists. split; [reflexivity|]. split; reflexivity.
    + reflexivity.
    + reflexivity.
    + cbn. lia.
Defined.

Lemma main_missing_variable_witness :
  Seller.main ozon_sample_server 5 (mkWorld ozon_sample_pages [] [] ∅)
  = Some (Raise EnvError, mkWorld ozon_sample_pages [] [] ∅)
  ∧ Market.main market_sample_server 5 (mkWorld market_sample_pages [] [] ∅)
    = Some (Raise EnvError, mkWorld market_sample_pages [] [] ∅).
Proof.
  split.
  - refine (proj1 main_missing_variable _ ozon_sample_server 5%nat
              (mkWorld ozon_sample_pages [] [] ∅) "CLIENT_ID"%string _ _).
    + apply (bool_decide_unpack _). vm_compute. exact I.
    + reflexivity.
  - refine (proj2 main_missing_variable _ market_sample_server 5%nat
              (mkWorld market_sample_pages [] [] ∅) "DBS_ID"%string _ _).
    + apply (bool_decide_unpack _). vm_compute. exact I.
    + reflexivity.
Defined.

Lemma main_download_failure_witness :
  Seller.main ozon_no_supplier_server 5 (ozon_sample_world ozon_sample_pages)
  = Some (Ok tt,
          mkWorld []
            [ Seller.ProductList "client" "token" EmptyString;
              Seller.ProductList "client" "token" "a" ]
            [Print (Some ConnectionError) "Ошибка соединения"] sample_environ)
  ∧ Market.main market_no_supplier_server 5 (market_sample_world market_sample_pages)
    = Some (Raise ConnectionError, mkWorld market_sample_pages [] [] sample_environ).
Proof.
  split.
  - refine (proj1 main_download_failure _ ozon_no_supplier_server 5%nat
              (ozon_sample_world ozon_sample_pages) "client" "token"%string sample_ids
              (mkWorld [] [ Seller.ProductList "client" "token" EmptyString;
                            Seller.ProductList "client" "token" "a" ] [] sample_environ)
              ConnectionError [] _ _ _ _ _); vm_compute; reflexivity.
  - refine (proj2 main_download_failure _ market_no_supplier_server 5%nat
              (market_sample_world market_sample_pages)
              "token" "fbs" "dbs" "wh-fbs" "wh-dbs"%string ConnectionError
              market_sample_pages _ _ _ _ _ _); vm_compute; reflexivity.
Defined.

Lemma seller_main_good_run_witness :
  Seller.main ozon_sample_server 5 (ozon_sample_world ozon_sample_pages)
  = Some (Ok tt,
          mkWorld []
            ([] ++ ozon_requests "client" "token" EmptyString ozon_sample_pages
                ++ map (Seller.ImportStocks "client" "token")
                     [[Seller.mkStock "111" 5; Seller.mkStock "222" 0;
                       Seller.mkStock "333" 0]])
            [] sample_environ).
Proof.
  refine (proj1 (seller_main_good_run ozon_sample_server 5%nat
            (ozon_sample_world ozon_sample_pages) "client" "token"%string
            ozon_sample_pages [] "b"%string sample_rows []
            [Seller.mkStock "111" 5; Seller.mkStock "222" 0; Seller.mkStock "333" 0]
            ["222"; "333"]%string
            [[Seller.mkStock "111" 5; Seller.mkStock "222" 0; Seller.mkStock "333" 0]]
            [] _ _ _ _ _ _ _ _ _ _)).
  - reflexivity.
  - reflexivity.
  - cbn. eexists. split; [reflexivity|]. eexists. split; [reflexivity|].
    split; reflexivity.
  - reflexivity.
  - cbn. lia.
  - reflexivity.
  - exact sample_ids_NoDup.
  - vm_compute. reflexivity.
  - vm_compute. reflexivity.
  - cbn. eexists. split; reflexivity.
Defined.

Lemma nonzero_stock_comes_from_supplier_witness :
  Seller.stock_offer_id (Seller.mkStock "111" 5) ∈ map code sample_rows
  ∧ Seller.stock_offer_id (Seller.mkStock "111" 5) ∈ sample_ids.
Proof.
  refine (proj1 nonzero_stock_comes_from_supplier sample_rows sample_ids
            [Seller.mkStock "111" 5; Seller.mkStock "222" 0; Seller.mkStock "333" 0]
            ["222"; "333"]%string (Seller.mkStock "111" 5) _ _ _).
  - vm_compute. reflexivity.
  - apply (bool_decide_unpack _). vm_compute. exact I.
  - cbn. discriminate.
Defined.

Lemma main_bad_quantity_witness :
  Seller.main ozon_bad_rows_server 5 (ozon_sample_world ozon_sample_pages)
  = Some (Ok tt,
          mkWorld []
            [ Seller.ProductList "client" "token" EmptyString;
              Seller.ProductList "client" "token" "a" ]
            ([] ++ [Print (Some ValueError) "ERROR_2"]) sample_environ)
  ∧ Market.main market_bad_rows_server 5 (market_sample_world market_sample_pages)
    = Some (Ok tt,
            mkWorld []
              [ Market.OfferMappingEntries "fbs" "token" (PyStr EmptyString);
                Market.OfferMappingEntries "fbs" "token" (PyStr "next") ]
              ([] ++ [Print (Some ValueError) "ERROR_2"]) sample_environ).
Proof.
  split.
  - refine (proj1 (proj1 main_bad_quantity _ ozon_bad_rows_server 5%nat
              (ozon_sample_world ozon_sample_pages) "client" "token"%string sample_ids
              (mkWorld [] [ Seller.ProductList "client" "token" EmptyString;
                            Seller.ProductList "client" "token" "a" ] [] sample_environ)
              rows_bad_quantity [] ValueError _ _ _ _ _)); vm_compute; reflexivity.
  - refine (proj1 (proj2 main_bad_quantity _ market_bad_rows_server 5%nat
              (market_sample_world market_sample_pages)
              "token" "fbs" "dbs" "wh-fbs" "wh-dbs"%string rows_bad_quantity
              market_sample_pages sample_ids
              (mkWorld [] [ Market.OfferMappingEntries "fbs" "token" (PyStr EmptyString);
                            Market.OfferMappingEntries "fbs" "token" (PyStr "next") ]
                       [] sample_environ)
              ValueError _ _ _ _ _ _ _ _)); vm_compute; reflexivity.
Defined.

Lemma seller_refused_batch_stops_upload_witness :
  Seller.upload_stocks ozon_refusing_server 5 sample_rows "client" "token"
    (ozon_sample_world ozon_sample_pages)
  = Some (Raise HTTPError,
          mkWorld []
            [ Seller.ProductList "client" "token" EmptyString;
              Seller.ProductList "client" "token" "a";
              Seller.ImportStocks "client" "token"
                [Seller.mkStock "111" 5; Seller.mkStock "222" 0; Seller.mkStock "333" 0] ]
            [] sample_environ).
Proof.
  refine (seller_refused_batch_stops_upload ozon_refusing_server 5%nat
            (ozon_sample_world ozon_sample_pages) "client" "token"%string sample_rows
            sample_ids
            (mkWorld [] [ Seller.ProductList "client" "token" EmptyString;
                          Seller.ProductList "client" "token" "a" ] [] sample_environ)
            [Seller.mkStock "111" 5; Seller.mkStock "222" 0; Seller.mkStock "333" 0]
            ["222"; "333"]%string [] []
            [Seller.mkStock "111" 5; Seller.mkStock "222" 0; Seller.mkStock "333" 0]
            [] HTTPError [] _ _ _ _ _); vm_compute; reflexivity.
Defined.

Lemma market_main_good_run_witness :
  Market.main market_steady_server 5 (mkWorld 0%nat [] [] sample_environ)
  = Some (Ok tt,
          mkWorld 4%nat
            [ Market.OfferMappingEntries "fbs" "token" (PyStr EmptyString);
              Market.PutStocks "fbs" "token"
                [Market.mkStock "111" "wh-fbs" [Market.mkItem 5 "FIT" "2024-01-01T00:00:00Z"];
                 Market.mkStock "222" "wh-fbs" [Market.mkItem 0 "FIT" "2024-01-01T00:00:00Z"]];
              Market.OfferMappingEntries "dbs" "token" (PyStr EmptyString);
              Market.PutStocks "dbs" "token"
                [Market.mkStock "111" "wh-dbs" [Market.mkItem 5 "FIT" "2024-01-01T00:00:00Z"];
                 Market.mkStock "222" "wh-dbs" [Market.mkItem 0 "FIT" "2024-01-01T00:00:00Z"]] ]
            [] sample_environ).
Proof.
  refine (market_main_good_run market_steady_server 5%nat
            (mkWorld 0%nat [] [] sample_environ)
            "token" "fbs" "dbs" "wh-fbs" "wh-dbs"%string sample_rows 0%nat
            [market_steady_page] 1%nat PyNone
            [Market.mkStock "111" "wh-fbs" [Market.mkItem 5 "FIT" "2024-01-01T00:00:00Z"];
             Market.mkStock "222" "wh-fbs" [Market.mkItem 0 "FIT" "2024-01-01T00:00:00Z"]]
            ["222"%string]
            [[Market.mkStock "111" "wh-fbs" [Market.mkItem 5 "FIT" "2024-01-01T00:00:00Z"];
              Market.mkStock "222" "wh-fbs" [Market.mkItem 0 "FIT" "2024-01-01T00:00:00Z"]]]
            2%nat
            [market_steady_page] 3%nat PyNone
            [Market.mkStock "111" "wh-dbs" [Market.mkItem 5 "FIT" "2024-01-01T00:00:00Z"];
             Market.mkStock "222" "wh-dbs" [Market.mkItem 0 "FIT" "2024-01-01T00:00:00Z"]]
            ["222"%string]
            [[Market.mkStock "111" "wh-dbs" [Market.mkItem 5 "FIT" "2024-01-01T00:00:00Z"];
              Market.mkStock "222" "wh-dbs" [Market.mkItem 0 "FIT" "2024-01-01T00:00:00Z"]]]
            4%nat _ _ _ _ _ _ _ _ _ _ _ _ _ _ _ _ _ _).
  - reflexivity.
  - reflexivity.
  - reflexivity.
  - reflexivity.
  - reflexivity.
  - reflexivity.
  - cbn. eexists. split; [reflexivity|]. split; reflexivity.
  - reflexivity.
  - cbn. lia.
  - vm_compute. reflexivity.
  - vm_compute. reflexivity.
  - cbn. eexists. split; reflexivity.
  - cbn. eexists. split; [reflexivity|]. split; reflexivity.
  - reflexivity.
  - cbn. lia.
  - vm_compute. reflexivity.
  - vm_compute. reflexivity.
  - cbn. eexists. split; reflexivity.
Defined.
